(** * unbound-control: the remote control client of smallapp/unbound-control.c

    The client reads the configuration, builds an SSL context from the
    configured key material, connects to the server over TCP, performs
    the SSL handshake, checks the server's certificate, writes one
    request and echoes the answer to stdout until the server closes.

    The program is a straight sequence of calls into OpenSSL, the
    socket layer and the util/ modules of the repository, with two
    [while(1)] loops.  It is embedded as a computation in a small
    monad: a run yields the list of the calls it made, in order, and
    the way it ended.  What the called functions answer is read from an
    [environment].  [main], which parses the options and hands the
    command line to [go], and [usage] are left out. *)

From Stdlib Require Import ZArith String Ascii List Bool Lia.
Import ListNotations.

Local Open Scope string_scope.
Local Open Scope list_scope.
Local Open Scope Z_scope.

(** ** Constants of the headers

    The numeric values come from openssl/ssl.h, openssl/x509_vfy.h;
    they are not part of the file, so the development is parametric
    in them. *)

Class openssl_constants : Type := {
  SSL_OP_NO_SSLv2 : Z;
  SSL_FILETYPE_PEM : Z;
  SSL_VERIFY_PEER : Z;
  SSL_MODE_AUTO_RETRY : Z;
  SSL_ERROR_WANT_READ : Z;
  SSL_ERROR_WANT_WRITE : Z;
  SSL_ERROR_ZERO_RETURN : Z;
  X509_V_OK : Z
}.

(** The values of OpenSSL 0.9.8 / 1.0, used for the concrete runs. *)
#[local] Instance openssl_1_0 : openssl_constants := {|
  SSL_OP_NO_SSLv2 := 0x01000000;
  SSL_FILETYPE_PEM := 1;
  SSL_VERIFY_PEER := 1;
  SSL_MODE_AUTO_RETRY := 4;
  SSL_ERROR_WANT_READ := 2;
  SSL_ERROR_WANT_WRITE := 3;
  SSL_ERROR_ZERO_RETURN := 6;
  X509_V_OK := 0
|}.

(** ** C strings *)

Definition NUL : ascii := "000"%char.
Definition LF : ascii := "010"%char.

(** [strchr s c]: the suffix of [s] that starts at the first [c], or
    [None] (the null pointer) when [c] does not occur. *)
Fixpoint strchr (s : string) (c : ascii) : option string :=
  match s with
  | EmptyString => None
  | String a s' => if Ascii.eqb a c then Some s else strchr s' c
  end.

(** What [printf("%s", buf)] prints and what [strlen] measures: the
    bytes of the array before its first zero byte. *)
Fixpoint c_str (buf : string) : string :=
  match buf with
  | EmptyString => EmptyString
  | String a buf' => if Ascii.eqb a NUL then EmptyString else String a (c_str buf')
  end.

Definition strlen (s : string) : Z := Z.of_nat (String.length (c_str s)).

(** [buf[r] = 0] on an array that holds [buf]. *)
Definition store_nul (buf : string) (r : Z) : string :=
  (substring 0 (Z.to_nat r) buf ++ String NUL
     (substring (S (Z.to_nat r)) (String.length buf - S (Z.to_nat r)) buf))%string.

(** ** Data *)

(** The fields of [struct config_file] (util/config_file.h) that the
    file reads.  [control_ifs] is a linked list of strings. *)
Record config_file : Type := {
  server_cert_file : string;
  control_key_file : string;
  control_cert_file : string;
  control_ifs : list string;
  control_port : Z;
  remote_control_enable : Z
}.

Inductive address_family : Type := AF_INET | AF_INET6.

(** A filled-in [struct sockaddr_storage]: family, address bytes, port. *)
Record sockaddr_storage : Type := {
  ss_family : address_family;
  ss_addr : string;
  ss_port : Z
}.

(** What the program has put into its [SSL_CTX]. *)
Record SSL_CTX : Type := {
  ctx_options : Z;
  ctx_certificate_file : option string;
  ctx_PrivateKey_file : option string;
  ctx_verify_locations : option string;
  ctx_verify_mode : option Z
}.

(** What the program has put into its [SSL]. *)
Record SSL : Type := {
  ssl_ctx : SSL_CTX;
  ssl_connect_state : bool;
  ssl_mode : Z;
  ssl_fd : option Z
}.

(** ** Calls, traces and outcomes *)

(** One constructor per function that the file calls and that acts on
    the world outside it, with the arguments that matter. *)
Inductive event : Type :=
| E_config_create
| E_config_read (cfgfile : string)
| E_log_warn (msg : string)
| E_fname_after_chroot (fname : string)
| E_SSL_CTX_new
| E_SSL_CTX_set_options (op : Z)
| E_SSL_CTX_use_certificate_file (file : string) (type : Z)
| E_SSL_CTX_use_PrivateKey_file (file : string) (type : Z)
| E_SSL_CTX_check_private_key
| E_SSL_CTX_load_verify_locations (CAfile : string)
| E_SSL_CTX_set_verify (mode : Z)
| E_free
| E_extstrtoaddr (str : string)
| E_ipstrtoaddr (ip : string) (port : Z)
| E_socket (domain : address_family)
| E_connect (fd : Z) (addr : sockaddr_storage)
| E_log_addr (addr : sockaddr_storage)
| E_log_err (msg : string)
| E_SSL_new
| E_SSL_set_connect_state
| E_SSL_set_mode (mode : Z)
| E_SSL_set_fd (fd : Z)
| E_ERR_clear_error
| E_SSL_do_handshake
| E_SSL_get_error (ret : Z)
| E_SSL_get_verify_result
| E_SSL_get_peer_certificate
| E_X509_free
| E_SSL_write (data : string)
| E_SSL_read (num : Z)
| E_printf (out : string)
| E_SSL_free
| E_close (fd : Z)
| E_SSL_CTX_free
| E_config_delete.

(** The ways the process ends early.  [fatal_exit] (util/log.c) logs
    its message and does not return; [ssl_err] prints ["error: s"] and
    the OpenSSL error queue on stderr and calls [exit(1)]; a failed
    [connect] calls [exit(1)] itself. *)
Inductive failure : Type :=
| by_fatal_exit (msg : string)
| by_ssl_err (s : string)
| by_exit (status : Z).

Inductive outcome (A : Type) : Type :=
| Returns (a : A)
| Exits (f : failure)
| OutOfFuel.

Arguments Returns {A} a.
Arguments Exits {A} f.
Arguments OutOfFuel {A}.

(** A computation: the calls made, oldest first, and how it ended. *)
Definition M (A : Type) : Type := (list event * outcome A)%type.

Definition trace {A} (m : M A) : list event := fst m.
Definition result {A} (m : M A) : outcome A := snd m.

Definition ret {A} (a : A) : M A := ([], Returns a).

Definition bind {A B} (m : M A) (k : A -> M B) : M B :=
  match m with
  | (t, Returns a) => let (t', o) := k a in (t ++ t', o)
  | (t, Exits f) => (t, Exits f)
  | (t, OutOfFuel) => (t, OutOfFuel)
  end.

Definition call {A} (e : event) (answer : A) : M A := ([e], Returns answer).

Definition fatal_exit {A} (msg : string) : M A := ([], Exits (by_fatal_exit msg)).
Definition ssl_err {A} (s : string) : M A := ([], Exits (by_ssl_err s)).
Definition exit {A} (status : Z) : M A := ([], Exits (by_exit status)).
Definition out_of_fuel {A} : M A := ([], OutOfFuel).

(** [if(c) body;] *)
Definition when_ (c : bool) (body : M unit) : M unit :=
  if c then body else ret tt.

Declare Scope monad_scope.
Delimit Scope monad_scope with monad.
Notation "x <- m ;; k" := (bind m (fun x => k))
  (at level 61, m at next level, right associativity) : monad_scope.
Notation "m ;; k" := (bind m (fun _ => k))
  (at level 61, right associativity) : monad_scope.
Local Open Scope monad_scope.
Notation "' pat <- m ;; k" := (bind m (fun x => match x with pat => k end))
  (at level 61, pat pattern, m at next level, right associativity) : monad_scope.

(** ** The environment

    What the functions outside the file answer in one run.  Integers
    are the C return values; an [option] or a [bool] stands for a
    pointer that may be null.  The handshake and read answers are
    indexed by the number of the attempt, counted from 0. *)
Record environment : Type := {
  e_config_create : bool;
  e_config_read : string -> option config_file;
  e_fname_after_chroot : string -> option string;
  e_SSL_CTX_new : bool;
  e_SSL_CTX_set_options : Z -> Z;
  e_SSL_CTX_use_certificate_file : string -> Z;
  e_SSL_CTX_use_PrivateKey_file : string -> Z;
  e_SSL_CTX_check_private_key : option string -> option string -> Z;
  e_SSL_CTX_load_verify_locations : string -> Z;
  e_socket : address_family -> Z;
  e_connect : Z -> sockaddr_storage -> Z;
  e_strerror : string;
  e_SSL_new : bool;
  e_SSL_set_fd : Z -> Z;
  e_SSL_do_handshake : nat -> Z;
  e_SSL_get_error_handshake : nat -> Z;
  e_SSL_get_verify_result : Z;
  e_SSL_get_peer_certificate : bool;
  e_SSL_write : string -> Z;
  e_SSL_read : nat -> Z * string;
  e_SSL_get_error_read : nat -> Z
}.

Section Program.

Context {K : openssl_constants}.
Variable env : environment.

(** ** The called functions *)

Definition config_create : M bool :=
  call E_config_create (e_config_create env).

Definition config_read (cfgfile : string) : M (option config_file) :=
  call (E_config_read cfgfile) (e_config_read env cfgfile).

Definition log_warn (msg : string) : M unit := call (E_log_warn msg) tt.

Definition fname_after_chroot (fname : string) : M (option string) :=
  call (E_fname_after_chroot fname) (e_fname_after_chroot env fname).

Definition SSL_CTX_new : M (option SSL_CTX) :=
  call E_SSL_CTX_new
    (if e_SSL_CTX_new env
     then Some {| ctx_options := 0; ctx_certificate_file := None;
                  ctx_PrivateKey_file := None; ctx_verify_locations := None;
                  ctx_verify_mode := None |}
     else None).

(** Returns the option bits of the context after the call, which the
    context keeps. *)
Definition SSL_CTX_set_options (ctx : SSL_CTX) (op : Z) : M (SSL_CTX * Z) :=
  let o := e_SSL_CTX_set_options env op in
  call (E_SSL_CTX_set_options op)
    ({| ctx_options := o;
        ctx_certificate_file := ctx_certificate_file ctx;
        ctx_PrivateKey_file := ctx_PrivateKey_file ctx;
        ctx_verify_locations := ctx_verify_locations ctx;
        ctx_verify_mode := ctx_verify_mode ctx |}, o).

Definition SSL_CTX_use_certificate_file (ctx : SSL_CTX) (file : string) (type : Z)
  : M (SSL_CTX * Z) :=
  let r := e_SSL_CTX_use_certificate_file env file in
  call (E_SSL_CTX_use_certificate_file file type)
    ({| ctx_options := ctx_options ctx;
        ctx_certificate_file :=
          if r =? 0 then ctx_certificate_file ctx else Some file;
        ctx_PrivateKey_file := ctx_PrivateKey_file ctx;
        ctx_verify_locations := ctx_verify_locations ctx;
        ctx_verify_mode := ctx_verify_mode ctx |}, r).

Definition SSL_CTX_use_PrivateKey_file (ctx : SSL_CTX) (file : string) (type : Z)
  : M (SSL_CTX * Z) :=
  let r := e_SSL_CTX_use_PrivateKey_file env file in
  call (E_SSL_CTX_use_PrivateKey_file file type)
    ({| ctx_options := ctx_options ctx;
        ctx_certificate_file := ctx_certificate_file ctx;
        ctx_PrivateKey_file :=
          if r =? 0 then ctx_PrivateKey_file ctx else Some file;
        ctx_verify_locations := ctx_verify_locations ctx;
        ctx_verify_mode := ctx_verify_mode ctx |}, r).

(** Nonzero when the private key of the context fits its certificate. *)
Definition SSL_CTX_check_private_key (ctx : SSL_CTX) : M Z :=
  call E_SSL_CTX_check_private_key
    (e_SSL_CTX_check_private_key env
       (ctx_certificate_file ctx) (ctx_PrivateKey_file ctx)).

Definition SSL_CTX_load_verify_locations (ctx : SSL_CTX) (CAfile : string)
  : M (SSL_CTX * Z) :=
  let r := e_SSL_CTX_load_verify_locations env CAfile in
  call (E_SSL_CTX_load_verify_locations CAfile)
    ({| ctx_options := ctx_options ctx;
        ctx_certificate_file := ctx_certificate_file ctx;
        ctx_PrivateKey_file := ctx_PrivateKey_file ctx;
        ctx_verify_locations :=
          if r =? 1 then Some CAfile else ctx_verify_locations ctx;
        ctx_verify_mode := ctx_verify_mode ctx |}, r).

Definition SSL_CTX_set_verify (ctx : SSL_CTX) (mode : Z) : M SSL_CTX :=
  call (E_SSL_CTX_set_verify mode)
    {| ctx_options := ctx_options ctx;
       ctx_certificate_file := ctx_certificate_file ctx;
       ctx_PrivateKey_file := ctx_PrivateKey_file ctx;
       ctx_verify_locations := ctx_verify_locations ctx;
       ctx_verify_mode := Some mode |}.

Definition free : M unit := call E_free tt.

(** ** setup_ctx *)

Definition setup_ctx (cfg : config_file) : M SSL_CTX :=
  s_cert <- fname_after_chroot (server_cert_file cfg) ;;
  c_key <- fname_after_chroot (control_key_file cfg) ;;
  c_cert <- fname_after_chroot (control_cert_file cfg) ;;
  match s_cert, c_key, c_cert with
  | Some s_cert, Some c_key, Some c_cert =>
    ctx <- SSL_CTX_new ;;
    match ctx with
    | None => ssl_err "could not allocate SSL_CTX pointer"
    | Some ctx =>
      '(ctx, o) <- SSL_CTX_set_options ctx SSL_OP_NO_SSLv2 ;;
      when_ (Z.land o SSL_OP_NO_SSLv2 =? 0)
        (ssl_err "could not set SSL_OP_NO_SSLv2") ;;
      '(ctx, r) <- SSL_CTX_use_certificate_file ctx c_cert SSL_FILETYPE_PEM ;;
      when_ (r =? 0) (ssl_err "Error setting up SSL_CTX client key and cert") ;;
      '(ctx, r) <- SSL_CTX_use_PrivateKey_file ctx c_key SSL_FILETYPE_PEM ;;
      when_ (r =? 0) (ssl_err "Error setting up SSL_CTX client key and cert") ;;
      r <- SSL_CTX_check_private_key ctx ;;
      when_ (r =? 0) (ssl_err "Error setting up SSL_CTX client key and cert") ;;
      '(ctx, r) <- SSL_CTX_load_verify_locations ctx s_cert ;;
      when_ (negb (r =? 1))
        (ssl_err "Error setting up SSL_CTX verify, server cert") ;;
      ctx <- SSL_CTX_set_verify ctx SSL_VERIFY_PEER ;;
      free ;;
      free ;;
      free ;;
      ret ctx
    end
  | _, _, _ => fatal_exit "out of memory"
  end.

(** ** Address parsing (util/net_help.c)

    [ipstrtoaddr], [extstrtoaddr] and [addr_is_ip6] are defined in
    util/net_help.c, outside the file. *)

(** Modelled from the spec: the literal forms of an IP address, which
    the spec calls "syntactically valid address" and leaves open, with
    the family and the address bytes each one denotes. *)
Variable ip_literal : string -> option (address_family * string).

(** Modelled from the spec: the value of a decimal digit of a port. *)
Definition digit (c : ascii) : option Z :=
  let n := Z.of_N (N_of_ascii c) in
  if (48 <=? n) && (n <=? 57) then Some (n - 48) else None.

(** Modelled from the spec: the number that a run of decimal digits
    denotes, after the digits read into [acc]. *)
Fixpoint decimal (acc : Z) (s : string) : option Z :=
  match s with
  | EmptyString => Some acc
  | String c s' =>
    match digit c with
    | Some d => decimal (10 * acc + d) s'
    | None => None
    end
  end.

(** Modelled from the spec: a "numeric port" (section 8), a nonempty
    run of decimal digits, and the number it denotes. *)
Definition numeric_port (s : string) : option Z :=
  match s with
  | EmptyString => None
  | _ => decimal 0 s
  end.

(** Modelled from the spec: the address part of "address@port", the
    part of [s] before its first ['@']. *)
Fixpoint before_marker (s : string) : string :=
  match s with
  | EmptyString => EmptyString
  | String a s' =>
    if Ascii.eqb a "@" then EmptyString else String a (before_marker s')
  end.

(** Modelled from the spec: ipstrtoaddr of util/net_help.c, missing
    from the sources.  Section 4.2: "combine the bare address with the
    default port"; the address must be a literal. *)
Definition ipstrtoaddr (ip : string) (port : Z) : option sockaddr_storage :=
  match ip_literal ip with
  | Some (family, bytes) =>
    Some {| ss_family := family; ss_addr := bytes; ss_port := port |}
  | None => None
  end.

(** Modelled from the spec: extstrtoaddr of util/net_help.c, missing
    from the sources.  Section 4.2: "if the input contains an explicit
    port marker, parse address and port together and reject on
    malformed input"; section 8: the result is "that exact address/port
    pair".  The file calls it only on strings that hold the marker; the
    model rejects the others. *)
Definition extstrtoaddr (str : string) : option sockaddr_storage :=
  match strchr str "@" with
  | Some (String _ port) =>
    match numeric_port port with
    | Some n => ipstrtoaddr (before_marker str) n
    | None => None
    end
  | _ => None
  end.

(** Modelled from the spec: addr_is_ip6 of util/net_help.c, missing
    from the sources; the Endpoint of section 3 carries its "IP
    family". *)
Definition addr_is_ip6 (addr : sockaddr_storage) : bool :=
  match ss_family addr with
  | AF_INET6 => true
  | AF_INET => false
  end.

(** ** contact_server *)

Definition socket (domain : address_family) : M Z :=
  call (E_socket domain) (e_socket env domain).

Definition connect (fd : Z) (addr : sockaddr_storage) : M Z :=
  call (E_connect fd addr) (e_connect env fd addr).

Definition log_addr (addr : sockaddr_storage) : M unit :=
  call (E_log_addr addr) tt.

Definition log_err (msg : string) : M unit := call (E_log_err msg) tt.

(** Lines 116-128 of the file: the server string and its parsing. *)
Definition resolve (svr : option string) (cfg : config_file)
  : M sockaddr_storage :=
  let svr :=
    match svr with
    | Some svr => svr
    | None =>
      match control_ifs cfg with
      | str :: _ => str
      | [] => "127.0.0.1"
      end
    end in
  match strchr svr "@" with
  | Some _ =>
    a <- call (E_extstrtoaddr svr) (extstrtoaddr svr) ;;
    match a with
    | None => fatal_exit ("could not parse IP@port: " ++ svr)%string
    | Some addr => ret addr
    end
  | None =>
    a <- call (E_ipstrtoaddr svr (control_port cfg))
           (ipstrtoaddr svr (control_port cfg)) ;;
    match a with
    | None => fatal_exit ("could not parse IP: " ++ svr)%string
    | Some addr => ret addr
    end
  end.

Definition contact_server (svr : option string) (cfg : config_file) : M Z :=
  addr <- resolve svr cfg ;;
  fd <- socket (if addr_is_ip6 addr then AF_INET6 else AF_INET) ;;
  when_ (fd =? -1) (fatal_exit ("socket: " ++ e_strerror env)%string) ;;
  r <- connect fd addr ;;
  if r <? 0 then
    log_addr addr ;;
    log_err ("connect: " ++ e_strerror env)%string ;;
    exit 1
  else ret fd.

(** ** setup_ssl *)

Definition SSL_new (ctx : SSL_CTX) : M (option SSL) :=
  call E_SSL_new
    (if e_SSL_new env
     then Some {| ssl_ctx := ctx; ssl_connect_state := false;
                  ssl_mode := 0; ssl_fd := None |}
     else None).

Definition SSL_set_connect_state (ssl : SSL) : M SSL :=
  call E_SSL_set_connect_state
    {| ssl_ctx := ssl_ctx ssl; ssl_connect_state := true;
       ssl_mode := ssl_mode ssl; ssl_fd := ssl_fd ssl |}.

Definition SSL_set_mode (ssl : SSL) (mode : Z) : M SSL :=
  call (E_SSL_set_mode mode)
    {| ssl_ctx := ssl_ctx ssl; ssl_connect_state := ssl_connect_state ssl;
       ssl_mode := Z.lor (ssl_mode ssl) mode; ssl_fd := ssl_fd ssl |}.

Definition SSL_set_fd (ssl : SSL) (fd : Z) : M (SSL * Z) :=
  let r := e_SSL_set_fd env fd in
  call (E_SSL_set_fd fd)
    ({| ssl_ctx := ssl_ctx ssl; ssl_connect_state := ssl_connect_state ssl;
        ssl_mode := ssl_mode ssl;
        ssl_fd := if r =? 0 then ssl_fd ssl else Some fd |}, r).

Definition ERR_clear_error : M unit := call E_ERR_clear_error tt.

(** The [i]-th call of [SSL_do_handshake] on the connection. *)
Definition SSL_do_handshake (ssl : SSL) (i : nat) : M Z :=
  call E_SSL_do_handshake (e_SSL_do_handshake env i).

(** [SSL_get_error(ssl, r)] after the [i]-th handshake call. *)
Definition SSL_get_error_handshake (ssl : SSL) (i : nat) (r : Z) : M Z :=
  call (E_SSL_get_error r) (e_SSL_get_error_handshake env i).

Definition SSL_get_verify_result (ssl : SSL) : M Z :=
  call E_SSL_get_verify_result (e_SSL_get_verify_result env).

(** [true] for a certificate, [false] for the null pointer. *)
Definition SSL_get_peer_certificate (ssl : SSL) : M bool :=
  call E_SSL_get_peer_certificate (e_SSL_get_peer_certificate env).

Definition X509_free : M unit := call E_X509_free tt.

(** The [while(1)] of lines 165-173, entered for the [i]-th time. *)
Fixpoint handshake_loop (fuel : nat) (ssl : SSL) (i : nat) : M unit :=
  match fuel with
  | O => out_of_fuel
  | S fuel' =>
    ERR_clear_error ;;
    r <- SSL_do_handshake ssl i ;;
    if r =? 1 then ret tt
    else
      r <- SSL_get_error_handshake ssl i r ;;
      when_ (negb (r =? SSL_ERROR_WANT_READ) && negb (r =? SSL_ERROR_WANT_WRITE))
        (ssl_err "SSL handshake failed") ;;
      handshake_loop fuel' ssl (S i)
  end.

(** [fuel] bounds the passes through the handshake loop. *)
Definition setup_ssl (fuel : nat) (ctx : SSL_CTX) (fd : Z) : M SSL :=
  ssl <- SSL_new ctx ;;
  match ssl with
  | None => ssl_err "could not SSL_new"
  | Some ssl =>
    ssl <- SSL_set_connect_state ssl ;;
    ssl <- SSL_set_mode ssl SSL_MODE_AUTO_RETRY ;;
    '(ssl, r) <- SSL_set_fd ssl fd ;;
    when_ (r =? 0) (ssl_err "could not SSL_set_fd") ;;
    handshake_loop fuel ssl 0 ;;
    v <- SSL_get_verify_result ssl ;;
    when_ (negb (v =? X509_V_OK)) (ssl_err "SSL verification failed") ;;
    x <- SSL_get_peer_certificate ssl ;;
    when_ (negb x) (ssl_err "Server presented no peer certificate") ;;
    X509_free ;;
    ret ssl
  end.

(** ** go_cmd *)

(** [SSL_write(ssl, buf, num)]: the first [num] bytes of [buf] go out. *)
Definition SSL_write (ssl : SSL) (buf : string) (num : Z) : M Z :=
  let data := substring 0 (Z.to_nat num) buf in
  call (E_SSL_write data) (e_SSL_write env data).

(** The [i]-th [SSL_read(ssl, buf, num)]: the return value and, when it
    is positive, the bytes now in [buf]. *)
Definition SSL_read (ssl : SSL) (i : nat) (num : Z) : M (Z * string) :=
  call (E_SSL_read num) (e_SSL_read env i).

(** [SSL_get_error(ssl, r)] after the [i]-th read. *)
Definition SSL_get_error_read (ssl : SSL) (i : nat) (r : Z) : M Z :=
  call (E_SSL_get_error r) (e_SSL_get_error_read env i).

(** [printf("%s", buf)] *)
Definition printf_s (buf : string) : M unit := call (E_printf (c_str buf)) tt.

(** The [while(1)] of lines 194-205, entered for the [i]-th time. *)
Fixpoint read_loop (fuel : nat) (ssl : SSL) (i : nat) : M unit :=
  match fuel with
  | O => out_of_fuel
  | S fuel' =>
    ERR_clear_error ;;
    '(r, buf) <- SSL_read ssl i (1024 - 1) ;;
    if r <=? 0 then
      e <- SSL_get_error_read ssl i r ;;
      if e =? SSL_ERROR_ZERO_RETURN then ret tt
      else ssl_err "could not SSL_read"
    else
      let buf := store_nul buf r in
      printf_s buf ;;
      read_loop fuel' ssl (S i)
  end.

Definition cmd : string := "GET / HTTP/1.0" ++ String LF (String LF EmptyString).

(** [fuel] bounds the passes through the read loop. *)
Definition go_cmd (fuel : nat) (ssl : SSL) (argc : Z) (argv : list string)
  : M unit :=
  r <- SSL_write ssl cmd (strlen cmd) ;;
  when_ (r <=? 0) (ssl_err "could not SSL_write") ;;
  read_loop fuel ssl 0.

(** ** go *)

Definition SSL_free : M unit := call E_SSL_free tt.
Definition close (fd : Z) : M unit := call (E_close fd) tt.
Definition SSL_CTX_free : M unit := call E_SSL_CTX_free tt.
Definition config_delete : M unit := call E_config_delete tt.

(** [svr] is [None] for the null pointer; [fuel] bounds the passes
    through each of the two loops. *)
Definition go (fuel : nat) (cfgfile : string) (svr : option string)
  (argc : Z) (argv : list string) : M unit :=
  c <- config_create ;;
  when_ (negb c) (fatal_exit "out of memory") ;;
  cfg <- config_read cfgfile ;;
  match cfg with
  | None => fatal_exit "could not read config file"
  | Some cfg =>
    when_ (remote_control_enable cfg =? 0)
      (log_warn "control-enable is 'no' in the config file.") ;;
    ctx <- setup_ctx cfg ;;
    fd <- contact_server svr cfg ;;
    ssl <- setup_ssl fuel ctx fd ;;
    go_cmd fuel ssl argc argv ;;
    SSL_free ;;
    close fd ;;
    SSL_CTX_free ;;
    config_delete
  end.

End Program.

(** ** A concrete environment

    Used to run the program on examples: IPv4 literals in dotted
    notation, and a server that answers every step the good way. *)

Fixpoint split_dots (s : string) : list string :=
  match s with
  | EmptyString => [EmptyString]
  | String a s' =>
    if Ascii.eqb a "." then EmptyString :: split_dots s'
    else
      match split_dots s' with
      | part :: parts => String a part :: parts
      | [] => [String a EmptyString]
      end
  end.

Definition octet (s : string) : option ascii :=
  match numeric_port s with
  | Some n =>
    if (n <=? 255) && (Nat.leb (String.length s) 3)
    then Some (ascii_of_N (Z.to_N n)) else None
  | None => None
  end.

Definition dotted_quad (s : string) : option (address_family * string) :=
  match map octet (split_dots s) with
  | [Some a; Some b; Some c; Some d] =>
    Some (AF_INET, String a (String b (String c (String d EmptyString))))
  | _ => None
  end.

Definition cfg0 : config_file := {|
  server_cert_file := "unbound_server.pem";
  control_key_file := "unbound_control.key";
  control_cert_file := "unbound_control.pem";
  control_ifs := [];
  control_port := 953;
  remote_control_enable := 1
|}.

(** An established channel on descriptor 3. *)
Definition ssl0 : SSL := {|
  ssl_ctx := {| ctx_options := 0x01000000;
                ctx_certificate_file := Some "unbound_control.pem";
                ctx_PrivateKey_file := Some "unbound_control.key";
                ctx_verify_locations := Some "unbound_server.pem";
                ctx_verify_mode := Some 1 |};
  ssl_connect_state := true;
  ssl_mode := 4;
  ssl_fd := Some 3
|}.

(** An environment in which every call succeeds, but for the answers
    given here: the result of the key check, the results and errors of
    the handshake attempts, the verify result, the presence of a peer
    certificate, and the results, bytes and errors of the reads. *)
Definition make_env (check_private_key : Z) (handshake : nat -> Z * Z)
  (verify_result : Z) (peer_certificate : bool)
  (reads : nat -> Z * string * Z) : environment := {|
  e_config_create := true;
  e_config_read := fun _ => Some cfg0;
  e_fname_after_chroot := fun fname => Some fname;
  e_SSL_CTX_new := true;
  e_SSL_CTX_set_options := fun op => op;
  e_SSL_CTX_use_certificate_file := fun _ => 1;
  e_SSL_CTX_use_PrivateKey_file := fun _ => 1;
  e_SSL_CTX_check_private_key := fun _ _ => check_private_key;
  e_SSL_CTX_load_verify_locations := fun _ => 1;
  e_socket := fun _ => 3;
  e_connect := fun _ _ => 0;
  e_strerror := "Connection refused";
  e_SSL_new := true;
  e_SSL_set_fd := fun _ => 1;
  e_SSL_do_handshake := fun i => fst (handshake i);
  e_SSL_get_error_handshake := fun i => snd (handshake i);
  e_SSL_get_verify_result := verify_result;
  e_SSL_get_peer_certificate := peer_certificate;
  e_SSL_write := fun data => Z.of_nat (String.length data);
  e_SSL_read := fun i => fst (reads i);
  e_SSL_get_error_read := fun i => snd (reads i)
|}.

(** The peer sends [chunks], one per read, and then closes in order
    (error 6, [SSL_ERROR_ZERO_RETURN]). *)
Definition reads_of (chunks : list string) (i : nat) : Z * string * Z :=
  match nth_error chunks i with
  | Some data => (Z.of_nat (String.length data), data, 0)
  | None => (0, EmptyString, 6)
  end.

(** The server accepts the handshake at once, sends [chunks] one per
    read and then closes. *)
Definition env_chunks (chunks : list string) : environment :=
  make_env 1 (fun _ => (1, 0)) 0 true (reads_of chunks).

(** The private key does not fit the certificate. *)
Definition env_key_mismatch : environment :=
  make_env 0 (fun _ => (1, 0)) 0 true (reads_of []).

(** The private key does not fit the certificate, and OpenSSL says so
    at once: with the certificate loaded, [SSL_CTX_use_PrivateKey_file]
    compares the key with it and answers 0.  The key check would pass
    (answer 1) if it were reached with a key in the context. *)
Definition env_key_rejected : environment := {|
  e_config_create := true;
  e_config_read := fun _ => Some cfg0;
  e_fname_after_chroot := fun fname => Some fname;
  e_SSL_CTX_new := true;
  e_SSL_CTX_set_options := fun op => op;
  e_SSL_CTX_use_certificate_file := fun _ => 1;
  e_SSL_CTX_use_PrivateKey_file := fun _ => 0;
  e_SSL_CTX_check_private_key := fun _ _ => 1;
  e_SSL_CTX_load_verify_locations := fun _ => 1;
  e_socket := fun _ => 3;
  e_connect := fun _ _ => 0;
  e_strerror := "Connection refused";
  e_SSL_new := true;
  e_SSL_set_fd := fun _ => 1;
  e_SSL_do_handshake := fun _ => 1;
  e_SSL_get_error_handshake := fun _ => 0;
  e_SSL_get_verify_result := 0;
  e_SSL_get_peer_certificate := true;
  e_SSL_write := fun data => Z.of_nat (String.length data);
  e_SSL_read := fun i => fst (reads_of [] i);
  e_SSL_get_error_read := fun i => snd (reads_of [] i)
|}.

(** The handshake goes through and the verify result is [X509_V_OK],
    but the server has presented no certificate. *)
Definition env_no_peer_certificate : environment :=
  make_env 1 (fun _ => (1, 0)) 0 false (reads_of []).

(** The first handshake attempt wants to read (error 2), the second
    fails for good (error 1, [SSL_ERROR_SSL]). *)
Definition env_handshake_fails : environment :=
  make_env 1
    (fun i => match i with O => (-1, 2) | _ => (-1, 1) end)
    0 true (reads_of []).

(** The connection breaks at the first read (error 5,
    [SSL_ERROR_SYSCALL]). *)
Definition env_read_fails : environment :=
  make_env 1 (fun _ => (1, 0)) 0 true (fun _ => (-1, EmptyString, 5)).

(** ** Reading traces *)

(** The calls that reach the network. *)
Definition network_event (e : event) : bool :=
  match e with
  | E_socket _ | E_connect _ _ | E_SSL_do_handshake
  | E_SSL_write _ | E_SSL_read _ => true
  | _ => false
  end.

(** The calls that move application data over the channel. *)
Definition data_event (e : event) : bool :=
  match e with
  | E_SSL_write _ | E_SSL_read _ => true
  | _ => false
  end.

(** What the run has written to the channel, one entry per write. *)
Fixpoint written (tr : list event) : list string :=
  match tr with
  | [] => []
  | E_SSL_write data :: tr' => data :: written tr'
  | _ :: tr' => written tr'
  end.

(** What the run has printed on stdout. *)
Fixpoint stdout (tr : list event) : string :=
  match tr with
  | [] => EmptyString
  | E_printf out :: tr' => (out ++ stdout tr')%string
  | _ :: tr' => stdout tr'
  end.

(** No call of the run satisfies [p]. *)
Definition never {A} (p : event -> bool) (m : M A) : Prop :=
  Forall (fun e => p e = false) (trace m).

(** ** Notions used in the statements *)

Section Notions.

Context {K : openssl_constants}.
Variable env : environment.

(** The [i]-th handshake call asks to be called again: it did not
    return 1 and [SSL_get_error] says want-read or want-write. *)
Definition would_block (i : nat) : bool :=
  negb (e_SSL_do_handshake env i =? 1) &&
  ((e_SSL_get_error_handshake env i =? SSL_ERROR_WANT_READ) ||
   (e_SSL_get_error_handshake env i =? SSL_ERROR_WANT_WRITE)).

(** The calls of one pass through the handshake loop that ends in
    "call again": the [i]-th attempt and the look at its error. *)
Definition attempt_again (i : nat) : list event :=
  [E_ERR_clear_error; E_SSL_do_handshake;
   E_SSL_get_error (e_SSL_do_handshake env i)].

(** [n] such passes in a row, from the [i]-th attempt on. *)
Fixpoint retries (i n : nat) : list event :=
  match n with
  | O => []
  | S n' => attempt_again i ++ retries (S i) n'
  end.

(** The [SSL] that [setup_ssl] has built for [ctx] and [fd] when it
    starts the handshake. *)
Definition client_ssl (ctx : SSL_CTX) (fd : Z) : SSL :=
  {| ssl_ctx := ctx; ssl_connect_state := true;
     ssl_mode := Z.lor 0 SSL_MODE_AUTO_RETRY; ssl_fd := Some fd |}.

(** The peer sends [chunks], one per read. *)
Definition sends (chunks : list string) : Prop :=
  forall i c, nth_error chunks i = Some c ->
    e_SSL_read env i = (Z.of_nat (String.length c), c).

(** The peer sends [chunks], one per read, and then shuts the channel
    down in order. *)
Definition delivers (chunks : list string) : Prop :=
  sends chunks /\
  fst (e_SSL_read env (List.length chunks)) <= 0 /\
  e_SSL_get_error_read env (List.length chunks) = SSL_ERROR_ZERO_RETURN.

(** The calls of the pass through the read loop that receives [c]. *)
Definition forward (c : string) : list event :=
  [E_ERR_clear_error; E_SSL_read 1023; E_printf (c_str c)].

(** The calls of the pass that meets the non-positive [i]-th read. *)
Definition last_read (i : nat) : list event :=
  [E_ERR_clear_error; E_SSL_read 1023;
   E_SSL_get_error (fst (e_SSL_read env i))].

End Notions.

(** [a @ p]: the server string with address [a] and port [p]. *)
Definition at_port (a p : string) : string := (a ++ String "@" p)%string.

Section Malformed.

Variable ip_literal : string -> option (address_family * string).

(** The server strings that do not name an endpoint: a string without
    ['@'] that is no address literal, and a string [a@p] whose [p] is
    not numeric or whose [a] is no address literal. *)
Inductive malformed : string -> Prop :=
| malformed_bare (s : string) :
    strchr s "@" = None -> ip_literal s = None -> malformed s
| malformed_port (a p : string) :
    strchr a "@" = None -> numeric_port p = None -> malformed (at_port a p)
| malformed_address (a p : string) :
    strchr a "@" = None -> ip_literal a = None -> malformed (at_port a p).

End Malformed.

(** The number of handshake attempts in a trace. *)
Fixpoint handshake_attempts (tr : list event) : nat :=
  match tr with
  | [] => O
  | E_SSL_do_handshake :: tr' => S (handshake_attempts tr')
  | _ :: tr' => handshake_attempts tr'
  end.

(** The calls that open a transport connection. *)
Definition connection_event (e : event) : bool :=
  match e with
  | E_socket _ | E_connect _ _ => true
  | _ => false
  end.

(** What one [SSL_read(ssl, buf, 1023)] can store: 1 to 1023 bytes. *)
Definition valid_chunk (c : string) : Prop :=
  (0 < String.length c <= 1023)%nat.

(** The steps of the driver, as the spec names them. *)
Inductive stage : Type :=
| BuildTrustContext
| ResolveEndpoint
| EstablishChannel
| ExchangeCommand
| TearDown.

(** The step a call belongs to.  [SSL_get_error] and [ERR_clear_error]
    serve both the handshake and the exchange, and the configuration
    calls come before all steps: they have none. *)
Definition stage_of (e : event) : option stage :=
  match e with
  | E_fname_after_chroot _ | E_SSL_CTX_new | E_SSL_CTX_set_options _
  | E_SSL_CTX_use_certificate_file _ _ | E_SSL_CTX_use_PrivateKey_file _ _
  | E_SSL_CTX_check_private_key | E_SSL_CTX_load_verify_locations _
  | E_SSL_CTX_set_verify _ | E_free => Some BuildTrustContext
  | E_extstrtoaddr _ | E_ipstrtoaddr _ _ => Some ResolveEndpoint
  | E_socket _ | E_connect _ _ | E_log_addr _ | E_log_err _
  | E_SSL_new | E_SSL_set_connect_state | E_SSL_set_mode _ | E_SSL_set_fd _
  | E_SSL_do_handshake | E_SSL_get_verify_result
  | E_SSL_get_peer_certificate | E_X509_free => Some EstablishChannel
  | E_SSL_write _ | E_SSL_read _ | E_printf _ => Some ExchangeCommand
  | E_SSL_free | E_close _ | E_SSL_CTX_free | E_config_delete => Some TearDown
  | E_config_create | E_config_read _ | E_log_warn _
  | E_ERR_clear_error | E_SSL_get_error _ => None
  end.

(** The order of the steps in the spec: resolve, build, establish,
    exchange, tear down. *)
Definition spec_order (s : stage) : nat :=
  match s with
  | ResolveEndpoint => 0
  | BuildTrustContext => 1
  | EstablishChannel => 2
  | ExchangeCommand => 3
  | TearDown => 4
  end.

(** The order of the steps in [go]: build, resolve, establish, exchange,
    tear down. *)
Definition code_order (s : stage) : nat :=
  match s with
  | BuildTrustContext => 0
  | ResolveEndpoint => 1
  | EstablishChannel => 2
  | ExchangeCommand => 3
  | TearDown => 4
  end.

(** The positions, in [order], of the steps of the calls of a trace. *)
Fixpoint ranks (order : stage -> nat) (tr : list event) : list nat :=
  match tr with
  | [] => []
  | e :: tr' =>
    match stage_of e with
    | Some s => order s :: ranks order tr'
    | None => ranks order tr'
    end
  end.

Fixpoint sorted_from (lo : nat) (l : list nat) : bool :=
  match l with
  | [] => true
  | x :: l' => Nat.leb lo x && sorted_from x l'
  end.

(** The run never goes back to an earlier step of [order]. *)
Definition follows_order (order : stage -> nat) (tr : list event) : bool :=
  sorted_from 0 (ranks order tr).

(** The ranks of [l] do not decrease and lie between [lo] and [hi]. *)
Definition within (lo hi : nat) (l : list nat) : bool :=
  sorted_from lo (l ++ [hi]).

(** The run moves forward through the steps numbered [lo] to [hi] of
    [go]. *)
Definition stages_within {A} (lo hi : nat) (m : M A) : Prop :=
  within lo hi (ranks code_order (trace m)) = true.

(** The call belongs to a step of [go] other than the one numbered [r]. *)
Definition outside (r : nat) (e : event) : bool :=
  match stage_of e with
  | Some s => negb (Nat.eqb (code_order s) r)
  | None => false
  end.

(** The run ends early (it does not return) and holds no call that
    satisfies [p]. *)
Definition stops {A} (p : event -> bool) (m : M A) : Prop :=
  never p m /\ forall a, result m <> Returns a.

(** ** Notions used for the further properties *)

(** Every handshake attempt and every read of the trace comes right
    after an [ERR_clear_error]; [cleared] tells whether the call before
    the trace was one. *)
Fixpoint error_queue_cleared (cleared : bool) (tr : list event) : bool :=
  match tr with
  | [] => true
  | E_ERR_clear_error :: tr' => error_queue_cleared true tr'
  | E_SSL_do_handshake :: tr' => cleared && error_queue_cleared false tr'
  | E_SSL_read _ :: tr' => cleared && error_queue_cleared false tr'
  | _ :: tr' => error_queue_cleared false tr'
  end.

(** The calls that release what [go] holds. *)
Definition teardown_event (e : event) : bool :=
  match e with
  | E_SSL_free | E_close _ | E_SSL_CTX_free | E_config_delete => true
  | _ => false
  end.

(** The calls that hand a file to OpenSSL. *)
Definition loads_file (e : event) : bool :=
  match e with
  | E_SSL_CTX_use_certificate_file _ _ | E_SSL_CTX_use_PrivateKey_file _ _
  | E_SSL_CTX_load_verify_locations _ => true
  | _ => false
  end.

(** The calls into OpenSSL. *)
Definition openssl_event (e : event) : bool :=
  match e with
  | E_SSL_CTX_new | E_SSL_CTX_set_options _
  | E_SSL_CTX_use_certificate_file _ _ | E_SSL_CTX_use_PrivateKey_file _ _
  | E_SSL_CTX_check_private_key | E_SSL_CTX_load_verify_locations _
  | E_SSL_CTX_set_verify _ | E_SSL_new | E_SSL_set_connect_state
  | E_SSL_set_mode _ | E_SSL_set_fd _ | E_ERR_clear_error
  | E_SSL_do_handshake | E_SSL_get_error _ | E_SSL_get_verify_result
  | E_SSL_get_peer_certificate | E_X509_free | E_SSL_write _ | E_SSL_read _
  | E_SSL_free | E_SSL_CTX_free => true
  | _ => false
  end.

(** How many calls of the trace satisfy [p]. *)
Definition count_events (p : event -> bool) (tr : list event) : nat :=
  List.length (filter p tr).

Definition is_socket (e : event) : bool :=
  match e with E_socket _ => true | _ => false end.

Definition is_connect (e : event) : bool :=
  match e with E_connect _ _ => true | _ => false end.

(** The configuration with another value of [control-enable]. *)
Definition with_remote_control_enable (cfg : config_file) (v : Z)
  : config_file :=
  {| server_cert_file := server_cert_file cfg;
     control_key_file := control_key_file cfg;
     control_cert_file := control_cert_file cfg;
     control_ifs := control_ifs cfg;
     control_port := control_port cfg;
     remote_control_enable := v |}.

(** The environment in which the configuration file reads as [cfg]. *)
Definition with_config (env : environment) (cfg : config_file)
  : environment :=
  {| e_config_create := e_config_create env;
     e_config_read := fun _ => Some cfg;
     e_fname_after_chroot := e_fname_after_chroot env;
     e_SSL_CTX_new := e_SSL_CTX_new env;
     e_SSL_CTX_set_options := e_SSL_CTX_set_options env;
     e_SSL_CTX_use_certificate_file := e_SSL_CTX_use_certificate_file env;
     e_SSL_CTX_use_PrivateKey_file := e_SSL_CTX_use_PrivateKey_file env;
     e_SSL_CTX_check_private_key := e_SSL_CTX_check_private_key env;
     e_SSL_CTX_load_verify_locations := e_SSL_CTX_load_verify_locations env;
     e_socket := e_socket env;
     e_connect := e_connect env;
     e_strerror := e_strerror env;
     e_SSL_new := e_SSL_new env;
     e_SSL_set_fd := e_SSL_set_fd env;
     e_SSL_do_handshake := e_SSL_do_handshake env;
     e_SSL_get_error_handshake := e_SSL_get_error_handshake env;
     e_SSL_get_verify_result := e_SSL_get_verify_result env;
     e_SSL_get_peer_certificate := e_SSL_get_peer_certificate env;
     e_SSL_write := e_SSL_write env;
     e_SSL_read := e_SSL_read env;
     e_SSL_get_error_read := e_SSL_get_error_read env |}.

(** The handshake never gets past "call again" (error 2,
    [SSL_ERROR_WANT_READ]). *)
Definition env_handshake_hangs : environment :=
  make_env 1 (fun _ => (-1, 2)) 0 true (reads_of []).

(** The peer answers every read with the two bytes "ok". *)
Definition env_endless_answer : environment :=
  make_env 1 (fun _ => (1, 0)) 0 true (fun _ => (2, "ok", 0)).

(** The peer sends "ab" and "cd", then the connection breaks. *)
Definition env_breaks_midway : environment :=
  make_env 1 (fun _ => (1, 0)) 0 true
    (fun i => match i with
              | O => (2, "ab", 0)
              | S O => (2, "cd", 0)
              | _ => (-1, EmptyString, 5)
              end).

(** The write fails. *)
Definition env_write_fails : environment := {|
  e_config_create := true;
  e_config_read := fun _ => Some cfg0;
  e_fname_after_chroot := fun fname => Some fname;
  e_SSL_CTX_new := true;
  e_SSL_CTX_set_options := fun op => op;
  e_SSL_CTX_use_certificate_file := fun _ => 1;
  e_SSL_CTX_use_PrivateKey_file := fun _ => 1;
  e_SSL_CTX_check_private_key := fun _ _ => 1;
  e_SSL_CTX_load_verify_locations := fun _ => 1;
  e_socket := fun _ => 3;
  e_connect := fun _ _ => 0;
  e_strerror := "Connection refused";
  e_SSL_new := true;
  e_SSL_set_fd := fun _ => 1;
  e_SSL_do_handshake := fun _ => 1;
  e_SSL_get_error_handshake := fun _ => 0;
  e_SSL_get_verify_result := 0;
  e_SSL_get_peer_certificate := true;
  e_SSL_write := fun _ => -1;
  e_SSL_read := fun _ => (0, EmptyString);
  e_SSL_get_error_read := fun _ => 6
|}.

(** An environment for the early failures: the answers of
    [fname_after_chroot], of the loading of the certificate, of
    [socket], [connect], [SSL_new], [SSL_set_fd], [config_create] and
    [config_read] are given here, every other call succeeds. *)
Definition make_env_early (fname : string -> option string)
  (use_certificate : Z) (socket_fd connect_result : Z) (ssl_new : bool)
  (set_fd : Z) (create : bool) (read : option config_file)
  : environment := {|
  e_config_create := create;
  e_config_read := fun _ => read;
  e_fname_after_chroot := fname;
  e_SSL_CTX_new := true;
  e_SSL_CTX_set_options := fun op => op;
  e_SSL_CTX_use_certificate_file := fun _ => use_certificate;
  e_SSL_CTX_use_PrivateKey_file := fun _ => 1;
  e_SSL_CTX_check_private_key := fun _ _ => 1;
  e_SSL_CTX_load_verify_locations := fun _ => 1;
  e_socket := fun _ => socket_fd;
  e_connect := fun _ _ => connect_result;
  e_strerror := "Connection refused";
  e_SSL_new := ssl_new;
  e_SSL_set_fd := fun _ => set_fd;
  e_SSL_do_handshake := fun _ => 1;
  e_SSL_get_error_handshake := fun _ => 0;
  e_SSL_get_verify_result := 0;
  e_SSL_get_peer_certificate := true;
  e_SSL_write := fun data => Z.of_nat (String.length data);
  e_SSL_read := fun _ => (0, EmptyString);
  e_SSL_get_error_read := fun _ => 6
|}.

(** The loopback address on the control port of [cfg0]. *)
Definition loopback : sockaddr_storage :=
  {| ss_family := AF_INET;
     ss_addr := String "127" (String "000" (String "000"
                  (String "001" EmptyString)));
     ss_port := 953 |}.

(** The calls that must come right after an [ERR_clear_error]. *)
Definition attempt_or_read (e : event) : bool :=
  match e with
  | E_SSL_do_handshake | E_SSL_read _ => true
  | _ => false
  end.

Definition is_write (e : event) : bool :=
  match e with E_SSL_write _ => true | _ => false end.

Definition is_read (e : event) : bool :=
  match e with E_SSL_read _ => true | _ => false end.

(** A write of something other than the fixed request. *)
Definition other_write (e : event) : bool :=
  match e with
  | E_SSL_write data => negb (String.eqb data cmd)
  | _ => false
  end.

(** The run makes at most [n] calls that satisfy [p]. *)
Definition at_most {A} (n : nat) (p : event -> bool) (m : M A) : Prop :=
  (count_events p (trace m) <= n)%nat.

(** Every handshake attempt and every read of the run comes right after
    an [ERR_clear_error]. *)
Definition cleared {A} (m : M A) : Prop :=
  error_queue_cleared false (trace m) = true.

(** ** main and usage

    [main] makes calls of its own before and around [go]; a run of
    the process is the list of these calls and of the calls made below
    [main], in order. *)

(** The constants of config.h, and the size in bytes of an
    [unsigned int]: they are not part of the file. *)
Class build_constants : Type := {
  CONFIGFILE : string;
  PACKAGE_VERSION : string;
  PACKAGE_BUGREPORT : string;
  sizeof_unsigned : Z
}.

(** The values used for the concrete runs. *)
#[local] Instance build_0 : build_constants := {|
  CONFIGFILE := "/usr/local/etc/unbound/unbound.conf";
  PACKAGE_VERSION := "1.0.2";
  PACKAGE_BUGREPORT := "unbound-bugs@nlnetlabs.nl";
  sizeof_unsigned := 4
|}.

Definition TAB : ascii := "009"%char.
Definition tab : string := String TAB EmptyString.
Definition nl : string := String LF EmptyString.

(** The calls that [main] makes itself.  [E_getopt] carries the result
    of the call, [E_RAND_seed] the bytes written into the buffer, as
    offsets and values, and the length given. *)
Inductive main_event : Type :=
| E_log_ident_set (id : string)
| E_log_init
| E_checklock_start
| E_ERR_load_crypto_strings
| E_ERR_load_SSL_strings
| E_OpenSSL_add_all_algorithms
| E_SSL_library_init
| E_RAND_status
| E_RAND_seed (buf : list (Z * Z)) (num : Z)
| E_getopt (c : Z)
| E_execlp (file : string) (args : list string)
| E_checklock_stop.

Inductive process_event : Type :=
| in_main (e : main_event)
| below (e : event).

(** How [main] ends when it does not exit: its return value, or the
    process image replaced by [unbound]. *)
Inductive main_result : Type :=
| returned (status : Z)
| runs_unbound.

Definition P (A : Type) : Type := (list process_event * outcome A)%type.

Definition pret {A} (a : A) : P A := ([], Returns a).

Definition pbind {A B} (m : P A) (k : A -> P B) : P B :=
  match m with
  | (t, Returns a) => let (t', o) := k a in (t ++ t', o)
  | (t, Exits f) => (t, Exits f)
  | (t, OutOfFuel) => (t, OutOfFuel)
  end.

Definition pcall {A} (e : main_event) (answer : A) : P A :=
  ([in_main e], Returns answer).

(** A computation below [main] as a part of the run of the process. *)
Definition lift {A} (m : M A) : P A := (map below (trace m), result m).

Declare Scope process_scope.
Delimit Scope process_scope with process.
Notation "x <- m ;; k" := (pbind m (fun x => k))
  (at level 61, m at next level, right associativity) : process_scope.
Notation "m ;; k" := (pbind m (fun _ => k))
  (at level 61, right associativity) : process_scope.
Notation "' pat <- m ;; k" := (pbind m (fun x => match x with pat => k end))
  (at level 61, pat pattern, m at next level, right associativity)
  : process_scope.

(** What the functions that [main] calls answer.  [e_getopt] lists the
    results of the [getopt] calls that find an option, each with the
    [optarg] it leaves; the call after them answers -1 and leaves
    [e_optind] in [optind].  [e_v] is what the variable [v] holds before
    anything is assigned to it.  [e_execlp] is [None] when the call
    does not come back.

    [getopt] is handed [argv] and may reorder it: the one of glibc
    moves the arguments that are not options behind the options, so
    that [unbound-control start -c x.conf] leaves the array as
    [unbound-control -c x.conf start] with 3 in [optind]; a [getopt]
    that stops at the first argument that is not an option leaves the
    array as it was.  [e_getopt_argv] gives the array as the [getopt]
    calls leave it, from the array that [main] was started with.  It
    has the same elements: [argc] is not touched. *)
Record main_environment : Type := {
  e_RAND_status : Z;
  e_time : Z;
  e_getpid : Z;
  e_v : Z;
  e_getopt : list (ascii * string);
  e_getopt_argv : list string -> list string;
  e_optind : nat;
  e_execlp : option Z
}.

Section Main.

Context {K : openssl_constants} {B : build_constants}.
Variable env : environment.
Variable menv : main_environment.
Variable ip_literal : string -> option (address_family * string).

Definition printf (out : string) : M unit := call (E_printf out) tt.

(** Lines 51-68. *)
Definition usage {A} : M A :=
  (printf ("Usage:" ++ tab ++ "unbound-control [options] command" ++ nl)%string ;;
   printf (tab ++ "Remote control utility for unbound server." ++ nl)%string ;;
   printf ("Options:" ++ nl)%string ;;
   printf ("  -c file" ++ tab ++ "config file, default is " ++ CONFIGFILE
             ++ nl)%string ;;
   printf ("  -s ip[@port]" ++ tab
             ++ "server address, if omitted config is used." ++ nl)%string ;;
   printf ("  -h" ++ tab ++ tab ++ "show this usage help." ++ nl)%string ;;
   printf ("Commands:" ++ nl)%string ;;
   printf ("  start" ++ tab ++ tab ++ "start server; runs unbound(8)"
             ++ nl)%string ;;
   printf ("  stop" ++ tab ++ tab ++ "stops the server" ++ nl)%string ;;
   printf ("  reload" ++ tab ++ "reloads the server" ++ nl)%string ;;
   printf ("Version " ++ PACKAGE_VERSION ++ nl)%string ;;
   printf ("BSD licensed, see LICENSE in source package for details."
             ++ nl)%string ;;
   printf ("Report bugs to " ++ PACKAGE_BUGREPORT ++ nl)%string ;;
   exit 1)%monad.

(** The range of an [unsigned int]. *)
Definition UINT_RANGE : Z := 2 ^ (8 * sizeof_unsigned).

(** The loop of lines 268-271 from pass [i] on, with [v] in the
    variable: each pass copies the [sizeof(v)] bytes of [v] to offset
    [i*sizeof(v)] of [buf] and then computes [v = v*seed + i]. *)
Fixpoint seed_loop (passes : nat) (i v seed : Z) : list (Z * Z) :=
  match passes with
  | O => []
  | S passes' =>
    (i * sizeof_unsigned, v)
    :: seed_loop passes' (i + 1) ((v * seed + i) mod UINT_RANGE) seed
  end.

(** The buffer of lines 265-271: [256/sizeof(v)] passes. *)
Definition seed_buffer (v seed : Z) : list (Z * Z) :=
  seed_loop (Z.to_nat (256 / sizeof_unsigned)) 0 v seed.

(** Lines 250-274: the initialisation. *)
Definition startup : P unit :=
  (pcall (E_log_ident_set "unbound-control") tt ;;
   pcall E_log_init tt ;;
   pcall E_checklock_start tt ;;
   pcall E_ERR_load_crypto_strings tt ;;
   pcall E_ERR_load_SSL_strings tt ;;
   pcall E_OpenSSL_add_all_algorithms tt ;;
   pcall E_SSL_library_init tt ;;
   r <- pcall E_RAND_status (e_RAND_status menv) ;;
   if r =? 0 then
     let seed := Z.lxor (e_time menv mod UINT_RANGE)
                        (e_getpid menv mod UINT_RANGE) in
     pcall (E_RAND_seed (seed_buffer (e_v menv) seed) 256) tt ;;
     lift (log_warn ("no entropy, seeding openssl PRNG with time" ++ nl)%string)
   else pret tt)%process.

(** The [getopt] loop of lines 277-290 on the results still to come. *)
Fixpoint options (found : list (ascii * string)) (cfgfile : string)
  (svr : option string) : P (string * option string) :=
  match found with
  | [] =>
    (pcall (E_getopt (-1)) tt ;;
     pret (cfgfile, svr))%process
  | (c, optarg) :: found' =>
    (pcall (E_getopt (Z.of_N (N_of_ascii c))) tt ;;
     if Ascii.eqb c "c" then options found' optarg svr
     else if Ascii.eqb c "s" then options found' cfgfile (Some optarg)
     else lift usage)%process
  end.

Definition execlp (file : string) (args : list string) : P (option Z) :=
  pcall (E_execlp file args) (e_execlp menv).

(** Lines 245-310, without the Windows parts.  [argc] is the length of
    [argv].  After the [getopt] loop the array is read as [getopt] has
    left it: [argv += optind] of line 292 skips the first [optind]
    elements of that array. *)
Definition main (fuel : nat) (argv : list string) : P main_result :=
  (startup ;;
   '(cfgfile, svr) <- options (e_getopt menv) CONFIGFILE None ;;
   let argc := Z.of_nat (List.length argv) - Z.of_nat (e_optind menv) in
   let argv := skipn (e_optind menv) (e_getopt_argv menv argv) in
   (if argc =? 0 then lift usage else pret tt) ;;
   let start :=
     (argc =? 1) &&
     match argv with
     | a :: _ => String.eqb a "start"
     | [] => false
     end in
   let after_start :=
     (lift (go env ip_literal fuel cfgfile svr argc argv) ;;
      pcall E_checklock_stop tt ;;
      pret (returned 0)) in
   if start then
     r <- execlp "unbound" ["unbound"; "-c"; cfgfile] ;;
     match r with
     | None => pret runs_unbound
     | Some r =>
       if r <? 0 then
         lift (fatal_exit ("could not exec unbound: " ++ e_strerror env)%string)
       else after_start
     end
   else after_start)%process.

End Main.

(** What [main] leaves in [cfgfile] and [svr] after the options
    [found], starting from the given values. *)
Fixpoint chosen (found : list (ascii * string)) (cfgfile : string)
  (svr : option string) : string * option string :=
  match found with
  | [] => (cfgfile, svr)
  | (c, optarg) :: found' =>
    if Ascii.eqb c "c" then chosen found' optarg svr
    else if Ascii.eqb c "s" then chosen found' cfgfile (Some optarg)
    else (cfgfile, svr)
  end.

(** The option is [-c] or [-s]. *)
Definition known_option (o : ascii * string) : bool :=
  Ascii.eqb (fst o) "c" || Ascii.eqb (fst o) "s".

(** The [getopt] calls on the options [found], the -1 not included. *)
Definition getopt_calls (found : list (ascii * string))
  : list process_event :=
  map (fun o => in_main (E_getopt (Z.of_N (N_of_ascii (fst o))))) found.

(** The call is made below [main] and is not a [printf]. *)
Definition below_not_printf (e : process_event) : bool :=
  match e with
  | below (E_printf _) => false
  | below _ => true
  | in_main _ => false
  end.

Definition is_below (e : process_event) : bool :=
  match e with
  | below _ => true
  | in_main _ => false
  end.

(** The argument of the last option [c] among [found]. *)
Fixpoint last_optarg (c : ascii) (found : list (ascii * string))
  : option string :=
  match found with
  | [] => None
  | (c', optarg) :: found' =>
    match last_optarg c found' with
    | Some a => Some a
    | None => if Ascii.eqb c' c then Some optarg else None
    end
  end.

(** How the run of the process ends when the run of [go] ends with
    [o]: [main] returns 0 after a [go] that returns. *)
Definition after_go (o : outcome unit) : outcome main_result :=
  match o with
  | Returns _ => Returns (returned 0)
  | Exits f => Exits f
  | OutOfFuel => OutOfFuel
  end.

(** Command lines: no option; [-h]; [-c other.conf -s 10.0.0.1].  The
    options come first on them and [getopt] has nothing to move. *)
Definition menv_plain : main_environment := {|
  e_RAND_status := 1; e_time := 1225324800; e_getpid := 4242; e_v := 7;
  e_getopt := []; e_getopt_argv := fun argv => argv;
  e_optind := 1; e_execlp := None
|}.

Definition menv_help : main_environment := {|
  e_RAND_status := 1; e_time := 1225324800; e_getpid := 4242; e_v := 7;
  e_getopt := [("h"%char, EmptyString)]; e_getopt_argv := fun argv => argv;
  e_optind := 2; e_execlp := None
|}.

Definition menv_options : main_environment := {|
  e_RAND_status := 0; e_time := 1225324800; e_getpid := 4242; e_v := 7;
  e_getopt := [("c"%char, "other.conf"); ("s"%char, "10.0.0.1")];
  e_getopt_argv := fun argv => argv;
  e_optind := 5; e_execlp := Some (-1)
|}.

(** glibc's [getopt] on a command line of four words with one word
    before the option [-c] and its argument: the word is moved behind
    them, [w; x; -c; y] becomes [w; -c; y; x], and [optind] is 3. *)
Definition word_moved_behind (argv : list string) : list string :=
  match argv with
  | [w; x; c; y] => [w; c; y; x]
  | _ => argv
  end.

(** [unbound-control start -c x.conf] under glibc. *)
Definition menv_start_first : main_environment := {|
  e_RAND_status := 1; e_time := 1225324800; e_getpid := 4242; e_v := 7;
  e_getopt := [("c"%char, "x.conf")]; e_getopt_argv := word_moved_behind;
  e_optind := 3; e_execlp := None
|}.

(** [unbound-control x -c start] under glibc: "start" is the argument
    of [-c] here, and the command is [x]. *)
Definition menv_command_first : main_environment := {|
  e_RAND_status := 1; e_time := 1225324800; e_getpid := 4242; e_v := 7;
  e_getopt := [("c"%char, "start")]; e_getopt_argv := word_moved_behind;
  e_optind := 3; e_execlp := None
|}.

(** ** The monad *)

Lemma bind_ret_l {A B} (a : A) (k : A -> M B) : bind (ret a) k = k a.
Proof. unfold bind, ret. destruct (k a). reflexivity. Qed.

Lemma bind_call {A B} (e : event) (a : A) (k : A -> M B) :
  bind (call e a) k = (e :: trace (k a), result (k a)).
Proof. unfold bind, call. destruct (k a). reflexivity. Qed.

Lemma bind_returns {A B} (t : list event) (a : A) (k : A -> M B) :
  bind (t, Returns a) k = (t ++ trace (k a), result (k a)).
Proof. unfold bind. destruct (k a). reflexivity. Qed.

Lemma bind_not_returns {A B} (m : M A) (k : A -> M B) :
  (forall a, result m <> Returns a) ->
  trace (bind m k) = trace m /\
  (forall b, result (bind m k) <> Returns b).
Proof.
  destruct m as [t [a|f|]]; cbn; intros H.
  - destruct (H a). reflexivity.
  - split; [reflexivity | discriminate].
  - split; [reflexivity | discriminate].
Qed.

Lemma bind_returns_inv {A B} (m : M A) (k : A -> M B) (b : B) :
  result (bind m k) = Returns b ->
  exists a, result m = Returns a /\ result (k a) = Returns b.
Proof.
  destruct m as [t [a|f|]]; cbn; try discriminate.
  destruct (k a) eqn:E. cbn. intros ->. exists a.
  rewrite E. split; reflexivity.
Qed.

Lemma bind_stops {A B} (m : M A) (k : A -> M B) (f : failure) :
  result m = Exits f -> bind m k = (trace m, Exits f).
Proof. destruct m as [t o]. cbn. intros ->. reflexivity. Qed.

Lemma bind_returns_trace {A B} (m : M A) (k : A -> M B) (b : B) :
  result (bind m k) = Returns b ->
  exists a, result m = Returns a /\ result (k a) = Returns b /\
            trace (bind m k) = trace m ++ trace (k a).
Proof.
  destruct m as [t [a | f |]]; cbn; try discriminate.
  destruct (k a) as [t' o] eqn:E. cbn. intros ->. exists a.
  rewrite E. repeat split; reflexivity.
Qed.

Lemma never_bind {A B} (p : event -> bool) (m : M A) (k : A -> M B) :
  never p m -> (forall a, never p (k a)) -> never p (bind m k).
Proof.
  unfold never. destruct m as [t [a|f|]]; cbn; intros Hm Hk; auto.
  specialize (Hk a). destruct (k a). cbn in *.
  apply Forall_app. split; assumption.
Qed.

Lemma never_call {A} (p : event -> bool) (e : event) (a : A) :
  p e = false -> never p (call e a).
Proof. intros H. unfold never, call. cbn. constructor; auto. Qed.

Lemma never_nil {A} (p : event -> bool) (o : outcome A) : never p ([], o).
Proof. constructor. Qed.

Lemma never_when (p : event -> bool) (c : bool) (body : M unit) :
  never p body -> never p (when_ c body).
Proof. intros H. destruct c; cbn; [assumption | apply never_nil]. Qed.


Lemma bind_ssl_err {A B} (s : string) (k : A -> M B) :
  bind (ssl_err s) k = ssl_err s.
Proof. reflexivity. Qed.

Lemma bind_fatal_exit {A B} (s : string) (k : A -> M B) :
  bind (fatal_exit s) k = fatal_exit s.
Proof. reflexivity. Qed.

Lemma bind_exit {A B} (z : Z) (k : A -> M B) : bind (exit z) k = exit z.
Proof. reflexivity. Qed.

Lemma bind_out_of_fuel {A B} (k : A -> M B) :
  bind out_of_fuel k = out_of_fuel.
Proof. reflexivity. Qed.

(** Running a computation symbolically: [step] performs the call at the
    head, [branch] splits on the test at the head. *)
Ltac step :=
  match goal with
  | |- context [bind (call ?e ?a) ?k] => rewrite (bind_call e a k)
  | |- context [bind (ret ?a) ?k] => rewrite (bind_ret_l a k)
  | |- context [bind (ssl_err ?s) ?k] => rewrite (bind_ssl_err s k)
  | |- context [bind (fatal_exit ?s) ?k] => rewrite (bind_fatal_exit s k)
  | |- context [bind (exit ?z) ?k] => rewrite (bind_exit z k)
  | |- context [bind out_of_fuel ?k] => rewrite (bind_out_of_fuel k)
  | |- context [when_ true ?b] => change (when_ true b) with b
  | |- context [when_ false ?b] => change (when_ false b) with (ret tt)
  end;
  cbv beta iota;
  cbn [trace result fst snd negb andb orb ctx_options ctx_certificate_file
       ctx_PrivateKey_file ctx_verify_locations ctx_verify_mode ssl_ctx
       ssl_connect_state ssl_mode ssl_fd].

Ltac split_on c :=
  lazymatch c with
  | negb ?c' => split_on c'
  | andb ?c' _ => split_on c'
  | orb ?c' _ => split_on c'
  | if ?c' then _ else _ => split_on c'
  | _ => destruct c eqn:?
  end.

Ltac branch_on m :=
  lazymatch m with
  | if ?c then _ else _ => split_on c
  | match ?x with Some _ => _ | None => _ end => split_on x
  | bind (when_ ?c _) _ => split_on c
  | when_ ?c _ => split_on c
  end.

Ltac branch :=
  match goal with
  | |- context [result ?m] => branch_on m
  | |- context [trace ?m] => branch_on m
  | |- context [never _ ?m] => branch_on m
  | |- @eq (M _) ?m _ => branch_on m
  end;
  cbv beta iota; cbn [negb andb orb].

Ltac run := repeat (repeat step; try branch).

Ltac unfold_ctx_calls :=
  unfold fname_after_chroot, SSL_CTX_new, SSL_CTX_set_options,
    SSL_CTX_use_certificate_file, SSL_CTX_use_PrivateKey_file,
    SSL_CTX_check_private_key, SSL_CTX_load_verify_locations,
    SSL_CTX_set_verify, free.

(** ** setup_ctx *)

Section SetupCtx.

Context {K : openssl_constants}.
Variable env : environment.

(** No call of [setup_ctx] reaches the network. *)
Lemma setup_ctx_no_network (cfg : config_file) :
  never network_event (setup_ctx env cfg).
Proof.
  unfold setup_ctx. unfold_ctx_calls. unfold never.
  run; cbn; repeat constructor.
Qed.

Ltac in_trace H :=
  cbn in H;
  repeat (destruct H as [H | H]; [try discriminate H |]);
  try contradiction.

(** C9: whatever the configuration and the environment, a context that
    [setup_ctx] returns has the option bit that switches SSLv2 off and
    has peer verification as its verify mode; the option and the mode
    that the builder asks for are the constants [SSL_OP_NO_SSLv2] and
    [SSL_VERIFY_PEER], never a value of the configuration. *)
Theorem C9_trust_policy_is_fixed (cfg : config_file) (ctx : SSL_CTX) :
  result (setup_ctx env cfg) = Returns ctx ->
  Z.land (ctx_options ctx) SSL_OP_NO_SSLv2 <> 0 /\
  ctx_verify_mode ctx = Some SSL_VERIFY_PEER /\
  In (E_SSL_CTX_set_options SSL_OP_NO_SSLv2) (trace (setup_ctx env cfg)) /\
  In (E_SSL_CTX_set_verify SSL_VERIFY_PEER) (trace (setup_ctx env cfg)) /\
  (forall op, In (E_SSL_CTX_set_options op) (trace (setup_ctx env cfg)) ->
     op = SSL_OP_NO_SSLv2) /\
  (forall mode, In (E_SSL_CTX_set_verify mode) (trace (setup_ctx env cfg)) ->
     mode = SSL_VERIFY_PEER).
Proof.
  unfold setup_ctx. unfold_ctx_calls.
  run; try discriminate.
  intros [= <-]. cbn [ctx_options ctx_verify_mode].
  repeat split.
  - apply Z.eqb_neq. assumption.
  - cbn. tauto.
  - cbn. tauto.
  - intros op H. in_trace H. congruence.
  - intros mode H. in_trace H. congruence.
Qed.

Variable ip_literal : string -> option (address_family * string).

(** C3: when the certificate file loads and the key does not fit the
    certificate, [setup_ctx] ends the process through [ssl_err] with the
    key-and-certificate message (the spec's CredentialError), and the
    run of [go] ends the same way without a single call that reaches
    the network: no socket, no connect.  OpenSSL reports a key that
    does not fit in one of two places, and both are covered: when the
    key file is loaded into a context that holds the certificate
    ([SSL_CTX_use_PrivateKey_file] answers 0, line 96), or, where the
    load goes through, when the pair is checked
    ([SSL_CTX_check_private_key] answers 0, line 97). *)
Theorem C3_key_mismatch_fails_before_any_connection
  (cfg : config_file) (s_cert c_key c_cert : string) :
  e_fname_after_chroot env (server_cert_file cfg) = Some s_cert ->
  e_fname_after_chroot env (control_key_file cfg) = Some c_key ->
  e_fname_after_chroot env (control_cert_file cfg) = Some c_cert ->
  e_SSL_CTX_new env = true ->
  Z.land (e_SSL_CTX_set_options env SSL_OP_NO_SSLv2) SSL_OP_NO_SSLv2 <> 0 ->
  e_SSL_CTX_use_certificate_file env c_cert <> 0 ->
  e_SSL_CTX_use_PrivateKey_file env c_key = 0 \/
  e_SSL_CTX_check_private_key env (Some c_cert) (Some c_key) = 0 ->
  result (setup_ctx env cfg) =
    Exits (by_ssl_err "Error setting up SSL_CTX client key and cert") /\
  never network_event (setup_ctx env cfg) /\
  forall fuel cfgfile svr argc argv,
    e_config_create env = true ->
    e_config_read env cfgfile = Some cfg ->
    result (go env ip_literal fuel cfgfile svr argc argv) =
      Exits (by_ssl_err "Error setting up SSL_CTX client key and cert") /\
    never network_event (go env ip_literal fuel cfgfile svr argc argv).
Proof.
  intros Hs Hk Hc Hnew Hopt Hcert Hmis.
  apply Z.eqb_neq in Hopt, Hcert.
  assert (Hctx : result (setup_ctx env cfg) =
            Exits (by_ssl_err "Error setting up SSL_CTX client key and cert")).
  { unfold setup_ctx. unfold_ctx_calls.
    rewrite Hs, Hk, Hc, Hnew. repeat step.
    rewrite Hopt. repeat step. rewrite Hcert. repeat step.
    destruct (Z.eqb_spec (e_SSL_CTX_use_PrivateKey_file env c_key) 0)
      as [Hkey | Hkey].
    - (* the key file is refused when it is loaded *)
      repeat step. reflexivity.
    - (* the key file loads: the check is what fails *)
      destruct Hmis as [Hmis | Hmis]; [contradiction |].
      repeat step. rewrite Hmis. reflexivity. }
  split; [exact Hctx |].
  split; [apply setup_ctx_no_network |].
  intros fuel cfgfile svr argc argv Hcreate Hread.
  unfold go, config_create, config_read, log_warn.
  rewrite Hcreate, Hread. repeat step.
  branch; repeat step;
    rewrite (bind_stops _ _ _ Hctx); cbn [result trace fst snd];
    (split; [reflexivity | ]);
    unfold never; cbn [trace fst];
    repeat (constructor; [reflexivity |]);
    apply setup_ctx_no_network.
Qed.

End SetupCtx.

(** ** contact_server *)

Lemma strchr_at_port (a p : string) :
  strchr a "@" = None -> strchr (at_port a p) "@" = Some (String "@" p).
Proof.
  unfold at_port. induction a as [| c a IH]; cbn; [reflexivity |].
  destruct (Ascii.eqb c "@"); [discriminate | exact IH].
Qed.

Lemma before_marker_at_port (a p : string) :
  strchr a "@" = None -> before_marker (at_port a p) = a.
Proof.
  unfold at_port. induction a as [| c a IH]; cbn; [reflexivity |].
  destruct (Ascii.eqb c "@"); [discriminate |].
  intros H. rewrite (IH H). reflexivity.
Qed.

Lemma bind_not_returns_never {A B} (p : event -> bool) (m : M A) (k : A -> M B) :
  never p m -> (forall a, result m <> Returns a) ->
  never p (bind m k) /\ forall b, result (bind m k) <> Returns b.
Proof.
  intros Hn Hr. destruct (bind_not_returns m k Hr) as [Ht Hb].
  split; [| exact Hb]. unfold never. rewrite Ht. exact Hn.
Qed.

Section ContactServer.

Context {K : openssl_constants}.
Variable env : environment.
Variable ip_literal : string -> option (address_family * string).

Lemma extstrtoaddr_at_port (a p : string) :
  strchr a "@" = None ->
  extstrtoaddr ip_literal (at_port a p) =
    match numeric_port p with
    | Some n => ipstrtoaddr ip_literal a n
    | None => None
    end.
Proof.
  intros H. unfold extstrtoaddr.
  rewrite (strchr_at_port a p H), (before_marker_at_port a p H). reflexivity.
Qed.

(** A malformed server string stops [contact_server] in [fatal_exit]
    right after the parsing call. *)
Lemma contact_server_malformed (cfg : config_file) (bad : string) :
  malformed ip_literal bad ->
  exists e msg,
    contact_server env ip_literal (Some bad) cfg = ([e], Exits (by_fatal_exit msg)) /\
    stage_of e = Some ResolveEndpoint /\
    (msg = ("could not parse IP@port: " ++ bad)%string \/
     msg = ("could not parse IP: " ++ bad)%string).
Proof.
  intros [s Hs Hip | a p Ha Hp | a p Ha Hip]; unfold contact_server, resolve.
  - rewrite Hs. unfold ipstrtoaddr. rewrite Hip. repeat step.
    eexists _, _. split; [reflexivity |]. split; [reflexivity |]. right. reflexivity.
  - rewrite (strchr_at_port a p Ha), (extstrtoaddr_at_port a p Ha), Hp.
    repeat step.
    eexists _, _. split; [reflexivity |]. split; [reflexivity |]. left. reflexivity.
  - rewrite (strchr_at_port a p Ha), (extstrtoaddr_at_port a p Ha).
    unfold ipstrtoaddr. rewrite Hip.
    destruct (numeric_port p); repeat step;
      (eexists _, _; split; [reflexivity |]; split; [reflexivity |]; left; reflexivity).
Qed.

End ContactServer.

(** ** Steps of a trace *)

Lemma never_impl {A} (p q : event -> bool) (m : M A) :
  (forall e, q e = true -> p e = true) -> never p m -> never q m.
Proof.
  intros Hpq. unfold never. apply Forall_impl. intros e Hp.
  destruct (q e) eqn:Hq; [| reflexivity].
  rewrite (Hpq e Hq) in Hp. discriminate.
Qed.

Lemma ranks_app (order : stage -> nat) (t1 t2 : list event) :
  ranks order (t1 ++ t2) = ranks order t1 ++ ranks order t2.
Proof.
  induction t1 as [| e t1 IH]; cbn; [reflexivity |].
  destruct (stage_of e); cbn; rewrite IH; reflexivity.
Qed.

Lemma sorted_from_weaken (lo lo' : nat) (l : list nat) :
  (lo' <= lo)%nat -> sorted_from lo l = true -> sorted_from lo' l = true.
Proof.
  destruct l as [| x l]; cbn; [reflexivity |].
  intros Hle H. apply andb_true_iff in H. destruct H as [H1 H2].
  apply Nat.leb_le in H1. apply andb_true_iff. split; [| exact H2].
  apply Nat.leb_le. lia.
Qed.

Lemma sorted_from_app_l (lo : nat) (l1 l2 : list nat) :
  sorted_from lo (l1 ++ l2) = true -> sorted_from lo l1 = true.
Proof.
  revert lo. induction l1 as [| x l1 IH]; cbn; intros lo H; [reflexivity |].
  apply andb_true_iff in H. destruct H as [H1 H2].
  rewrite H1. cbn. apply (IH x H2).
Qed.

Lemma within_app (lo mid hi : nat) (l1 l2 : list nat) :
  within lo mid l1 = true -> within mid hi l2 = true ->
  within lo hi (l1 ++ l2) = true.
Proof.
  unfold within. revert lo. induction l1 as [| x l1 IH]; cbn; intros lo H1 H2.
  - apply andb_true_iff in H1. destruct H1 as [H1 _]. apply Nat.leb_le in H1.
    apply (sorted_from_weaken mid lo _ H1 H2).
  - apply andb_true_iff in H1. destruct H1 as [Hx H1].
    rewrite Hx. cbn. apply (IH x H1 H2).
Qed.

Lemma within_weaken (lo hi lo' hi' : nat) (l : list nat) :
  (lo' <= lo)%nat -> (hi <= hi')%nat ->
  within lo hi l = true -> within lo' hi' l = true.
Proof.
  intros Hlo Hhi H.
  apply (sorted_from_weaken lo lo' _ Hlo).
  assert (E : within lo hi' (l ++ []) = true).
  { apply (within_app lo hi hi' l [] H). cbn. rewrite andb_true_r.
    apply Nat.leb_le. exact Hhi. }
  rewrite app_nil_r in E. exact E.
Qed.

Lemma within_le (lo hi : nat) (l : list nat) :
  within lo hi l = true -> (lo <= hi)%nat.
Proof.
  unfold within. revert lo. induction l as [| x l IH]; cbn; intros lo H.
  - rewrite andb_true_r in H. apply Nat.leb_le. exact H.
  - apply andb_true_iff in H. destruct H as [H1 H2].
    apply Nat.leb_le in H1. specialize (IH x H2). lia.
Qed.

Lemma stages_within_bind {A B} (lo mid hi : nat) (m : M A) (k : A -> M B) :
  (mid <= hi)%nat ->
  stages_within lo mid m -> (forall a, stages_within mid hi (k a)) ->
  stages_within lo hi (bind m k).
Proof.
  unfold stages_within. destruct m as [t [a | f |]]; cbn; intros Hle Hm Hk.
  - specialize (Hk a). destruct (k a) as [t' o]. cbn in *.
    rewrite ranks_app. apply (within_app lo mid hi); assumption.
  - apply (within_weaken lo mid lo hi); auto.
  - apply (within_weaken lo mid lo hi); auto.
Qed.

Lemma stages_within_weaken {A} (lo hi lo' hi' : nat) (m : M A) :
  (lo' <= lo)%nat -> (hi <= hi')%nat ->
  stages_within lo hi m -> stages_within lo' hi' m.
Proof. unfold stages_within. apply within_weaken. Qed.

(** A run whose calls all belong to step [r], or to none, stays in it. *)
Lemma stages_within_one {A} (r : nat) (m : M A) :
  never (outside r) m -> stages_within r r m.
Proof.
  unfold never, stages_within, within. destruct m as [t o]. cbn.
  induction t as [| e t IH]; cbn; intros H.
  - rewrite Nat.leb_refl. reflexivity.
  - inversion H as [| ? ? He Ht]; subst. specialize (IH Ht).
    unfold outside in He. destruct (stage_of e) as [s |]; [| exact IH].
    apply negb_false_iff, Nat.eqb_eq in He. rewrite He. cbn.
    rewrite Nat.leb_refl. exact IH.
Qed.

(** A run that stays within the steps up to [hi] holds no call of a
    later step. *)
Lemma stages_within_never {A} (p : event -> bool) (lo hi : nat) (m : M A) :
  (forall e, p e = true ->
     exists s, stage_of e = Some s /\ (hi < code_order s)%nat) ->
  stages_within lo hi m -> never p m.
Proof.
  intros Hp. unfold stages_within, never, within. destruct m as [t o]. cbn.
  revert lo. induction t as [| e t IH]; cbn; intros lo H; [constructor |].
  destruct (p e) eqn:Hpe.
  - destruct (Hp e Hpe) as [s [Hs Hlt]]. rewrite Hs in H. cbn in H.
    apply andb_true_iff in H. destruct H as [_ H].
    apply within_le in H. lia.
  - constructor; [exact Hpe |].
    destruct (stage_of e) as [s |].
    + cbn in H. apply andb_true_iff in H. destruct H as [_ H]. apply (IH _ H).
    + apply (IH _ H).
Qed.

Lemma network_event_stage (e : event) :
  network_event e = true ->
  exists s, stage_of e = Some s /\ (1 < code_order s)%nat.
Proof.
  destruct e; try discriminate; intros _;
    (eexists; split; [reflexivity | cbn; lia]).
Qed.

Lemma data_event_stage (e : event) :
  data_event e = true ->
  exists s, stage_of e = Some s /\ (2 < code_order s)%nat.
Proof.
  destruct e; try discriminate; intros _;
    (eexists; split; [reflexivity | cbn; lia]).
Qed.

(** Proves [never p m] for straight-line code by following its shape. *)
Ltac never_tac :=
  repeat first
    [ apply never_nil
    | apply never_call; reflexivity
    | apply never_when
    | apply never_bind; [| intros ?]
    | match goal with
      | |- never _ (match ?x with _ => _ end) => destruct x
      end ].

Section Stages.

Context {K : openssl_constants}.
Variable env : environment.
Variable ip_literal : string -> option (address_family * string).

Lemma setup_ctx_stage (cfg : config_file) :
  never (outside 0) (setup_ctx env cfg).
Proof. unfold setup_ctx. never_tac. Qed.

Lemma resolve_stage (svr : option string) (cfg : config_file) :
  never (outside 1) (resolve ip_literal svr cfg).
Proof. unfold resolve. never_tac. Qed.

Lemma contact_server_stages (svr : option string) (cfg : config_file) :
  stages_within 1 2 (contact_server env ip_literal svr cfg).
Proof.
  unfold contact_server.
  apply (stages_within_bind 1 1 2); [lia | apply stages_within_one, resolve_stage |].
  intros addr. apply (stages_within_weaken 2 2); [lia | lia |].
  apply stages_within_one. never_tac.
Qed.

Lemma handshake_loop_stage (fuel : nat) (ssl : SSL) (i : nat) :
  never (outside 2) (handshake_loop env fuel ssl i).
Proof.
  revert i. induction fuel as [| fuel IH]; intros i; cbn [handshake_loop].
  - apply never_nil.
  - never_tac. apply IH.
Qed.

Lemma setup_ssl_stage (fuel : nat) (ctx : SSL_CTX) (fd : Z) :
  never (outside 2) (setup_ssl env fuel ctx fd).
Proof.
  unfold setup_ssl. never_tac. apply handshake_loop_stage.
Qed.

Lemma read_loop_stage (fuel : nat) (ssl : SSL) (i : nat) :
  never (outside 3) (read_loop env fuel ssl i).
Proof.
  revert i. induction fuel as [| fuel IH]; intros i; cbn [read_loop].
  - apply never_nil.
  - never_tac. apply IH.
Qed.

Lemma go_cmd_stage (fuel : nat) (ssl : SSL) (argc : Z) (argv : list string) :
  never (outside 3) (go_cmd env fuel ssl argc argv).
Proof. unfold go_cmd. never_tac. apply read_loop_stage. Qed.

End Stages.

Lemma stops_bind_l {A B} (p : event -> bool) (m : M A) (k : A -> M B) :
  stops p m -> stops p (bind m k).
Proof. intros [Hn Hr]. apply bind_not_returns_never; assumption. Qed.

Lemma stops_bind_r {A B} (p : event -> bool) (m : M A) (k : A -> M B) :
  never p m -> (forall a, stops p (k a)) -> stops p (bind m k).
Proof.
  intros Hm Hk. split.
  - apply never_bind; [exact Hm |]. intros a. apply (Hk a).
  - intros b Hb. destruct (bind_returns_inv m k b Hb) as [a [_ Ha]].
    destruct (Hk a) as [_ Hk']. apply (Hk' b Ha).
Qed.

Lemma stops_exits {A} (p : event -> bool) (f : failure) :
  stops p (([], Exits f) : M A).
Proof. split; [apply never_nil | discriminate]. Qed.

Lemma stops_when (p : event -> bool) (c : bool) (body : M unit)
  {B} (k : unit -> M B) :
  never p body -> stops p (k tt) -> stops p (bind (when_ c body) k).
Proof.
  intros Hb Hk. apply stops_bind_r; [apply never_when, Hb |].
  intros []. exact Hk.
Qed.

Section Driver.

Context {K : openssl_constants}.
Variable env : environment.
Variable ip_literal : string -> option (address_family * string).

(** [go] runs through the steps in the order build, resolve, establish,
    exchange, tear down. *)
Lemma go_stages (fuel : nat) (cfgfile : string) (svr : option string)
  (argc : Z) (argv : list string) :
  stages_within 0 4 (go env ip_literal fuel cfgfile svr argc argv).
Proof.
  unfold go.
  apply (stages_within_bind 0 0 4);
    [lia | apply stages_within_one; never_tac | intros c].
  apply (stages_within_bind 0 0 4);
    [lia | apply stages_within_one; never_tac | intros _].
  apply (stages_within_bind 0 0 4);
    [lia | apply stages_within_one; never_tac | intros [cfg |]];
    [| reflexivity].
  apply (stages_within_bind 0 0 4);
    [lia | apply stages_within_one; never_tac | intros _].
  apply (stages_within_bind 0 0 4);
    [lia | apply stages_within_one, setup_ctx_stage | intros ctx].
  apply (stages_within_bind 0 2 4);
    [lia
    | apply (stages_within_weaken 1 2); [lia | lia | apply contact_server_stages]
    | intros fd].
  apply (stages_within_bind 2 2 4);
    [lia | apply stages_within_one, setup_ssl_stage | intros ssl].
  apply (stages_within_bind 2 3 4);
    [lia
    | apply (stages_within_weaken 3 3); [lia | lia |];
      apply stages_within_one, go_cmd_stage
    | intros _].
  apply (stages_within_weaken 4 4); [lia | lia |].
  apply stages_within_one. unfold SSL_free, close, SSL_CTX_free, config_delete.
  never_tac.
Qed.

(** Before the server is contacted no call belongs to a step later than
    resolving: when [contact_server] stops the process, the whole run
    holds no such call. *)
Lemma go_stops_in_contact_server (p : event -> bool)
  (fuel : nat) (cfgfile : string) (svr : option string)
  (argc : Z) (argv : list string) :
  (forall e, p e = true ->
     exists s, stage_of e = Some s /\ (1 < code_order s)%nat) ->
  (forall cfg, stops p (contact_server env ip_literal svr cfg)) ->
  stops p (go env ip_literal fuel cfgfile svr argc argv).
Proof.
  intros Hp Hcs.
  assert (Hnone : forall e, stage_of e = None -> p e = false).
  { intros e He. destruct (p e) eqn:E; [| reflexivity].
    destruct (Hp e E) as [s [Hs _]]. congruence. }
  unfold go.
  apply stops_bind_r; [apply never_call, Hnone; reflexivity | intros c].
  apply stops_when; [apply never_nil |].
  apply stops_bind_r; [apply never_call, Hnone; reflexivity | intros [cfg |]];
    [| apply stops_exits].
  apply stops_when; [apply never_call, Hnone; reflexivity |].
  apply stops_bind_r.
  - apply (stages_within_never p 0 0).
    + intros e He. destruct (Hp e He) as [s [Hs Hlt]]. exists s. split; [exact Hs | lia].
    + apply stages_within_one, setup_ctx_stage.
  - intros ctx. apply stops_bind_l, Hcs.
Qed.

(** Before the handshake no call moves data: when [setup_ssl] stops the
    process, the whole run holds no write and no read. *)
Lemma go_stops_in_setup_ssl
  (fuel : nat) (cfgfile : string) (svr : option string)
  (argc : Z) (argv : list string) :
  (forall ctx fd, stops data_event (setup_ssl env fuel ctx fd)) ->
  stops data_event (go env ip_literal fuel cfgfile svr argc argv).
Proof.
  intros Hssl. unfold go.
  apply stops_bind_r; [apply never_call; reflexivity | intros c].
  apply stops_when; [apply never_nil |].
  apply stops_bind_r; [apply never_call; reflexivity | intros [cfg |]];
    [| apply stops_exits].
  apply stops_when; [apply never_call; reflexivity |].
  apply stops_bind_r.
  - apply (stages_within_never data_event 0 0).
    + intros e He. destruct (data_event_stage e He) as [s [Hs Hlt]].
      exists s. split; [exact Hs | lia].
    + apply stages_within_one, setup_ctx_stage.
  - intros ctx. apply stops_bind_r.
    + apply (stages_within_never data_event 1 2 _ data_event_stage).
      apply contact_server_stages.
    + intros fd. apply stops_bind_l, Hssl.
Qed.

(** The first call of each step. *)
Lemma setup_ctx_first_call (cfg : config_file) :
  exists t, trace (setup_ctx env cfg) =
              E_fname_after_chroot (server_cert_file cfg) :: t.
Proof.
  unfold setup_ctx, fname_after_chroot. rewrite bind_call.
  eexists. reflexivity.
Qed.

Lemma contact_server_first_call (svr : option string) (cfg : config_file) :
  exists e t, trace (contact_server env ip_literal svr cfg) = e :: t /\
              stage_of e = Some ResolveEndpoint.
Proof.
  unfold contact_server, resolve.
  match goal with
  | |- context [strchr ?s "@"] => destruct (strchr s "@")
  end;
    match goal with
    | |- context [bind (call ?e ?a) ?k] => rewrite (bind_call e a k)
    end;
    match goal with
    | |- context [bind (?e :: ?t, ?o) ?k] =>
      destruct o as [addr | f |];
        [ rewrite (bind_returns (e :: t) addr k) | .. ]
    end;
    eexists _, _; (split; [reflexivity | reflexivity]).
Qed.

Lemma setup_ssl_first_call (fuel : nat) (ctx : SSL_CTX) (fd : Z) :
  exists t, trace (setup_ssl env fuel ctx fd) = E_SSL_new :: t.
Proof.
  unfold setup_ssl, SSL_new. rewrite bind_call. eexists. reflexivity.
Qed.

Lemma go_cmd_first_call (fuel : nat) (ssl : SSL) (argc : Z)
  (argv : list string) :
  exists w t, trace (go_cmd env fuel ssl argc argv) = E_SSL_write w :: t.
Proof.
  unfold go_cmd, SSL_write. rewrite bind_call. eexists _, _. reflexivity.
Qed.

(** A run of [go] that returns has gone through every step. *)
Lemma go_returns_all_steps (fuel : nat) (cfgfile : string)
  (svr : option string) (argc : Z) (argv : list string) :
  result (go env ip_literal fuel cfgfile svr argc argv) = Returns tt ->
  forall s, exists e,
    In e (trace (go env ip_literal fuel cfgfile svr argc argv)) /\
    stage_of e = Some s.
Proof.
  unfold go. intros H.
  apply bind_returns_trace in H as [c [_ [H ->]]].
  apply bind_returns_trace in H as [[] [_ [H ->]]].
  apply bind_returns_trace in H as [[cfg |] [_ [H ->]]];
    [| discriminate H].
  apply bind_returns_trace in H as [[] [_ [H ->]]].
  apply bind_returns_trace in H as [ctx [_ [H ->]]].
  apply bind_returns_trace in H as [fd [_ [H ->]]].
  apply bind_returns_trace in H as [ssl [_ [H ->]]].
  apply bind_returns_trace in H as [[] [_ [H ->]]].
  destruct (setup_ctx_first_call cfg) as [t1 ->].
  destruct (contact_server_first_call svr cfg) as [e2 [t2 [-> He2]]].
  destruct (setup_ssl_first_call fuel ctx fd) as [t3 ->].
  destruct (go_cmd_first_call fuel ssl argc argv) as [w [t4 ->]].
  intros [].
  - exists (E_fname_after_chroot (server_cert_file cfg)).
    split; [| reflexivity]. repeat rewrite in_app_iff. cbn [In]. auto 20.
  - exists e2. split; [| exact He2].
    repeat rewrite in_app_iff. cbn [In]. auto 20.
  - exists E_SSL_new. split; [| reflexivity].
    repeat rewrite in_app_iff. cbn [In]. auto 20.
  - exists (E_SSL_write w). split; [| reflexivity].
    repeat rewrite in_app_iff. cbn [In]. auto 20.
  - exists E_SSL_free. split; [| reflexivity].
    repeat rewrite in_app_iff. cbn. auto 20.
Qed.

(** C8, as the code has it: in every run of [go], whatever the
    environment, the calls follow the order build trust context, resolve
    endpoint, establish channel, exchange command, tear down: no call of
    an earlier step comes after a call of a later one, and a run that
    returns has made calls of each of the five steps.  The trust context
    is built before the endpoint is resolved. *)
Theorem C8_steps_in_code_order (fuel : nat) (cfgfile : string)
  (svr : option string) (argc : Z) (argv : list string) :
  follows_order code_order
    (trace (go env ip_literal fuel cfgfile svr argc argv)) = true /\
  (result (go env ip_literal fuel cfgfile svr argc argv) = Returns tt ->
   forall s, exists e,
     In e (trace (go env ip_literal fuel cfgfile svr argc argv)) /\
     stage_of e = Some s).
Proof.
  split.
  - unfold follows_order.
    apply (sorted_from_app_l 0 _ [4%nat]).
    apply go_stages.
  - apply go_returns_all_steps.
Qed.

End Driver.

(** With a key that does not fit and a server string that does not
    parse, the run ends on the key: the context is built first. *)
Example go_checks_the_key_before_the_address :
  result (go env_key_mismatch dotted_quad 1 "unbound.conf"
            (Some "127.0.0.1@x") 1 ["status"]) =
    Exits (by_ssl_err "Error setting up SSL_CTX client key and cert").
Proof. reflexivity. Qed.

(** C8, as the spec words it, fails on a plain successful run: the calls
    that build the trust context come before the call that resolves the
    endpoint. *)
Lemma C8_spec_order_counterexample :
  follows_order spec_order
    (trace (go (env_chunks []) dotted_quad 1 "unbound.conf" None 0 [])) = false.
Proof. vm_compute. reflexivity. Qed.

(** ** The endpoint *)

Section Endpoint.

Context {K : openssl_constants}.
Variable env : environment.
Variable ip_literal : string -> option (address_family * string).

(** C4: a server string [a@p] with an address literal [a] and a numeric
    port [p] resolves to exactly that address and that port; a string
    [s] without ['@'] that is an address literal resolves to that
    address and the configured control port; a malformed string (no
    ['@'] and no address literal, or [a@p] with a port that is not
    numeric or an [a] that is no address literal) ends the process in
    [fatal_exit] with a could-not-parse message (the spec's
    AddressError) after the parsing call alone, and the run of [go]
    holds no call that reaches the network. *)
Theorem C4_endpoint_resolution
  (cfg : config_file) (a p : string) (family : address_family)
  (bytes : string) (n : Z) (s : string) (family' : address_family)
  (bytes' : string) (bad : string) :
  strchr a "@" = None ->
  ip_literal a = Some (family, bytes) ->
  numeric_port p = Some n ->
  strchr s "@" = None ->
  ip_literal s = Some (family', bytes') ->
  malformed ip_literal bad ->
  resolve ip_literal (Some (at_port a p)) cfg =
    ([E_extstrtoaddr (at_port a p)],
     Returns {| ss_family := family; ss_addr := bytes; ss_port := n |}) /\
  resolve ip_literal (Some s) cfg =
    ([E_ipstrtoaddr s (control_port cfg)],
     Returns {| ss_family := family'; ss_addr := bytes';
                ss_port := control_port cfg |}) /\
  (exists e msg,
     contact_server env ip_literal (Some bad) cfg =
       ([e], Exits (by_fatal_exit msg)) /\
     network_event e = false /\
     (msg = ("could not parse IP@port: " ++ bad)%string \/
      msg = ("could not parse IP: " ++ bad)%string)) /\
  (forall fuel cfgfile argc argv,
     stops network_event
       (go env ip_literal fuel cfgfile (Some bad) argc argv)).
Proof.
  intros Ha Hip Hp Hs Hip' Hbad.
  assert (Hcs : forall cfg', exists e msg,
            contact_server env ip_literal (Some bad) cfg' =
              ([e], Exits (by_fatal_exit msg)) /\
            network_event e = false /\
            (msg = ("could not parse IP@port: " ++ bad)%string \/
             msg = ("could not parse IP: " ++ bad)%string)).
  { intros cfg'.
    destruct (contact_server_malformed env ip_literal cfg' bad Hbad)
      as [e [msg [Hrun [Hst Hmsg]]]].
    exists e, msg. split; [exact Hrun |]. split; [| exact Hmsg].
    destruct e; try discriminate Hst; reflexivity. }
  split; [| split; [| split]].
  - unfold resolve.
    rewrite (strchr_at_port a p Ha), (extstrtoaddr_at_port ip_literal a p Ha), Hp.
    unfold ipstrtoaddr. rewrite Hip. reflexivity.
  - unfold resolve. rewrite Hs. unfold ipstrtoaddr. rewrite Hip'. reflexivity.
  - apply Hcs.
  - intros fuel cfgfile argc argv.
    apply (go_stops_in_contact_server env ip_literal network_event
             fuel cfgfile (Some bad) argc argv network_event_stage).
    intros cfg'. destruct (Hcs cfg') as [e [msg [Hrun [He _]]]].
    rewrite Hrun. split; [| discriminate].
    unfold never. cbn. constructor; [exact He | constructor].
Qed.

End Endpoint.

(** ** The handshake *)

Lemma handshake_attempts_app (t1 t2 : list event) :
  handshake_attempts (t1 ++ t2) = (handshake_attempts t1 + handshake_attempts t2)%nat.
Proof.
  induction t1 as [| e t1 IH]; cbn; [reflexivity |].
  destruct e; cbn; rewrite IH; reflexivity.
Qed.

Section Handshake.

Context {K : openssl_constants}.
Variable env : environment.
Variable ip_literal : string -> option (address_family * string).

Lemma handshake_attempts_retries (i n : nat) :
  handshake_attempts (retries env i n) = n.
Proof.
  revert i. induction n as [| n IH]; intros i; cbn; [reflexivity |].
  rewrite IH. reflexivity.
Qed.

(** One pass through the loop: after a would-block outcome the loop
    goes round again, after any other outcome it is left. *)
Lemma handshake_loop_step (fuel : nat) (ssl : SSL) (i : nat) :
  handshake_loop env (S fuel) ssl i =
    if would_block env i
    then (attempt_again env i ++ trace (handshake_loop env fuel ssl (S i)),
          result (handshake_loop env fuel ssl (S i)))
    else if e_SSL_do_handshake env i =? 1
    then ([E_ERR_clear_error; E_SSL_do_handshake], Returns tt)
    else ([E_ERR_clear_error; E_SSL_do_handshake;
           E_SSL_get_error (e_SSL_do_handshake env i)],
          Exits (by_ssl_err "SSL handshake failed")).
Proof.
  cbn [handshake_loop].
  unfold ERR_clear_error, SSL_do_handshake, SSL_get_error_handshake, would_block.
  repeat step.
  destruct (e_SSL_do_handshake env i =? 1); cbn [negb andb]; [reflexivity |].
  repeat step.
  destruct (e_SSL_get_error_handshake env i =? SSL_ERROR_WANT_READ);
    destruct (e_SSL_get_error_handshake env i =? SSL_ERROR_WANT_WRITE);
    cbn [negb andb orb]; repeat step; reflexivity.
Qed.

Lemma handshake_loop_run (n : nat) :
  forall (i fuel : nat) (ssl : SSL),
  (forall j, (j < n)%nat -> would_block env (i + j) = true) ->
  would_block env (i + n) = false ->
  (n < fuel)%nat ->
  handshake_loop env fuel ssl i =
    if e_SSL_do_handshake env (i + n) =? 1
    then (retries env i n ++ [E_ERR_clear_error; E_SSL_do_handshake],
          Returns tt)
    else (retries env i n ++
          [E_ERR_clear_error; E_SSL_do_handshake;
           E_SSL_get_error (e_SSL_do_handshake env (i + n))],
          Exits (by_ssl_err "SSL handshake failed")).
Proof.
  induction n as [| n IH]; intros i fuel ssl Hblock Hlast Hfuel;
    (destruct fuel as [| fuel]; [lia |]); rewrite handshake_loop_step.
  - rewrite Nat.add_0_r in *. rewrite Hlast. cbn [retries app].
    destruct (e_SSL_do_handshake env i =? 1); reflexivity.
  - rewrite <- (Nat.add_0_r i) at 1. rewrite (Hblock 0%nat) by lia.
    rewrite (IH (S i) fuel ssl).
    + replace (S i + n)%nat with (i + S n)%nat by lia.
      cbn [retries].
      destruct (e_SSL_do_handshake env (i + S n) =? 1);
        cbn [trace result fst snd]; rewrite <- app_assoc; reflexivity.
    + intros j Hj. replace (S i + j)%nat with (i + S j)%nat by lia.
      apply Hblock. lia.
    + replace (S i + n)%nat with (i + S n)%nat by lia. exact Hlast.
    + lia.
Qed.

(** As long as every outcome is a would-block, the loop goes on: it has
    no bound of its own on the number of attempts. *)
Lemma handshake_loop_spins (fuel : nat) (ssl : SSL) (i : nat) :
  (forall j, would_block env j = true) ->
  handshake_loop env fuel ssl i = (retries env i fuel, OutOfFuel).
Proof.
  intros Hblock. revert i. induction fuel as [| fuel IH]; intros i.
  - reflexivity.
  - rewrite handshake_loop_step, Hblock, IH. reflexivity.
Qed.

Lemma handshake_loop_no_connection (fuel : nat) (ssl : SSL) (i : nat) :
  never connection_event (handshake_loop env fuel ssl i).
Proof.
  revert i. induction fuel as [| fuel IH]; intros i; cbn [handshake_loop].
  - apply never_nil.
  - never_tac. apply IH.
Qed.

(** C5: the handshake step is attempted again exactly after the
    outcomes that are a would-block (not 1, and an error of want-read or
    want-write).  When the first [n] outcomes are would-blocks and the
    next one is not, the loop makes [n + 1] attempts, one after the
    other with nothing in between but the error-queue calls; it returns
    when that last outcome is 1 and otherwise ends the process through
    [ssl_err] with the handshake message (the spec's HandshakeError).
    It opens no new connection. *)
Theorem C5_handshake_retries_on_would_block_only
  (ssl : SSL) (n fuel : nat) :
  (forall j, (j < n)%nat -> would_block env j = true) ->
  would_block env n = false ->
  (n < fuel)%nat ->
  handshake_loop env fuel ssl 0 =
    (if e_SSL_do_handshake env n =? 1
     then (retries env 0 n ++ [E_ERR_clear_error; E_SSL_do_handshake],
           Returns tt)
     else (retries env 0 n ++
           [E_ERR_clear_error; E_SSL_do_handshake;
            E_SSL_get_error (e_SSL_do_handshake env n)],
           Exits (by_ssl_err "SSL handshake failed"))) /\
  handshake_attempts (trace (handshake_loop env fuel ssl 0)) = S n /\
  never connection_event (handshake_loop env fuel ssl 0).
Proof.
  intros Hblock Hlast Hfuel.
  assert (E := handshake_loop_run n 0 fuel ssl Hblock Hlast Hfuel).
  cbn [Nat.add] in E.
  split; [exact E |]. split; [| apply handshake_loop_no_connection].
  rewrite E.
  destruct (e_SSL_do_handshake env n =? 1); cbn [trace fst];
    rewrite handshake_attempts_app, handshake_attempts_retries; cbn; lia.
Qed.

End Handshake.

(** ** setup_ssl *)

Lemma data_event_outside_2 (e : event) :
  data_event e = true -> outside 2 e = true.
Proof. destruct e; try discriminate; reflexivity. Qed.

Section SetupSsl.

Context {K : openssl_constants}.
Variable env : environment.
Variable ip_literal : string -> option (address_family * string).

(** [setup_ssl] returns only past both checks. *)
Lemma setup_ssl_returns_inv (fuel : nat) (ctx : SSL_CTX) (fd : Z) (ssl : SSL) :
  result (setup_ssl env fuel ctx fd) = Returns ssl ->
  e_SSL_get_verify_result env = X509_V_OK /\
  e_SSL_get_peer_certificate env = true.
Proof.
  unfold setup_ssl, SSL_new, SSL_set_connect_state, SSL_set_mode, SSL_set_fd.
  run; try discriminate.
  match goal with
  | |- context [bind ?m _] => destruct m as [t [[] | f |]]
  end; try discriminate.
  rewrite bind_returns. cbn [result snd].
  unfold SSL_get_verify_result, SSL_get_peer_certificate, X509_free.
  run; try discriminate.
  intros _. split; [apply Z.eqb_eq; assumption | reflexivity].
Qed.

Lemma setup_ssl_no_data (fuel : nat) (ctx : SSL_CTX) (fd : Z) :
  never data_event (setup_ssl env fuel ctx fd).
Proof.
  apply (never_impl (outside 2)); [apply data_event_outside_2 |].
  apply setup_ssl_stage.
Qed.

(** C2: after a successful handshake [setup_ssl] hands out the channel
    exactly when the verify result is [X509_V_OK] and the peer has
    presented a certificate.  A verify result other than [X509_V_OK]
    ends the process through [ssl_err] with the verification message; a
    valid result without a peer certificate ends it with the
    no-peer-certificate message (both the spec's HandshakeError).  In
    either case the run of [go] ends early and holds no write to and no
    read from the channel. *)
Theorem C2_channel_needs_valid_chain_and_peer_certificate
  (fuel : nat) (ctx : SSL_CTX) (fd : Z) (tr : list event) :
  e_SSL_new env = true ->
  e_SSL_set_fd env fd <> 0 ->
  handshake_loop env fuel (client_ssl ctx fd) 0 = (tr, Returns tt) ->
  ((exists ssl, result (setup_ssl env fuel ctx fd) = Returns ssl) <->
   (e_SSL_get_verify_result env = X509_V_OK /\
    e_SSL_get_peer_certificate env = true)) /\
  (e_SSL_get_verify_result env <> X509_V_OK ->
   result (setup_ssl env fuel ctx fd) =
     Exits (by_ssl_err "SSL verification failed")) /\
  (e_SSL_get_verify_result env = X509_V_OK ->
   e_SSL_get_peer_certificate env = false ->
   result (setup_ssl env fuel ctx fd) =
     Exits (by_ssl_err "Server presented no peer certificate")) /\
  (~ (e_SSL_get_verify_result env = X509_V_OK /\
      e_SSL_get_peer_certificate env = true) ->
   forall cfgfile svr argc argv,
     stops data_event (go env ip_literal fuel cfgfile svr argc argv)).
Proof.
  intros Hnew Hfd Hloop. apply Z.eqb_neq in Hfd. unfold client_ssl in Hloop.
  assert (Hrun : result (setup_ssl env fuel ctx fd) =
    if e_SSL_get_verify_result env =? X509_V_OK
    then if e_SSL_get_peer_certificate env
         then Returns (client_ssl ctx fd)
         else Exits (by_ssl_err "Server presented no peer certificate")
    else Exits (by_ssl_err "SSL verification failed")).
  { unfold setup_ssl, SSL_new, SSL_set_connect_state, SSL_set_mode, SSL_set_fd.
    rewrite Hnew. repeat step. rewrite Hfd. repeat step.
    rewrite Hloop, bind_returns. cbn [result snd].
    unfold SSL_get_verify_result, SSL_get_peer_certificate, X509_free.
    repeat step.
    destruct (e_SSL_get_verify_result env =? X509_V_OK); repeat step;
      [| reflexivity].
    destruct (e_SSL_get_peer_certificate env); repeat step; reflexivity. }
  split; [| split; [| split]].
  - split.
    + intros [ssl Hssl]. apply (setup_ssl_returns_inv _ _ _ _ Hssl).
    + intros [Hv Hc]. exists (client_ssl ctx fd).
      rewrite Hrun, Hc. apply Z.eqb_eq in Hv. rewrite Hv. reflexivity.
  - intros Hv. apply Z.eqb_neq in Hv. rewrite Hrun, Hv. reflexivity.
  - intros Hv Hc. apply Z.eqb_eq in Hv. rewrite Hrun, Hv, Hc. reflexivity.
  - intros Hnot cfgfile svr argc argv.
    apply go_stops_in_setup_ssl. intros ctx' fd'.
    split; [apply setup_ssl_no_data |].
    intros ssl Hssl. apply Hnot.
    apply (setup_ssl_returns_inv _ _ _ _ Hssl).
Qed.

End SetupSsl.

(** ** go_cmd *)

Lemma c_str_app_nul (s t : string) :
  c_str (s ++ String NUL t) = c_str s.
Proof.
  induction s as [| a s IH]; cbn; [reflexivity |].
  destruct (Ascii.eqb a NUL); [reflexivity |]. rewrite IH. reflexivity.
Qed.

Lemma substring_all (s : string) : substring 0 (String.length s) s = s.
Proof.
  induction s as [| a s IH]; cbn; [reflexivity |]. rewrite IH. reflexivity.
Qed.

(** After [buf[r] = 0] on a buffer that holds the [r] bytes of a read,
    the buffer prints as those bytes do. *)
Lemma c_str_store_nul (buf : string) :
  c_str (store_nul buf (Z.of_nat (String.length buf))) = c_str buf.
Proof.
  unfold store_nul. rewrite Nat2Z.id, c_str_app_nul, substring_all.
  reflexivity.
Qed.

Lemma c_str_no_nul (s : string) : strchr s NUL = None -> c_str s = s.
Proof.
  induction s as [| a s IH]; cbn; [reflexivity |].
  destruct (Ascii.eqb a NUL); [discriminate |].
  intros H. rewrite (IH H). reflexivity.
Qed.

Lemma stdout_app (t1 t2 : list event) :
  stdout (t1 ++ t2) = (stdout t1 ++ stdout t2)%string.
Proof.
  induction t1 as [| e t1 IH]; cbn; [reflexivity |].
  destruct e; cbn; rewrite ?IH; try reflexivity.
  induction out as [| a out IHo]; cbn; [reflexivity |].
  rewrite IHo. reflexivity.
Qed.

Lemma written_app (t1 t2 : list event) :
  written (t1 ++ t2) = written t1 ++ written t2.
Proof.
  induction t1 as [| e t1 IH]; cbn; [reflexivity |].
  destruct e; cbn; rewrite ?IH; reflexivity.
Qed.

Lemma cmd_bytes : substring 0 (Z.to_nat (strlen cmd)) cmd = cmd.
Proof. reflexivity. Qed.

Section GoCmd.

Context {K : openssl_constants}.
Variable env : environment.

(** One pass through the read loop. *)
Lemma read_loop_step (fuel : nat) (ssl : SSL) (i : nat) :
  read_loop env (S fuel) ssl i =
    if fst (e_SSL_read env i) <=? 0
    then (last_read env i,
          if e_SSL_get_error_read env i =? SSL_ERROR_ZERO_RETURN
          then Returns tt
          else Exits (by_ssl_err "could not SSL_read"))
    else ([E_ERR_clear_error; E_SSL_read 1023;
           E_printf (c_str (store_nul (snd (e_SSL_read env i))
                                      (fst (e_SSL_read env i))))]
          ++ trace (read_loop env fuel ssl (S i)),
          result (read_loop env fuel ssl (S i))).
Proof.
  cbn [read_loop].
  unfold ERR_clear_error, SSL_read, SSL_get_error_read, printf_s, last_read.
  destruct (e_SSL_read env i) as [r buf]. repeat step.
  destruct (r <=? 0); repeat step.
  - destruct (e_SSL_get_error_read env i =? SSL_ERROR_ZERO_RETURN);
      reflexivity.
  - reflexivity.
Qed.

(** The read loop on a peer that sends [chunks] from the [i]-th read on
    and then answers a read with a non-positive result. *)
Lemma read_loop_run (chunks : list string) :
  forall (i fuel : nat) (ssl : SSL),
  (forall j c, nth_error chunks j = Some c ->
     e_SSL_read env (i + j) = (Z.of_nat (String.length c), c)) ->
  Forall valid_chunk chunks ->
  fst (e_SSL_read env (i + List.length chunks)) <= 0 ->
  (List.length chunks < fuel)%nat ->
  read_loop env fuel ssl i =
    (flat_map forward chunks ++ last_read env (i + List.length chunks),
     if e_SSL_get_error_read env (i + List.length chunks)
        =? SSL_ERROR_ZERO_RETURN
     then Returns tt
     else Exits (by_ssl_err "could not SSL_read")).
Proof.
  induction chunks as [| c chunks IH]; intros i fuel ssl Hsend Hvalid Hend Hfuel;
    (destruct fuel as [| fuel]; [cbn in Hfuel; lia |]);
    rewrite read_loop_step; cbn [List.length] in *.
  - rewrite Nat.add_0_r in *.
    apply Z.leb_le in Hend. rewrite Hend. reflexivity.
  - assert (Hc : e_SSL_read env i = (Z.of_nat (String.length c), c)).
    { rewrite <- (Nat.add_0_r i). apply Hsend. reflexivity. }
    inversion Hvalid as [| ? ? Hvc Hvs]; subst.
    rewrite Hc. cbn [fst snd].
    destruct (Z.leb_spec (Z.of_nat (String.length c)) 0) as [Hle | _];
      [unfold valid_chunk in Hvc; lia |].
    rewrite c_str_store_nul.
    rewrite (IH (S i) fuel ssl).
    + replace (S i + List.length chunks)%nat
        with (i + S (List.length chunks))%nat by lia.
      cbn [trace result fst snd flat_map].
      rewrite <- app_assoc. reflexivity.
    + intros j c' Hj. replace (S i + j)%nat with (i + S j)%nat by lia.
      apply Hsend. exact Hj.
    + exact Hvs.
    + replace (S i + List.length chunks)%nat
        with (i + S (List.length chunks))%nat by lia.
      exact Hend.
    + lia.
Qed.

Lemma stdout_forward (chunks : list string) :
  stdout (flat_map forward chunks) = String.concat EmptyString (map c_str chunks).
Proof.
  induction chunks as [| c chunks IH]; [reflexivity |].
  cbn [flat_map forward app stdout map]. rewrite IH.
  destruct chunks as [| c' chunks]; cbn [map String.concat].
  - cbn. induction (c_str c) as [| a s IHs]; cbn; [reflexivity |].
    rewrite IHs. reflexivity.
  - reflexivity.
Qed.

Lemma map_c_str_no_nul (chunks : list string) :
  Forall (fun c => strchr c NUL = None) chunks -> map c_str chunks = chunks.
Proof.
  induction 1 as [| c chunks Hc _ IH]; cbn; [reflexivity |].
  rewrite (c_str_no_nul c Hc), IH. reflexivity.
Qed.

Lemma read_loop_writes_nothing (fuel : nat) (ssl : SSL) (i : nat) :
  written (trace (read_loop env fuel ssl i)) = [].
Proof.
  revert i. induction fuel as [| fuel IH]; intros i; [reflexivity |].
  rewrite read_loop_step. destruct (fst (e_SSL_read env i) <=? 0).
  - reflexivity.
  - cbn [trace fst]. rewrite written_app, IH. reflexivity.
Qed.

(** [go_cmd] from its write on. *)
Lemma go_cmd_unfold (fuel : nat) (ssl : SSL) (argc : Z) (argv : list string) :
  go_cmd env fuel ssl argc argv =
    if e_SSL_write env cmd <=? 0
    then ([E_SSL_write cmd], Exits (by_ssl_err "could not SSL_write"))
    else (E_SSL_write cmd :: trace (read_loop env fuel ssl 0),
          result (read_loop env fuel ssl 0)).
Proof.
  unfold go_cmd, SSL_write. rewrite cmd_bytes. repeat step.
  destruct (e_SSL_write env cmd <=? 0); repeat step; reflexivity.
Qed.

(** [go_cmd] writes once, and what it writes is [cmd]. *)
Lemma go_cmd_writes_cmd_once (fuel : nat) (ssl : SSL) (argc : Z)
  (argv : list string) :
  written (trace (go_cmd env fuel ssl argc argv)) = [cmd].
Proof.
  rewrite go_cmd_unfold. destruct (e_SSL_write env cmd <=? 0).
  - reflexivity.
  - cbn [trace fst written]. rewrite read_loop_writes_nothing. reflexivity.
Qed.

(** A non-positive result of the write ends the process at once. *)
Lemma go_cmd_write_fails (fuel : nat) (ssl : SSL) (argc : Z)
  (argv : list string) :
  e_SSL_write env cmd <= 0 ->
  go_cmd env fuel ssl argc argv =
    ([E_SSL_write cmd], Exits (by_ssl_err "could not SSL_write")).
Proof.
  intros H. rewrite go_cmd_unfold. apply Z.leb_le in H. rewrite H. reflexivity.
Qed.

(** [go_cmd] on a peer that sends [chunks] and then answers a read with
    a non-positive result. *)
Lemma go_cmd_run (fuel : nat) (ssl : SSL) (argc : Z) (argv : list string)
  (chunks : list string) :
  0 < e_SSL_write env cmd ->
  sends env chunks ->
  Forall valid_chunk chunks ->
  fst (e_SSL_read env (List.length chunks)) <= 0 ->
  (List.length chunks < fuel)%nat ->
  go_cmd env fuel ssl argc argv =
    (E_SSL_write cmd :: flat_map forward chunks
       ++ last_read env (List.length chunks),
     if e_SSL_get_error_read env (List.length chunks)
        =? SSL_ERROR_ZERO_RETURN
     then Returns tt
     else Exits (by_ssl_err "could not SSL_read")).
Proof.
  intros Hw Hsend Hvalid Hend Hfuel. rewrite go_cmd_unfold.
  destruct (Z.leb_spec (e_SSL_write env cmd) 0) as [Hle | _]; [lia |].
  rewrite (read_loop_run chunks 0 fuel ssl); auto.
Qed.

Lemma stdout_go_cmd_run (chunks : list string) (tail : list event) (w : string) :
  stdout (E_SSL_write w :: flat_map forward chunks ++ E_ERR_clear_error
            :: E_SSL_read 1023 :: tail) =
    (String.concat EmptyString (map c_str chunks) ++ stdout tail)%string.
Proof.
  cbn [stdout]. rewrite stdout_app, stdout_forward. reflexivity.
Qed.

(** C6, as the code has it: when the peer delivers its response as
    chunks, one per read and each of 1 to 1023 bytes, and then closes in
    order, [go_cmd] prints each chunk right after the read that received
    it and before the next read, in arrival order, up to the first zero
    byte of the chunk; the output is the concatenation of the chunks cut
    at their first zero byte, and it is the concatenation of all
    received bytes when no received byte is zero. *)
Theorem C6_chunks_are_forwarded_in_order
  (fuel : nat) (ssl : SSL) (argc : Z) (argv : list string)
  (chunks : list string) :
  0 < e_SSL_write env cmd ->
  delivers env chunks ->
  Forall valid_chunk chunks ->
  (List.length chunks < fuel)%nat ->
  go_cmd env fuel ssl argc argv =
    (E_SSL_write cmd :: flat_map forward chunks
       ++ last_read env (List.length chunks),
     Returns tt) /\
  stdout (trace (go_cmd env fuel ssl argc argv)) =
    String.concat EmptyString (map c_str chunks) /\
  (Forall (fun c => strchr c NUL = None) chunks ->
   stdout (trace (go_cmd env fuel ssl argc argv)) = String.concat EmptyString chunks).
Proof.
  intros Hw [Hsend [Hend Hzero]] Hvalid Hfuel.
  assert (E := go_cmd_run fuel ssl argc argv chunks Hw Hsend Hvalid Hend Hfuel).
  apply Z.eqb_eq in Hzero. rewrite Hzero in E.
  assert (Hout : stdout (trace (go_cmd env fuel ssl argc argv)) =
                 String.concat EmptyString (map c_str chunks)).
  { rewrite E. cbn [trace fst]. unfold last_read.
    rewrite stdout_go_cmd_run. cbn [stdout].
    induction (String.concat EmptyString (map c_str chunks)) as [| a s IHs];
      cbn; [reflexivity |]. rewrite IHs. reflexivity. }
  split; [exact E |]. split; [exact Hout |].
  intros Hnul. rewrite Hout, (map_c_str_no_nul chunks Hnul). reflexivity.
Qed.

(** C7: when the request has been written and the peer has sent
    [chunks] (none, when it closes at once), a non-positive result of
    the next read ends the read loop.  With the orderly-shutdown error
    [go_cmd] returns, and after no chunks at all nothing has been
    printed; with any other error the process ends through [ssl_err]
    with the read message (the spec's TransportError). *)
Theorem C7_orderly_shutdown_ends_the_read_loop
  (fuel : nat) (ssl : SSL) (argc : Z) (argv : list string)
  (chunks : list string) :
  0 < e_SSL_write env cmd ->
  sends env chunks ->
  Forall valid_chunk chunks ->
  fst (e_SSL_read env (List.length chunks)) <= 0 ->
  (List.length chunks < fuel)%nat ->
  (e_SSL_get_error_read env (List.length chunks) = SSL_ERROR_ZERO_RETURN ->
   result (go_cmd env fuel ssl argc argv) = Returns tt /\
   (chunks = [] -> stdout (trace (go_cmd env fuel ssl argc argv)) = EmptyString)) /\
  (e_SSL_get_error_read env (List.length chunks) <> SSL_ERROR_ZERO_RETURN ->
   result (go_cmd env fuel ssl argc argv) =
     Exits (by_ssl_err "could not SSL_read")).
Proof.
  intros Hw Hsend Hvalid Hend Hfuel.
  assert (E := go_cmd_run fuel ssl argc argv chunks Hw Hsend Hvalid Hend Hfuel).
  split.
  - intros Hzero. apply Z.eqb_eq in Hzero. rewrite Hzero in E.
    rewrite E. split; [reflexivity |]. intros ->. reflexivity.
  - intros Hother. apply Z.eqb_neq in Hother. rewrite Hother in E.
    rewrite E. reflexivity.
Qed.

(** C10: what [go_cmd] does, and so what it writes, is the same for any
    two command lines, and so is the whole run of [go]: the one write
    carries the fixed request [cmd], the 16 bytes of the text
    GET / HTTP/1.0 and two line feeds. *)
Theorem C10_request_does_not_depend_on_the_command
  (fuel : nat) (ssl : SSL) (argc argc' : Z) (argv argv' : list string) :
  go_cmd env fuel ssl argc argv = go_cmd env fuel ssl argc' argv' /\
  (forall ip_literal cfgfile svr,
     go env ip_literal fuel cfgfile svr argc argv =
     go env ip_literal fuel cfgfile svr argc' argv') /\
  written (trace (go_cmd env fuel ssl argc argv)) = [cmd] /\
  written (trace (go_cmd env fuel ssl argc' argv')) = [cmd] /\
  cmd = ("GET / HTTP/1.0" ++ String LF (String LF EmptyString))%string /\
  String.length cmd = 16%nat.
Proof.
  split; [reflexivity |].
  split; [reflexivity |].
  split; [apply go_cmd_writes_cmd_once |].
  split; [apply go_cmd_writes_cmd_once |].
  split; reflexivity.
Qed.

End GoCmd.

(** C6, as the spec words it, fails when a received chunk holds a zero
    byte: of the chunks "ab", "c\0d", "e" the run prints "abce". *)
Lemma C6_verbatim_counterexample :
  let chunks := ["ab"; String "c" (String NUL "d"); "e"] in
  delivers (env_chunks chunks) chunks /\
  Forall valid_chunk chunks /\
  result (go_cmd (env_chunks chunks) 4 ssl0 1 ["status"]) = Returns tt /\
  stdout (trace (go_cmd (env_chunks chunks) 4 ssl0 1 ["status"])) = "abce" /\
  stdout (trace (go_cmd (env_chunks chunks) 4 ssl0 1 ["status"])) <>
    String.concat EmptyString chunks.
Proof.
  cbv zeta. split; [| split; [| split; [| split]]].
  - split; [| split].
    + intros [| [| [| i]]] c H; cbn in H;
        try (destruct i; discriminate H);
        injection H as <-; reflexivity.
    + cbn. lia.
    + reflexivity.
  - repeat constructor; cbn; lia.
  - reflexivity.
  - reflexivity.
  - discriminate.
Qed.

(** C1 at the command line "stop": the bytes that go out on the channel
    are the fixed request, not the command. *)
Theorem C1_go_cmd_writes_the_fixed_request :
  written (trace (go_cmd (env_chunks []) 1 ssl0 1 ["stop"])) =
    [("GET / HTTP/1.0" ++ String LF (String LF EmptyString))%string] /\
  written (trace (go_cmd (env_chunks []) 1 ssl0 1 ["stop"])) <> ["stop"] /\
  written (trace (go_cmd (env_chunks []) 1 ssl0 1 ["stop"])) =
    written (trace (go_cmd (env_chunks []) 1 ssl0 1 ["reload"])).
Proof.
  split; [reflexivity |]. split; [discriminate | reflexivity].
Qed.

(** ** The theorems on concrete runs *)

(** The key file is refused when it is loaded, or the key check fails:
    either way the run ends before any connection. *)
Lemma C3_witness :
  (e_SSL_CTX_use_PrivateKey_file env_key_rejected "unbound_control.key" = 0 /\
   result (setup_ctx env_key_rejected cfg0) =
     Exits (by_ssl_err "Error setting up SSL_CTX client key and cert") /\
   result (go env_key_rejected dotted_quad 1 "unbound.conf"
             (Some "127.0.0.1@8953") 1 ["status"]) =
     Exits (by_ssl_err "Error setting up SSL_CTX client key and cert") /\
   never network_event
     (go env_key_rejected dotted_quad 1 "unbound.conf"
        (Some "127.0.0.1@8953") 1 ["status"])) /\
  (e_SSL_CTX_check_private_key env_key_mismatch
     (Some "unbound_control.pem") (Some "unbound_control.key") = 0 /\
   result (setup_ctx env_key_mismatch cfg0) =
     Exits (by_ssl_err "Error setting up SSL_CTX client key and cert") /\
   result (go env_key_mismatch dotted_quad 1 "unbound.conf"
             (Some "127.0.0.1@8953") 1 ["status"]) =
     Exits (by_ssl_err "Error setting up SSL_CTX client key and cert") /\
   never network_event
     (go env_key_mismatch dotted_quad 1 "unbound.conf"
        (Some "127.0.0.1@8953") 1 ["status"])).
Proof.
  split.
  - split; [reflexivity |].
    destruct (C3_key_mismatch_fails_before_any_connection
                env_key_rejected dotted_quad cfg0
                "unbound_server.pem" "unbound_control.key" "unbound_control.pem")
      as [H1 [_ H2]];
      try reflexivity; try discriminate; [left; reflexivity |].
    split; [exact H1 |].
    apply (H2 1%nat "unbound.conf" (Some "127.0.0.1@8953") 1 ["status"]);
      reflexivity.
  - split; [reflexivity |].
    destruct (C3_key_mismatch_fails_before_any_connection
                env_key_mismatch dotted_quad cfg0
                "unbound_server.pem" "unbound_control.key" "unbound_control.pem")
      as [H1 [_ H2]];
      try reflexivity; try discriminate; [right; reflexivity |].
    split; [exact H1 |].
    apply (H2 1%nat "unbound.conf" (Some "127.0.0.1@8953") 1 ["status"]);
      reflexivity.
Defined.

(** The context built in the all-good environment. *)
Lemma C9_witness :
  result (setup_ctx (env_chunks []) cfg0) = Returns (ssl_ctx ssl0) /\
  Z.land (ctx_options (ssl_ctx ssl0)) SSL_OP_NO_SSLv2 <> 0 /\
  ctx_verify_mode (ssl_ctx ssl0) = Some SSL_VERIFY_PEER /\
  In (E_SSL_CTX_set_options SSL_OP_NO_SSLv2)
    (trace (setup_ctx (env_chunks []) cfg0)) /\
  In (E_SSL_CTX_set_verify SSL_VERIFY_PEER)
    (trace (setup_ctx (env_chunks []) cfg0)) /\
  (forall op, In (E_SSL_CTX_set_options op)
                (trace (setup_ctx (env_chunks []) cfg0)) ->
     op = SSL_OP_NO_SSLv2) /\
  (forall mode, In (E_SSL_CTX_set_verify mode)
                  (trace (setup_ctx (env_chunks []) cfg0)) ->
     mode = SSL_VERIFY_PEER).
Proof.
  split; [reflexivity |].
  apply (C9_trust_policy_is_fixed (env_chunks []) cfg0 (ssl_ctx ssl0)).
  reflexivity.
Defined.

(** "127.0.0.1@8953", "127.0.0.1" and the malformed "127.0.0.1@x". *)
Lemma C4_witness :
  malformed dotted_quad "127.0.0.1@x" /\
  resolve dotted_quad (Some "127.0.0.1@8953") cfg0 =
    ([E_extstrtoaddr "127.0.0.1@8953"],
     Returns {| ss_family := AF_INET;
                ss_addr := String "127" (String "000" (String "000"
                             (String "001" EmptyString)));
                ss_port := 8953 |}) /\
  resolve dotted_quad (Some "127.0.0.1") cfg0 =
    ([E_ipstrtoaddr "127.0.0.1" 953],
     Returns {| ss_family := AF_INET;
                ss_addr := String "127" (String "000" (String "000"
                             (String "001" EmptyString)));
                ss_port := 953 |}) /\
  (exists e msg,
     contact_server (env_chunks []) dotted_quad (Some "127.0.0.1@x") cfg0 =
       ([e], Exits (by_fatal_exit msg)) /\
     network_event e = false /\
     (msg = "could not parse IP@port: 127.0.0.1@x" \/
      msg = "could not parse IP: 127.0.0.1@x")) /\
  (forall fuel cfgfile argc argv,
     stops network_event
       (go (env_chunks []) dotted_quad fuel cfgfile (Some "127.0.0.1@x")
          argc argv)).
Proof.
  assert (Hbad : malformed dotted_quad "127.0.0.1@x").
  { apply (malformed_port dotted_quad "127.0.0.1" "x"); reflexivity. }
  split; [exact Hbad |].
  apply (C4_endpoint_resolution (env_chunks []) dotted_quad cfg0
           "127.0.0.1" "8953" AF_INET _ 8953
           "127.0.0.1" AF_INET _ "127.0.0.1@x");
    try reflexivity.
  exact Hbad.
Defined.

(** A valid handshake and a valid verify result, but no peer
    certificate: no channel, and no data on the connection. *)
Lemma C2_witness :
  e_SSL_new env_no_peer_certificate = true /\
  e_SSL_set_fd env_no_peer_certificate 3 <> 0 /\
  handshake_loop env_no_peer_certificate 1 (client_ssl (ssl_ctx ssl0) 3) 0 =
    ([E_ERR_clear_error; E_SSL_do_handshake], Returns tt) /\
  e_SSL_get_verify_result env_no_peer_certificate = X509_V_OK /\
  result (setup_ssl env_no_peer_certificate 1 (ssl_ctx ssl0) 3) =
    Exits (by_ssl_err "Server presented no peer certificate") /\
  stops data_event
    (go env_no_peer_certificate dotted_quad 1 "unbound.conf" None 1
       ["status"]).
Proof.
  assert (H1 : e_SSL_new env_no_peer_certificate = true) by reflexivity.
  assert (H2 : e_SSL_set_fd env_no_peer_certificate 3 <> 0) by discriminate.
  assert (H3 : handshake_loop env_no_peer_certificate 1
                 (client_ssl (ssl_ctx ssl0) 3) 0 =
               ([E_ERR_clear_error; E_SSL_do_handshake], Returns tt))
    by reflexivity.
  destruct (C2_channel_needs_valid_chain_and_peer_certificate
              env_no_peer_certificate dotted_quad 1 (ssl_ctx ssl0) 3
              [E_ERR_clear_error; E_SSL_do_handshake] H1 H2 H3)
    as [_ [_ [Hcert Hdata]]].
  split; [exact H1 |]. split; [exact H2 |]. split; [exact H3 |].
  split; [reflexivity |].
  split; [apply Hcert; reflexivity |].
  apply Hdata. intros [_ Hc]. discriminate Hc.
Defined.

(** One would-block, then a fatal error: two attempts, then the exit. *)
Lemma C5_witness :
  (forall j, (j < 1)%nat -> would_block env_handshake_fails j = true) /\
  would_block env_handshake_fails 1 = false /\
  handshake_loop env_handshake_fails 2 ssl0 0 =
    ([E_ERR_clear_error; E_SSL_do_handshake; E_SSL_get_error (-1);
      E_ERR_clear_error; E_SSL_do_handshake; E_SSL_get_error (-1)],
     Exits (by_ssl_err "SSL handshake failed")) /\
  handshake_attempts (trace (handshake_loop env_handshake_fails 2 ssl0 0)) =
    2%nat /\
  never connection_event (handshake_loop env_handshake_fails 2 ssl0 0).
Proof.
  assert (H1 : forall j, (j < 1)%nat ->
                 would_block env_handshake_fails j = true).
  { intros [| j] Hj; [reflexivity | lia]. }
  split; [exact H1 |]. split; [reflexivity |].
  apply (C5_handshake_retries_on_would_block_only
           env_handshake_fails ssl0 1 2 H1); [reflexivity | lia].
Defined.

(** Three chunks, then an orderly close. *)
Lemma C6_witness :
  delivers (env_chunks ["total."; "num."; "queries=5"])
    ["total."; "num."; "queries=5"] /\
  go_cmd (env_chunks ["total."; "num."; "queries=5"]) 4 ssl0 1 ["status"] =
    ([E_SSL_write cmd;
      E_ERR_clear_error; E_SSL_read 1023; E_printf "total.";
      E_ERR_clear_error; E_SSL_read 1023; E_printf "num.";
      E_ERR_clear_error; E_SSL_read 1023; E_printf "queries=5";
      E_ERR_clear_error; E_SSL_read 1023; E_SSL_get_error 0],
     Returns tt) /\
  stdout (trace (go_cmd (env_chunks ["total."; "num."; "queries=5"]) 4 ssl0
                   1 ["status"])) = "total.num.queries=5".
Proof.
  assert (Hd : delivers (env_chunks ["total."; "num."; "queries=5"])
                 ["total."; "num."; "queries=5"]).
  { split; [| split].
    - intros [| [| [| i]]] c H; cbn in H;
        try (destruct i; discriminate H);
        injection H as <-; reflexivity.
    - cbn. lia.
    - reflexivity. }
  split; [exact Hd |].
  destruct (C6_chunks_are_forwarded_in_order
              (env_chunks ["total."; "num."; "queries=5"]) 4 ssl0 1
              ["status"] ["total."; "num."; "queries=5"])
    as [Hrun [_ Hout]].
  - cbn. lia.
  - exact Hd.
  - repeat constructor; cbn; lia.
  - cbn. lia.
  - split; [exact Hrun |]. apply Hout. repeat constructor.
Defined.

(** The peer closes at once: success and no output.  The connection
    breaks at the first read: the exit. *)
Lemma C7_witness :
  (result (go_cmd (env_chunks []) 1 ssl0 1 ["status"]) = Returns tt /\
   stdout (trace (go_cmd (env_chunks []) 1 ssl0 1 ["status"])) = EmptyString) /\
  result (go_cmd env_read_fails 1 ssl0 1 ["status"]) =
    Exits (by_ssl_err "could not SSL_read").
Proof.
  split.
  - destruct (C7_orderly_shutdown_ends_the_read_loop
                (env_chunks []) 1 ssl0 1 ["status"] []) as [Hclose _].
    + cbn. lia.
    + intros i c H. destruct i; discriminate H.
    + constructor.
    + cbn. lia.
    + cbn. lia.
    + destruct (Hclose eq_refl) as [Hr Ho].
      split; [exact Hr | exact (Ho eq_refl)].
  - destruct (C7_orderly_shutdown_ends_the_read_loop
                env_read_fails 1 ssl0 1 ["status"] []) as [_ Hfail].
    + cbn. lia.
    + intros i c H. destruct i; discriminate H.
    + constructor.
    + cbn. lia.
    + cbn. lia.
    + apply Hfail. discriminate.
Defined.

(** The run that succeeds goes through the five steps in the order of
    the code. *)
Lemma C8_witness :
  result (go (env_chunks ["ok"]) dotted_quad 2 "unbound.conf" None 1
            ["status"]) = Returns tt /\
  follows_order code_order
    (trace (go (env_chunks ["ok"]) dotted_quad 2 "unbound.conf" None 1
              ["status"])) = true /\
  forall s, exists e,
    In e (trace (go (env_chunks ["ok"]) dotted_quad 2 "unbound.conf" None 1
                   ["status"])) /\
    stage_of e = Some s.
Proof.
  split; [reflexivity |].
  destruct (C8_steps_in_code_order (env_chunks ["ok"]) dotted_quad 2
              "unbound.conf" None 1 ["status"]) as [Horder Hall].
  split; [exact Horder |]. apply Hall. reflexivity.
Defined.

(** * Further properties of the code *)

(** ** setup_ctx, line by line *)

Section SetupCtxMore.

Context {K : openssl_constants}.
Variable env : environment.

(** When every call succeeds, [setup_ctx] returns a context that holds
    the control certificate file as its certificate, the control key
    file as its key, the server certificate file as the place to verify
    against and [SSL_VERIFY_PEER] as its verify mode.  The files handed
    to OpenSSL on the way are these three and no other, in the order
    certificate, key, server certificate, the first two as PEM. *)
Theorem setup_ctx_loads_the_configured_files
  (cfg : config_file) (s_cert c_key c_cert : string) :
  e_fname_after_chroot env (server_cert_file cfg) = Some s_cert ->
  e_fname_after_chroot env (control_key_file cfg) = Some c_key ->
  e_fname_after_chroot env (control_cert_file cfg) = Some c_cert ->
  e_SSL_CTX_new env = true ->
  Z.land (e_SSL_CTX_set_options env SSL_OP_NO_SSLv2) SSL_OP_NO_SSLv2 <> 0 ->
  e_SSL_CTX_use_certificate_file env c_cert <> 0 ->
  e_SSL_CTX_use_PrivateKey_file env c_key <> 0 ->
  e_SSL_CTX_check_private_key env (Some c_cert) (Some c_key) <> 0 ->
  e_SSL_CTX_load_verify_locations env s_cert = 1 ->
  result (setup_ctx env cfg) =
    Returns {| ctx_options := e_SSL_CTX_set_options env SSL_OP_NO_SSLv2;
               ctx_certificate_file := Some c_cert;
               ctx_PrivateKey_file := Some c_key;
               ctx_verify_locations := Some s_cert;
               ctx_verify_mode := Some SSL_VERIFY_PEER |} /\
  filter loads_file (trace (setup_ctx env cfg)) =
    [E_SSL_CTX_use_certificate_file c_cert SSL_FILETYPE_PEM;
     E_SSL_CTX_use_PrivateKey_file c_key SSL_FILETYPE_PEM;
     E_SSL_CTX_load_verify_locations s_cert].
Proof.
  intros Hs Hk Hc Hnew Hopt Hcert Hkey Hfit Hloc.
  apply Z.eqb_neq in Hopt, Hcert, Hkey, Hfit. apply Z.eqb_eq in Hloc.
  unfold setup_ctx. unfold_ctx_calls.
  rewrite Hs, Hk, Hc, Hnew. repeat step.
  rewrite Hopt. repeat step. rewrite Hcert. repeat step.
  rewrite Hkey. repeat step. rewrite Hfit. repeat step.
  rewrite Hloc. repeat step. split; reflexivity.
Qed.

(** [setup_ctx] hands out a context only when nothing has failed: the
    three paths are there, the context is allocated, the option bit
    comes back set, the certificate and the key load (a result other
    than 0), the key fits, and the verify locations load with result
    exactly 1. *)
Theorem setup_ctx_returns_only_when_all_succeeds
  (cfg : config_file) (ctx : SSL_CTX) :
  result (setup_ctx env cfg) = Returns ctx ->
  exists s_cert c_key c_cert,
    e_fname_after_chroot env (server_cert_file cfg) = Some s_cert /\
    e_fname_after_chroot env (control_key_file cfg) = Some c_key /\
    e_fname_after_chroot env (control_cert_file cfg) = Some c_cert /\
    e_SSL_CTX_new env = true /\
    Z.land (e_SSL_CTX_set_options env SSL_OP_NO_SSLv2) SSL_OP_NO_SSLv2 <> 0 /\
    e_SSL_CTX_use_certificate_file env c_cert <> 0 /\
    e_SSL_CTX_use_PrivateKey_file env c_key <> 0 /\
    e_SSL_CTX_check_private_key env (Some c_cert) (Some c_key) <> 0 /\
    e_SSL_CTX_load_verify_locations env s_cert = 1 /\
    ctx_certificate_file ctx = Some c_cert /\
    ctx_PrivateKey_file ctx = Some c_key /\
    ctx_verify_locations ctx = Some s_cert.
Proof.
  unfold setup_ctx. unfold_ctx_calls.
  repeat step.
  destruct (e_fname_after_chroot env (server_cert_file cfg)) as [s_cert |];
    [| destruct (e_fname_after_chroot env (control_key_file cfg));
       [destruct (e_fname_after_chroot env (control_cert_file cfg)) |];
       discriminate].
  destruct (e_fname_after_chroot env (control_key_file cfg)) as [c_key |];
    [| destruct (e_fname_after_chroot env (control_cert_file cfg));
       discriminate].
  destruct (e_fname_after_chroot env (control_cert_file cfg)) as [c_cert |];
    [| discriminate].
  repeat step.
  destruct (e_SSL_CTX_new env); [| discriminate]. repeat step.
  destruct (Z.eqb_spec (Z.land (e_SSL_CTX_set_options env SSL_OP_NO_SSLv2)
                          SSL_OP_NO_SSLv2) 0) as [| Hopt];
    [discriminate |]. repeat step.
  destruct (Z.eqb_spec (e_SSL_CTX_use_certificate_file env c_cert) 0)
    as [| Hcert]; [discriminate |]. repeat step.
  destruct (Z.eqb_spec (e_SSL_CTX_use_PrivateKey_file env c_key) 0)
    as [| Hkey]; [discriminate |]. repeat step.
  destruct (Z.eqb_spec (e_SSL_CTX_check_private_key env (Some c_cert)
                          (Some c_key)) 0) as [| Hfit];
    [discriminate |]. repeat step.
  destruct (Z.eqb_spec (e_SSL_CTX_load_verify_locations env s_cert) 1)
    as [Hloc |]; [| discriminate]. repeat step.
  intros [= <-]. exists s_cert, c_key, c_cert. cbn. auto 15.
Qed.

(** When one of the three path strings cannot be allocated the process
    ends in [fatal_exit] after the three [fname_after_chroot] calls and
    before any call into OpenSSL. *)
Theorem setup_ctx_out_of_memory (cfg : config_file) :
  e_fname_after_chroot env (server_cert_file cfg) = None \/
  e_fname_after_chroot env (control_key_file cfg) = None \/
  e_fname_after_chroot env (control_cert_file cfg) = None ->
  setup_ctx env cfg =
    ([E_fname_after_chroot (server_cert_file cfg);
      E_fname_after_chroot (control_key_file cfg);
      E_fname_after_chroot (control_cert_file cfg)],
     Exits (by_fatal_exit "out of memory")).
Proof.
  intros H. unfold setup_ctx, fname_after_chroot. repeat step.
  destruct (e_fname_after_chroot env (server_cert_file cfg));
    destruct (e_fname_after_chroot env (control_key_file cfg));
    destruct (e_fname_after_chroot env (control_cert_file cfg));
    try reflexivity.
  destruct H as [H | [H | H]]; discriminate H.
Qed.

(** When the certificate file does not load, the key file is not read
    and the key is not checked: the test stops at its first failing
    call. *)
Theorem setup_ctx_stops_at_the_certificate
  (cfg : config_file) (s_cert c_key c_cert : string) :
  e_fname_after_chroot env (server_cert_file cfg) = Some s_cert ->
  e_fname_after_chroot env (control_key_file cfg) = Some c_key ->
  e_fname_after_chroot env (control_cert_file cfg) = Some c_cert ->
  e_SSL_CTX_new env = true ->
  Z.land (e_SSL_CTX_set_options env SSL_OP_NO_SSLv2) SSL_OP_NO_SSLv2 <> 0 ->
  e_SSL_CTX_use_certificate_file env c_cert = 0 ->
  setup_ctx env cfg =
    ([E_fname_after_chroot (server_cert_file cfg);
      E_fname_after_chroot (control_key_file cfg);
      E_fname_after_chroot (control_cert_file cfg);
      E_SSL_CTX_new;
      E_SSL_CTX_set_options SSL_OP_NO_SSLv2;
      E_SSL_CTX_use_certificate_file c_cert SSL_FILETYPE_PEM],
     Exits (by_ssl_err "Error setting up SSL_CTX client key and cert")).
Proof.
  intros Hs Hk Hc Hnew Hopt Hcert. apply Z.eqb_neq in Hopt.
  unfold setup_ctx. unfold_ctx_calls.
  rewrite Hs, Hk, Hc, Hnew. repeat step.
  rewrite Hopt. repeat step. rewrite Hcert. reflexivity.
Qed.

End SetupCtxMore.

(** ** contact_server after the address is parsed *)

Section ContactServerMore.

Context {K : openssl_constants}.
Variable env : environment.
Variable ip_literal : string -> option (address_family * string).

(** When [socket] answers -1 the process ends in [fatal_exit] with the
    system's error text, and no [connect] is attempted. *)
Theorem contact_server_socket_fails
  (svr : option string) (cfg : config_file) (tr : list event)
  (addr : sockaddr_storage) :
  resolve ip_literal svr cfg = (tr, Returns addr) ->
  e_socket env (if addr_is_ip6 addr then AF_INET6 else AF_INET) = -1 ->
  contact_server env ip_literal svr cfg =
    (tr ++ [E_socket (if addr_is_ip6 addr then AF_INET6 else AF_INET)],
     Exits (by_fatal_exit ("socket: " ++ e_strerror env)%string)).
Proof.
  intros Hres Hsock. unfold contact_server, socket, connect.
  rewrite Hres, bind_returns. repeat step. rewrite Hsock. reflexivity.
Qed.

(** When [connect] answers a negative number the address and the error
    are logged and the process exits with status 1; the descriptor is
    not closed and nothing of OpenSSL is called. *)
Theorem contact_server_connect_fails
  (svr : option string) (cfg : config_file) (tr : list event)
  (addr : sockaddr_storage) :
  resolve ip_literal svr cfg = (tr, Returns addr) ->
  e_socket env (if addr_is_ip6 addr then AF_INET6 else AF_INET) <> -1 ->
  e_connect env
    (e_socket env (if addr_is_ip6 addr then AF_INET6 else AF_INET)) addr < 0 ->
  contact_server env ip_literal svr cfg =
    (tr ++
     [E_socket (if addr_is_ip6 addr then AF_INET6 else AF_INET);
      E_connect
        (e_socket env (if addr_is_ip6 addr then AF_INET6 else AF_INET)) addr;
      E_log_addr addr;
      E_log_err ("connect: " ++ e_strerror env)%string],
     Exits (by_exit 1)).
Proof.
  intros Hres Hsock Hconn. apply Z.eqb_neq in Hsock. apply Z.ltb_lt in Hconn.
  unfold contact_server, socket, connect, log_addr, log_err.
  rewrite Hres, bind_returns. repeat step. rewrite Hsock. repeat step.
  rewrite Hconn. repeat step. reflexivity.
Qed.

(** When [socket] answers anything but -1 and [connect] does not answer
    a negative number, [contact_server] returns the descriptor that
    [socket] gave, after one [socket] call for the family of the parsed
    address and one [connect] to that address. *)
Theorem contact_server_connects_to_the_parsed_address
  (svr : option string) (cfg : config_file) (tr : list event)
  (addr : sockaddr_storage) :
  resolve ip_literal svr cfg = (tr, Returns addr) ->
  e_socket env (if addr_is_ip6 addr then AF_INET6 else AF_INET) <> -1 ->
  0 <= e_connect env
         (e_socket env (if addr_is_ip6 addr then AF_INET6 else AF_INET)) addr ->
  contact_server env ip_literal svr cfg =
    (tr ++
     [E_socket (if addr_is_ip6 addr then AF_INET6 else AF_INET);
      E_connect
        (e_socket env (if addr_is_ip6 addr then AF_INET6 else AF_INET)) addr],
     Returns (e_socket env (if addr_is_ip6 addr then AF_INET6 else AF_INET))).
Proof.
  intros Hres Hsock Hconn. apply Z.eqb_neq in Hsock.
  apply Z.ltb_ge in Hconn.
  unfold contact_server, socket, connect.
  rewrite Hres, bind_returns. repeat step. rewrite Hsock. repeat step.
  rewrite Hconn. repeat step. reflexivity.
Qed.

(** Which server is contacted: a server string given by the caller
    makes the configured control interfaces irrelevant, and one with an
    ['@'] makes the configured control port irrelevant too; without a
    server string the first control interface is taken, and
    "127.0.0.1" when there is none. *)
Theorem contact_server_choice_of_server
  (svr : string) (cfg cfg' : config_file) :
  (control_port cfg = control_port cfg' ->
   contact_server env ip_literal (Some svr) cfg =
   contact_server env ip_literal (Some svr) cfg') /\
  (strchr svr "@" <> None ->
   contact_server env ip_literal (Some svr) cfg =
   contact_server env ip_literal (Some svr) cfg') /\
  (forall rest, control_ifs cfg = svr :: rest ->
   contact_server env ip_literal None cfg =
   contact_server env ip_literal (Some svr) cfg) /\
  (control_ifs cfg = [] ->
   contact_server env ip_literal None cfg =
   contact_server env ip_literal (Some "127.0.0.1") cfg).
Proof.
  unfold contact_server, resolve. repeat split.
  - intros Hport. rewrite Hport. reflexivity.
  - intros Hat. destruct (strchr svr "@"); [reflexivity | congruence].
  - intros rest Hifs. rewrite Hifs. reflexivity.
  - intros Hifs. rewrite Hifs. reflexivity.
Qed.

End ContactServerMore.

(** ** setup_ssl before and after the handshake *)

Section SetupSslMore.

Context {K : openssl_constants}.
Variable env : environment.

(** No handshake is attempted on an [SSL] that could not be made or
    could not be bound to the descriptor: a null [SSL_new] ends the
    process after that one call, a zero [SSL_set_fd] ends it before the
    first [SSL_do_handshake]. *)
Theorem setup_ssl_fails_before_the_handshake
  (fuel : nat) (ctx : SSL_CTX) (fd : Z) :
  (e_SSL_new env = false ->
   setup_ssl env fuel ctx fd =
     ([E_SSL_new], Exits (by_ssl_err "could not SSL_new"))) /\
  (e_SSL_new env = true -> e_SSL_set_fd env fd = 0 ->
   setup_ssl env fuel ctx fd =
     ([E_SSL_new; E_SSL_set_connect_state;
       E_SSL_set_mode SSL_MODE_AUTO_RETRY; E_SSL_set_fd fd],
      Exits (by_ssl_err "could not SSL_set_fd"))).
Proof.
  unfold setup_ssl, SSL_new, SSL_set_connect_state, SSL_set_mode, SSL_set_fd.
  split.
  - intros Hnew. rewrite Hnew. repeat step. reflexivity.
  - intros Hnew Hfd. rewrite Hnew. repeat step. rewrite Hfd. reflexivity.
Qed.

(** When the handshake goes through, the verify result is [X509_V_OK]
    and the peer has presented a certificate, [setup_ssl] returns an
    [SSL] of the given context, in connect state, in auto-retry mode
    and bound to the given descriptor.  Before the handshake it makes
    the four calls that build the [SSL]; after it, three more: it reads
    the verify result, asks for the peer certificate and calls
    [X509_free] once. *)
Theorem setup_ssl_returns_the_client_channel
  (fuel : nat) (ctx : SSL_CTX) (fd : Z) (tr : list event) :
  e_SSL_new env = true ->
  e_SSL_set_fd env fd <> 0 ->
  handshake_loop env fuel (client_ssl ctx fd) 0 = (tr, Returns tt) ->
  e_SSL_get_verify_result env = X509_V_OK ->
  e_SSL_get_peer_certificate env = true ->
  setup_ssl env fuel ctx fd =
    ([E_SSL_new; E_SSL_set_connect_state;
      E_SSL_set_mode SSL_MODE_AUTO_RETRY; E_SSL_set_fd fd] ++ tr ++
     [E_SSL_get_verify_result; E_SSL_get_peer_certificate; E_X509_free],
     Returns {| ssl_ctx := ctx; ssl_connect_state := true;
                ssl_mode := Z.lor 0 SSL_MODE_AUTO_RETRY;
                ssl_fd := Some fd |}).
Proof.
  intros Hnew Hfd Hloop Hv Hc.
  apply Z.eqb_neq in Hfd. apply Z.eqb_eq in Hv. unfold client_ssl in Hloop.
  unfold setup_ssl, SSL_new, SSL_set_connect_state, SSL_set_mode, SSL_set_fd.
  rewrite Hnew. repeat step. rewrite Hfd. repeat step.
  rewrite Hloop, bind_returns.
  unfold SSL_get_verify_result, SSL_get_peer_certificate, X509_free.
  repeat step. rewrite Hv. repeat step. rewrite Hc. repeat step.
  reflexivity.
Qed.

(** While every attempt asks to be called again the handshake loop goes
    on: whatever the number of passes allowed, it has used them all on
    attempts and has neither returned nor given up. *)
Theorem handshake_loop_has_no_bound (fuel : nat) (ssl : SSL) :
  (forall j, would_block env j = true) ->
  result (handshake_loop env fuel ssl 0) = OutOfFuel /\
  handshake_attempts (trace (handshake_loop env fuel ssl 0)) = fuel.
Proof.
  intros Hblock. rewrite (handshake_loop_spins env fuel ssl 0 Hblock).
  split; [reflexivity |]. apply handshake_attempts_retries.
Qed.

End SetupSslMore.

(** ** The error queue *)

Lemma error_queue_cleared_weaken (b : bool) (tr : list event) :
  error_queue_cleared false tr = true -> error_queue_cleared b tr = true.
Proof.
  destruct b; [| auto]. destruct tr as [| e tr]; [reflexivity |].
  destruct e; cbn; auto; discriminate.
Qed.

Lemma error_queue_cleared_app (b : bool) (t1 t2 : list event) :
  error_queue_cleared b t1 = true ->
  error_queue_cleared false t2 = true ->
  error_queue_cleared b (t1 ++ t2) = true.
Proof.
  revert b. induction t1 as [| e t1 IH]; intros b H1 H2.
  - apply error_queue_cleared_weaken. exact H2.
  - destruct e; cbn in *; auto;
      apply andb_true_iff in H1; destruct H1 as [-> H1]; cbn; auto.
Qed.

Lemma cleared_bind {A B} (m : M A) (k : A -> M B) :
  cleared m -> (forall a, cleared (k a)) -> cleared (bind m k).
Proof.
  unfold cleared. destruct m as [t [a | f |]]; cbn; intros Hm Hk; auto.
  specialize (Hk a). destruct (k a) as [t' o]. cbn in *.
  apply error_queue_cleared_app; assumption.
Qed.

Lemma error_queue_cleared_quiet (b : bool) (tr : list event) :
  Forall (fun e => attempt_or_read e = false) tr ->
  error_queue_cleared b tr = true.
Proof.
  revert b. induction tr as [| e tr IH]; intros b H; [reflexivity |].
  pose proof (Forall_inv H) as He. pose proof (Forall_inv_tail H) as Ht.
  cbn beta in He.
  destruct e; cbn in He |- *; try discriminate He; apply IH; exact Ht.
Qed.

Lemma cleared_never {A} (m : M A) : never attempt_or_read m -> cleared m.
Proof. apply error_queue_cleared_quiet. Qed.

Section ErrorQueue.

Context {K : openssl_constants}.
Variable env : environment.
Variable ip_literal : string -> option (address_family * string).

Lemma handshake_loop_cleared (fuel : nat) (ssl : SSL) (i : nat) :
  cleared (handshake_loop env fuel ssl i).
Proof.
  unfold cleared. revert i. induction fuel as [| fuel IH]; intros i;
    [reflexivity |].
  rewrite handshake_loop_step.
  destruct (would_block env i); [| destruct (_ =? 1); reflexivity].
  cbn. apply IH.
Qed.

Lemma read_loop_cleared (fuel : nat) (ssl : SSL) (i : nat) :
  cleared (read_loop env fuel ssl i).
Proof.
  unfold cleared. revert i. induction fuel as [| fuel IH]; intros i;
    [reflexivity |].
  rewrite read_loop_step.
  destruct (fst (e_SSL_read env i) <=? 0); [reflexivity |].
  cbn. apply IH.
Qed.

Ltac quiet := apply cleared_never; never_tac.

(** In every run of [go], each [SSL_do_handshake] and each [SSL_read] is
    made right after an [ERR_clear_error], so that the [SSL_get_error]
    that follows reads the error of that call alone. *)
Theorem go_clears_the_error_queue_before_each_attempt
  (fuel : nat) (cfgfile : string) (svr : option string)
  (argc : Z) (argv : list string) :
  error_queue_cleared false
    (trace (go env ip_literal fuel cfgfile svr argc argv)) = true.
Proof.
  change (cleared (go env ip_literal fuel cfgfile svr argc argv)).
  unfold go.
  apply cleared_bind; [quiet | intros c].
  apply cleared_bind; [quiet | intros _].
  apply cleared_bind; [quiet | intros [cfg |]]; [| reflexivity].
  apply cleared_bind; [quiet | intros _].
  apply cleared_bind; [unfold setup_ctx; quiet | intros ctx].
  apply cleared_bind; [unfold contact_server, resolve; quiet | intros fd].
  apply cleared_bind.
  { unfold setup_ssl.
    apply cleared_bind; [quiet | intros [ssl |]]; [| reflexivity].
    apply cleared_bind; [quiet | intros ssl'].
    apply cleared_bind; [quiet | intros ssl''].
    apply cleared_bind; [quiet | intros [ssl3 r]].
    apply cleared_bind; [quiet | intros _].
    apply cleared_bind; [apply handshake_loop_cleared | intros _].
    quiet. }
  intros ssl.
  apply cleared_bind.
  { unfold go_cmd.
    apply cleared_bind; [quiet | intros r].
    apply cleared_bind; [quiet | intros _].
    apply read_loop_cleared. }
  intros _. unfold SSL_free, close, SSL_CTX_free, config_delete. quiet.
Qed.

End ErrorQueue.

(** ** go_cmd on peers that misbehave *)

Lemma strchr_c_str (s : string) : strchr (c_str s) NUL = None.
Proof.
  induction s as [| a s IH]; cbn; [reflexivity |].
  destruct (Ascii.eqb a NUL) eqn:E; [reflexivity |].
  cbn. rewrite E. exact IH.
Qed.

Lemma strchr_app_none (s t : string) (c : ascii) :
  strchr s c = None -> strchr t c = None -> strchr (s ++ t) c = None.
Proof.
  induction s as [| a s IH]; cbn; [auto |].
  destruct (Ascii.eqb a c); [discriminate |]. exact IH.
Qed.

Lemma count_events_app (p : event -> bool) (t1 t2 : list event) :
  count_events p (t1 ++ t2) = (count_events p t1 + count_events p t2)%nat.
Proof. unfold count_events. rewrite filter_app, length_app. reflexivity. Qed.

Section GoCmdMore.

Context {K : openssl_constants}.
Variable env : environment.

(** When the connection breaks in the middle of the answer, the process
    ends through [ssl_err], and the chunks received before the failing
    read have been printed. *)
Theorem go_cmd_keeps_what_was_printed
  (fuel : nat) (ssl : SSL) (argc : Z) (argv : list string)
  (chunks : list string) :
  0 < e_SSL_write env cmd ->
  sends env chunks ->
  Forall valid_chunk chunks ->
  fst (e_SSL_read env (List.length chunks)) <= 0 ->
  e_SSL_get_error_read env (List.length chunks) <> SSL_ERROR_ZERO_RETURN ->
  (List.length chunks < fuel)%nat ->
  result (go_cmd env fuel ssl argc argv) =
    Exits (by_ssl_err "could not SSL_read") /\
  stdout (trace (go_cmd env fuel ssl argc argv)) =
    String.concat EmptyString (map c_str chunks).
Proof.
  intros Hw Hsend Hvalid Hend Herr Hfuel.
  rewrite (go_cmd_run env fuel ssl argc argv chunks Hw Hsend Hvalid Hend Hfuel).
  apply Z.eqb_neq in Herr. rewrite Herr. split; [reflexivity |].
  cbn [trace fst]. unfold last_read. rewrite stdout_go_cmd_run. cbn [stdout].
  induction (String.concat EmptyString (map c_str chunks)) as [| a s IHs];
    cbn; [reflexivity |]. rewrite IHs. reflexivity.
Qed.

Lemma read_loop_prints_no_zero_byte (fuel : nat) (ssl : SSL) (i : nat) :
  strchr (stdout (trace (read_loop env fuel ssl i))) NUL = None.
Proof.
  revert i. induction fuel as [| fuel IH]; intros i; [reflexivity |].
  rewrite read_loop_step.
  destruct (fst (e_SSL_read env i) <=? 0); [reflexivity |].
  cbn [trace fst app stdout].
  apply strchr_app_none; [apply strchr_c_str | apply IH].
Qed.

(** Whatever the peer sends, no zero byte reaches stdout. *)
Theorem go_cmd_never_prints_a_zero_byte
  (fuel : nat) (ssl : SSL) (argc : Z) (argv : list string) :
  strchr (stdout (trace (go_cmd env fuel ssl argc argv))) NUL = None.
Proof.
  rewrite go_cmd_unfold. destruct (e_SSL_write env cmd <=? 0);
    [reflexivity |].
  cbn [trace fst stdout]. apply read_loop_prints_no_zero_byte.
Qed.

Lemma read_loop_spins (fuel : nat) (ssl : SSL) (i : nat) :
  (forall j, 0 < fst (e_SSL_read env j)) ->
  result (read_loop env fuel ssl i) = OutOfFuel /\
  count_events is_read (trace (read_loop env fuel ssl i)) = fuel.
Proof.
  intros Hpos. revert i. induction fuel as [| fuel IH]; intros i;
    [split; reflexivity |].
  rewrite read_loop_step.
  destruct (Z.leb_spec (fst (e_SSL_read env i)) 0) as [Hle | _];
    [specialize (Hpos i); lia |].
  destruct (IH (S i)) as [Hr Hc]. cbn [trace result fst snd].
  split; [exact Hr |]. rewrite count_events_app, Hc. reflexivity.
Qed.

(** While the peer keeps sending, the read loop goes on: the answer has
    no bound on its length, and whatever the number of passes allowed,
    each has been used on a read. *)
Theorem go_cmd_reads_without_bound
  (fuel : nat) (ssl : SSL) (argc : Z) (argv : list string) :
  0 < e_SSL_write env cmd ->
  (forall j, 0 < fst (e_SSL_read env j)) ->
  result (go_cmd env fuel ssl argc argv) = OutOfFuel /\
  count_events is_read (trace (go_cmd env fuel ssl argc argv)) = fuel.
Proof.
  intros Hw Hpos. rewrite go_cmd_unfold.
  destruct (Z.leb_spec (e_SSL_write env cmd) 0) as [Hle | _]; [lia |].
  destruct (read_loop_spins fuel ssl 0 Hpos) as [Hr Hc].
  cbn [trace result fst snd]. split; [exact Hr |].
  change (E_SSL_write cmd :: trace (read_loop env fuel ssl 0))
    with ([E_SSL_write cmd] ++ trace (read_loop env fuel ssl 0)).
  rewrite count_events_app, Hc. reflexivity.
Qed.

End GoCmdMore.

(** ** go: what it holds and what it releases *)

Lemma bind_ext {A B} (m m' : M A) (k k' : A -> M B) :
  m = m' -> (forall a, k a = k' a) -> bind m k = bind m' k'.
Proof.
  intros <- Hk. destruct m as [t [a | f |]]; cbn; [| reflexivity ..].
  rewrite (Hk a). reflexivity.
Qed.

Lemma never_unless_returns_bind {A B} (p : event -> bool) (m : M A)
  (k : A -> M B) :
  never p m ->
  (forall a, result m = Returns a ->
     (forall b, result (k a) <> Returns b) -> never p (k a)) ->
  (forall b, result (bind m k) <> Returns b) -> never p (bind m k).
Proof.
  unfold never. destruct m as [t [a | f |]]; cbn; intros Hm Hk Hb; auto.
  specialize (Hk a eq_refl). destruct (k a) as [t' o]. cbn in *.
  apply Forall_app. split; [exact Hm |]. apply Hk. exact Hb.
Qed.

Lemma teardown_event_stage (e : event) :
  teardown_event e = true ->
  exists s, stage_of e = Some s /\ (3 < code_order s)%nat.
Proof.
  destruct e; try discriminate; intros _;
    (eexists; split; [reflexivity | cbn; lia]).
Qed.

Lemma at_most_bind {A B} (n n' : nat) (p : event -> bool) (m : M A)
  (k : A -> M B) :
  at_most n p m -> (forall a, at_most n' p (k a)) ->
  at_most (n + n') p (bind m k).
Proof.
  unfold at_most. destruct m as [t [a | f |]]; cbn [bind trace fst];
    intros Hm Hk; try lia.
  specialize (Hk a). destruct (k a) as [t' o]. cbn [trace fst] in *.
  rewrite count_events_app. lia.
Qed.

Lemma at_most_never {A} (p : event -> bool) (m : M A) :
  never p m -> at_most 0 p m.
Proof.
  unfold never, at_most, count_events. destruct m as [t o]. cbn.
  induction t as [| e t IH]; intros H; [reflexivity |].
  pose proof (Forall_inv H) as He. cbn beta in He.
  cbn. rewrite He. apply IH. exact (Forall_inv_tail H).
Qed.

Lemma at_most_exits {A} (n : nat) (p : event -> bool) (f : failure) :
  at_most n p (([], Exits f) : M A).
Proof. unfold at_most, count_events. cbn. lia. Qed.

Lemma at_most_call {A} (p : event -> bool) (e : event) (a : A) :
  at_most 1 p (call e a).
Proof. unfold at_most, count_events, call. cbn. destruct (p e); cbn; lia. Qed.

Section GoMore.

Context {K : openssl_constants}.
Variable env : environment.
Variable ip_literal : string -> option (address_family * string).

(** Without a configuration nothing else happens: a null
    [config_create] ends the process after that one call, and a
    configuration file that does not read ends it before any call into
    OpenSSL or to the network. *)
Theorem go_needs_the_configuration
  (fuel : nat) (cfgfile : string) (svr : option string)
  (argc : Z) (argv : list string) :
  (e_config_create env = false ->
   go env ip_literal fuel cfgfile svr argc argv =
     ([E_config_create], Exits (by_fatal_exit "out of memory"))) /\
  (e_config_create env = true -> e_config_read env cfgfile = None ->
   go env ip_literal fuel cfgfile svr argc argv =
     ([E_config_create; E_config_read cfgfile],
      Exits (by_fatal_exit "could not read config file"))).
Proof.
  unfold go, config_create, config_read. split.
  - intros Hc. rewrite Hc. repeat step. reflexivity.
  - intros Hc Hr. rewrite Hc. repeat step. rewrite Hr. reflexivity.
Qed.

Lemma contact_server_returns_connected (svr : option string)
  (cfg : config_file) (fd : Z) :
  result (contact_server env ip_literal svr cfg) = Returns fd ->
  exists addr,
    In (E_connect fd addr) (trace (contact_server env ip_literal svr cfg)).
Proof.
  unfold contact_server.
  destruct (resolve ip_literal svr cfg) as [t [addr | f |]];
    try discriminate.
  rewrite bind_returns. unfold socket, connect, log_addr, log_err.
  run; try discriminate.
  intros [= <-]. exists addr. cbn [trace fst].
  apply in_or_app. right. cbn. auto.
Qed.

Lemma never_teardown_within {A} (lo hi : nat) (m : M A) :
  (hi <= 3)%nat -> stages_within lo hi m -> never teardown_event m.
Proof.
  intros Hhi. apply stages_within_never.
  intros e He. destruct (teardown_event_stage e He) as [s [Hs Hlt]].
  exists s. split; [exact Hs | lia].
Qed.

(** A run of [go] that returns ends with the four releasing calls, in
    the order [SSL_free], [close], [SSL_CTX_free], [config_delete]; the
    descriptor it closes is the one it has connected, and none of these
    calls is made earlier. *)
Theorem go_releases_what_it_holds
  (fuel : nat) (cfgfile : string) (svr : option string)
  (argc : Z) (argv : list string) :
  result (go env ip_literal fuel cfgfile svr argc argv) = Returns tt ->
  exists tr fd addr,
    trace (go env ip_literal fuel cfgfile svr argc argv) =
      tr ++ [E_SSL_free; E_close fd; E_SSL_CTX_free; E_config_delete] /\
    In (E_connect fd addr) tr /\
    Forall (fun e => teardown_event e = false) tr.
Proof.
  unfold go. intros H.
  apply bind_returns_trace in H as [c [_ [H ->]]].
  apply bind_returns_trace in H as [[] [_ [H ->]]].
  apply bind_returns_trace in H as [[cfg |] [_ [H ->]]];
    [| discriminate H].
  apply bind_returns_trace in H as [[] [_ [H ->]]].
  apply bind_returns_trace in H as [ctx [_ [H ->]]].
  apply bind_returns_trace in H as [fd [Hfd [H ->]]].
  apply bind_returns_trace in H as [ssl [_ [H ->]]].
  apply bind_returns_trace in H as [[] [_ [_ ->]]].
  destruct (contact_server_returns_connected svr cfg fd Hfd) as [addr Hin].
  assert (Hctx : never teardown_event (setup_ctx env cfg)).
  { apply (never_teardown_within 0 0); [lia |].
    apply stages_within_one, setup_ctx_stage. }
  assert (Hcs : never teardown_event (contact_server env ip_literal svr cfg)).
  { apply (never_teardown_within 1 2); [lia |]. apply contact_server_stages. }
  assert (Hssl : never teardown_event (setup_ssl env fuel ctx fd)).
  { apply (never_teardown_within 2 2); [lia |].
    apply stages_within_one, setup_ssl_stage. }
  assert (Hcmd : never teardown_event (go_cmd env fuel ssl argc argv)).
  { apply (never_teardown_within 3 3); [lia |].
    apply stages_within_one, go_cmd_stage. }
  exists (trace (config_create env) ++
          trace (when_ (negb c) (fatal_exit "out of memory")) ++
          trace (config_read env cfgfile) ++
          trace (when_ (remote_control_enable cfg =? 0)
                   (log_warn "control-enable is 'no' in the config file.")) ++
          trace (setup_ctx env cfg) ++
          trace (contact_server env ip_literal svr cfg) ++
          trace (setup_ssl env fuel ctx fd) ++
          trace (go_cmd env fuel ssl argc argv)), fd, addr.
  split; [| split].
  - repeat rewrite <- app_assoc. reflexivity.
  - repeat rewrite in_app_iff. auto 20.
  - repeat rewrite Forall_app. repeat split; try assumption.
    + repeat constructor.
    + destruct (negb c); repeat constructor.
    + repeat constructor.
    + destruct (remote_control_enable cfg =? 0); repeat constructor.
Qed.

(** A run of [go] that does not return makes none of the releasing
    calls: on every failure the process ends as it stands. *)
Theorem go_releases_nothing_on_failure
  (fuel : nat) (cfgfile : string) (svr : option string)
  (argc : Z) (argv : list string) :
  result (go env ip_literal fuel cfgfile svr argc argv) <> Returns tt ->
  never teardown_event (go env ip_literal fuel cfgfile svr argc argv).
Proof.
  intros Hnot.
  assert (Hb : forall b, result (go env ip_literal fuel cfgfile svr argc argv)
                         <> Returns b) by (intros []; exact Hnot).
  clear Hnot. revert Hb. unfold go.
  apply never_unless_returns_bind; [never_tac | intros c _].
  apply never_unless_returns_bind; [never_tac | intros _ _].
  apply never_unless_returns_bind; [never_tac | intros [cfg |] _];
    [| intros _; apply never_nil].
  apply never_unless_returns_bind; [never_tac | intros _ _].
  apply never_unless_returns_bind; [| intros ctx _].
  { apply (never_teardown_within 0 0); [lia |].
    apply stages_within_one, setup_ctx_stage. }
  apply never_unless_returns_bind; [| intros fd _].
  { apply (never_teardown_within 1 2); [lia |]. apply contact_server_stages. }
  apply never_unless_returns_bind; [| intros ssl _].
  { apply (never_teardown_within 2 2); [lia |].
    apply stages_within_one, setup_ssl_stage. }
  apply never_unless_returns_bind; [| intros _ _].
  { apply (never_teardown_within 3 3); [lia |].
    apply stages_within_one, go_cmd_stage. }
  intros Hb. exfalso. apply (Hb tt). reflexivity.
Qed.

End GoMore.

(** ** go: one connection, one request *)

Lemma count_is_write (tr : list event) :
  count_events is_write tr = List.length (written tr).
Proof.
  unfold count_events. induction tr as [| e tr IH]; [reflexivity |].
  destruct e; cbn; rewrite ?IH; reflexivity.
Qed.

Section OneConnection.

Context {K : openssl_constants}.
Variable env : environment.
Variable ip_literal : string -> option (address_family * string).

Lemma setup_ssl_no_connection (fuel : nat) (ctx : SSL_CTX) (fd : Z) :
  never connection_event (setup_ssl env fuel ctx fd).
Proof.
  unfold setup_ssl. never_tac. apply handshake_loop_no_connection.
Qed.

Lemma go_at_most_one (p : event -> bool)
  (fuel : nat) (cfgfile : string) (svr : option string)
  (argc : Z) (argv : list string) :
  (forall e, p e = true -> connection_event e = true) ->
  (forall cfg, at_most 1 p (contact_server env ip_literal svr cfg)) ->
  at_most 1 p (go env ip_literal fuel cfgfile svr argc argv).
Proof.
  intros Hp Hcs.
  assert (Hq : forall e, connection_event e = false -> p e = false).
  { intros e He. destruct (p e) eqn:E; [| reflexivity].
    rewrite (Hp e E) in He. discriminate. }
  unfold go.
  apply (at_most_bind 0 1);
    [apply at_most_never, never_call, Hq; reflexivity | intros c].
  apply (at_most_bind 0 1);
    [apply at_most_never, never_when, never_nil | intros _].
  apply (at_most_bind 0 1);
    [apply at_most_never, never_call, Hq; reflexivity | intros [cfg |]];
    [| apply at_most_exits].
  apply (at_most_bind 0 1);
    [apply at_most_never, never_when, never_call, Hq; reflexivity | intros _].
  apply (at_most_bind 0 1); [| intros ctx].
  { apply at_most_never, (never_impl (outside 0)), setup_ctx_stage.
    intros e He. apply Hp in He. destruct e; try discriminate; reflexivity. }
  apply (at_most_bind 1 0); [apply Hcs | intros fd].
  apply (at_most_bind 0 0); [| intros ssl].
  { apply at_most_never, (never_impl connection_event),
      setup_ssl_no_connection. exact Hp. }
  apply (at_most_bind 0 0); [| intros _].
  { apply at_most_never, (never_impl (outside 3)), go_cmd_stage.
    intros e He. apply Hp in He. destruct e; try discriminate; reflexivity. }
  apply at_most_never. unfold SSL_free, close, SSL_CTX_free, config_delete.
  apply never_bind; [apply never_call, Hq; reflexivity | intros _].
  apply never_bind; [apply never_call, Hq; reflexivity | intros _].
  apply never_bind; [apply never_call, Hq; reflexivity | intros _].
  apply never_call, Hq; reflexivity.
Qed.

(** No run of [go] opens a second connection: whatever happens, it
    makes at most one [socket] call and at most one [connect] call. *)
Theorem go_opens_at_most_one_connection
  (fuel : nat) (cfgfile : string) (svr : option string)
  (argc : Z) (argv : list string) :
  (count_events is_socket
     (trace (go env ip_literal fuel cfgfile svr argc argv)) <= 1)%nat /\
  (count_events is_connect
     (trace (go env ip_literal fuel cfgfile svr argc argv)) <= 1)%nat.
Proof.
  split.
  - apply (go_at_most_one is_socket).
    + intros e He. destruct e; try discriminate; reflexivity.
    + intros cfg. unfold contact_server.
      apply (at_most_bind 0 1).
      * apply at_most_never. unfold resolve. never_tac.
      * intros addr.
        apply (at_most_bind 1 0); [apply at_most_call | intros fd].
        apply at_most_never. never_tac.
  - apply (go_at_most_one is_connect).
    + intros e He. destruct e; try discriminate; reflexivity.
    + intros cfg. unfold contact_server.
      apply (at_most_bind 0 1).
      * apply at_most_never. unfold resolve. never_tac.
      * intros addr.
        apply (at_most_bind 0 1);
          [apply at_most_never; never_tac | intros fd].
        apply (at_most_bind 0 1);
          [apply at_most_never; never_tac | intros _].
        apply (at_most_bind 1 0); [apply at_most_call | intros r].
        apply at_most_never. never_tac.
Qed.

Lemma read_loop_no_write (fuel : nat) (ssl : SSL) (i : nat) :
  never is_write (read_loop env fuel ssl i).
Proof.
  revert i. induction fuel as [| fuel IH]; intros i; cbn [read_loop].
  - apply never_nil.
  - never_tac. apply IH.
Qed.

Lemma other_write_is_write (e : event) :
  other_write e = true -> is_write e = true.
Proof. destruct e; try discriminate; reflexivity. Qed.

Lemma is_write_data_event (e : event) :
  is_write e = true -> data_event e = true.
Proof. destruct e; try discriminate; reflexivity. Qed.

Lemma go_cmd_no_other_write (fuel : nat) (ssl : SSL) (argc : Z)
  (argv : list string) :
  never other_write (go_cmd env fuel ssl argc argv).
Proof.
  unfold go_cmd. never_tac.
  apply (never_impl is_write); [apply other_write_is_write |].
  apply read_loop_no_write.
Qed.

(** In no run of [go] does the client write to the channel more than
    once, and what it writes is the fixed request: a short or failed
    write is not followed by another. *)
Theorem go_writes_at_most_once
  (fuel : nat) (cfgfile : string) (svr : option string)
  (argc : Z) (argv : list string) :
  (count_events is_write
     (trace (go env ip_literal fuel cfgfile svr argc argv)) <= 1)%nat /\
  forall data,
    In (E_SSL_write data)
      (trace (go env ip_literal fuel cfgfile svr argc argv)) ->
    data = cmd.
Proof.
  assert (Hpre : forall e, stage_of e = None -> data_event e = false).
  { intros e He. destruct e; try discriminate He; reflexivity. }
  assert (Hctx : forall cfg, never data_event (setup_ctx env cfg)).
  { intros cfg. apply (stages_within_never data_event 0 0).
    - intros e He. destruct (data_event_stage e He) as [s [Hs Hlt]].
      exists s. split; [exact Hs | lia].
    - apply stages_within_one, setup_ctx_stage. }
  assert (Hcs : forall svr' cfg,
            never data_event (contact_server env ip_literal svr' cfg)).
  { intros svr' cfg.
    apply (stages_within_never data_event 1 2 _ data_event_stage).
    apply contact_server_stages. }
  split.
  - unfold go.
    apply (at_most_bind 0 1);
      [apply at_most_never; never_tac | intros c].
    apply (at_most_bind 0 1);
      [apply at_most_never; never_tac | intros _].
    apply (at_most_bind 0 1);
      [apply at_most_never; never_tac | intros [cfg |]];
      [| apply at_most_exits].
    apply (at_most_bind 0 1);
      [apply at_most_never; never_tac | intros _].
    apply (at_most_bind 0 1); [| intros ctx].
    { apply at_most_never, (never_impl data_event), Hctx.
      apply is_write_data_event. }
    apply (at_most_bind 0 1); [| intros fd].
    { apply at_most_never, (never_impl data_event), Hcs.
      apply is_write_data_event. }
    apply (at_most_bind 0 1); [| intros ssl].
    { apply at_most_never, (never_impl data_event), setup_ssl_no_data.
      apply is_write_data_event. }
    apply (at_most_bind 1 0); [| intros _].
    { unfold at_most.
      rewrite count_is_write, go_cmd_writes_cmd_once. cbn. lia. }
    apply at_most_never.
    unfold SSL_free, close, SSL_CTX_free, config_delete. never_tac.
  - assert (Hnever : never other_write
                       (go env ip_literal fuel cfgfile svr argc argv)).
    { unfold go.
      apply never_bind; [never_tac | intros c].
      apply never_bind; [never_tac | intros _].
      apply never_bind; [never_tac | intros [cfg |]]; [| apply never_nil].
      apply never_bind; [never_tac | intros _].
      apply never_bind; [| intros ctx].
      { apply (never_impl data_event), Hctx.
        intros e He. apply is_write_data_event, other_write_is_write, He. }
      apply never_bind; [| intros fd].
      { apply (never_impl data_event), Hcs.
        intros e He. apply is_write_data_event, other_write_is_write, He. }
      apply never_bind; [| intros ssl].
      { apply (never_impl data_event), setup_ssl_no_data.
        intros e He. apply is_write_data_event, other_write_is_write, He. }
      apply never_bind; [apply go_cmd_no_other_write | intros _].
      unfold SSL_free, close, SSL_CTX_free, config_delete. never_tac. }
    intros data Hin. unfold never in Hnever.
    rewrite Forall_forall in Hnever. specialize (Hnever _ Hin).
    cbn in Hnever. apply negb_false_iff, String.eqb_eq in Hnever.
    exact Hnever.
Qed.

End OneConnection.

(** ** go and control-enable *)

Section ControlEnable.

Context {K : openssl_constants}.
Variable env : environment.
Variable ip_literal : string -> option (address_family * string).

Lemma handshake_loop_with_config (cfg : config_file) (fuel : nat)
  (ssl : SSL) (i : nat) :
  handshake_loop (with_config env cfg) fuel ssl i =
  handshake_loop env fuel ssl i.
Proof.
  revert i. induction fuel as [| fuel IH]; intros i; [reflexivity |].
  rewrite !handshake_loop_step, IH. reflexivity.
Qed.

Lemma read_loop_with_config (cfg : config_file) (fuel : nat)
  (ssl : SSL) (i : nat) :
  read_loop (with_config env cfg) fuel ssl i = read_loop env fuel ssl i.
Proof.
  revert i. induction fuel as [| fuel IH]; intros i; [reflexivity |].
  rewrite !read_loop_step, IH. reflexivity.
Qed.

Lemma setup_ssl_with_config (cfg : config_file) (fuel : nat)
  (ctx : SSL_CTX) (fd : Z) :
  setup_ssl (with_config env cfg) fuel ctx fd = setup_ssl env fuel ctx fd.
Proof.
  unfold setup_ssl.
  apply bind_ext; [reflexivity | intros [ssl |]]; [| reflexivity].
  apply bind_ext; [reflexivity | intros ssl1].
  apply bind_ext; [reflexivity | intros ssl2].
  apply bind_ext; [reflexivity | intros [ssl3 r]].
  apply bind_ext; [reflexivity | intros _].
  apply bind_ext; [apply handshake_loop_with_config | intros _].
  reflexivity.
Qed.

Lemma go_cmd_with_config (cfg : config_file) (fuel : nat) (ssl : SSL)
  (argc : Z) (argv : list string) :
  go_cmd (with_config env cfg) fuel ssl argc argv =
  go_cmd env fuel ssl argc argv.
Proof.
  unfold go_cmd.
  apply bind_ext; [reflexivity | intros r].
  apply bind_ext; [reflexivity | intros _].
  apply read_loop_with_config.
Qed.

(** What follows the reading of the configuration in [go]. *)
Lemma go_after_config (cfg : config_file) (fuel : nat)
  (svr : option string) (argc : Z) (argv : list string) (v : Z) :
  (ctx <- setup_ctx (with_config env (with_remote_control_enable cfg v))
            (with_remote_control_enable cfg v) ;;
   fd <- contact_server (with_config env (with_remote_control_enable cfg v))
           ip_literal svr (with_remote_control_enable cfg v) ;;
   ssl <- setup_ssl (with_config env (with_remote_control_enable cfg v))
            fuel ctx fd ;;
   go_cmd (with_config env (with_remote_control_enable cfg v))
     fuel ssl argc argv ;;
   SSL_free ;; close fd ;; SSL_CTX_free ;; config_delete) =
  (ctx <- setup_ctx env cfg ;;
   fd <- contact_server env ip_literal svr cfg ;;
   ssl <- setup_ssl env fuel ctx fd ;;
   go_cmd env fuel ssl argc argv ;;
   SSL_free ;; close fd ;; SSL_CTX_free ;; config_delete).
Proof.
  apply bind_ext; [reflexivity | intros ctx].
  apply bind_ext; [reflexivity | intros fd].
  apply bind_ext; [apply setup_ssl_with_config | intros ssl].
  apply bind_ext; [apply go_cmd_with_config | intros _].
  reflexivity.
Qed.

(** The [control-enable] setting of the configuration is advisory: with
    the value 0 the run makes one more call, the warning, right after
    the configuration is read, and is otherwise the same run with the
    same end as with any other value. *)
Theorem go_control_enable_is_advisory
  (cfg : config_file) (v : Z) (fuel : nat) (cfgfile : string)
  (svr : option string) (argc : Z) (argv : list string) :
  e_config_create env = true ->
  v <> 0 ->
  exists rest o,
    go (with_config env (with_remote_control_enable cfg v)) ip_literal
       fuel cfgfile svr argc argv =
      ([E_config_create; E_config_read cfgfile] ++ rest, o) /\
    go (with_config env (with_remote_control_enable cfg 0)) ip_literal
       fuel cfgfile svr argc argv =
      ([E_config_create; E_config_read cfgfile;
        E_log_warn "control-enable is 'no' in the config file."] ++ rest,
       o).
Proof.
  intros Hc Hv. apply Z.eqb_neq in Hv.
  exists (trace (ctx <- setup_ctx env cfg ;;
                 fd <- contact_server env ip_literal svr cfg ;;
                 ssl <- setup_ssl env fuel ctx fd ;;
                 go_cmd env fuel ssl argc argv ;;
                 SSL_free ;; close fd ;; SSL_CTX_free ;; config_delete)),
         (result (ctx <- setup_ctx env cfg ;;
                  fd <- contact_server env ip_literal svr cfg ;;
                  ssl <- setup_ssl env fuel ctx fd ;;
                  go_cmd env fuel ssl argc argv ;;
                  SSL_free ;; close fd ;; SSL_CTX_free ;; config_delete)).
  unfold go, config_create, config_read, log_warn.
  cbn [e_config_create e_config_read with_config].
  rewrite Hc. repeat step.
  cbn [remote_control_enable with_remote_control_enable].
  rewrite Hv. cbn [Z.eqb]. repeat step.
  rewrite !go_after_config. split; reflexivity.
Qed.

End ControlEnable.

(** ** main *)

Lemma pbind_returns {A B} (m : P A) (k : A -> P B) (a : A) :
  snd m = Returns a -> pbind m k = (fst m ++ fst (k a), snd (k a)).
Proof.
  destruct m as [t o]. cbn. intros ->. destruct (k a). reflexivity.
Qed.

Lemma pbind_exits {A B} (m : P A) (k : A -> P B) (f : failure) :
  snd m = Exits f -> pbind m k = (fst m, Exits f).
Proof. destruct m as [t o]. cbn. intros ->. reflexivity. Qed.

Lemma pbind_pair {A B} (t : list process_event) (a : A) (k : A -> P B) :
  pbind (t, Returns a) k = (t ++ fst (k a), snd (k a)).
Proof. unfold pbind. destruct (k a). reflexivity. Qed.

Lemma pbind_pair_exits {A B} (t : list process_event) (f : failure)
  (k : A -> P B) :
  pbind ((t, Exits f) : P A) k = (t, Exits f).
Proof. reflexivity. Qed.

Lemma pbind_pcall {A B} (e : main_event) (a : A) (k : A -> P B) :
  pbind (pcall e a) k = (in_main e :: fst (k a), snd (k a)).
Proof. unfold pbind, pcall. destruct (k a). reflexivity. Qed.

Lemma pbind_pret {A B} (a : A) (k : A -> P B) : pbind (pret a) k = k a.
Proof. unfold pbind, pret. destruct (k a). reflexivity. Qed.

Lemma forallb_known_app (l1 l2 : list (ascii * string)) :
  forallb known_option (l1 ++ l2) = true ->
  forallb known_option l1 = true /\ forallb known_option l2 = true.
Proof. rewrite forallb_app. apply andb_true_iff. Qed.

Section MainProofs.

Context {K : openssl_constants} {B : build_constants}.
Variable env : environment.
Variable menv : main_environment.
Variable ip_literal : string -> option (address_family * string).

Lemma usage_exits (A : Type) : result (@usage B A) = Exits (by_exit 1).
Proof. reflexivity. Qed.

Lemma startup_returns : snd (startup menv) = Returns tt.
Proof.
  unfold startup. rewrite !pbind_pcall. cbn [snd].
  destruct (e_RAND_status menv =? 0); reflexivity.
Qed.

(** The option loop when every option found is [-c] or [-s]. *)
Lemma options_known (found : list (ascii * string)) :
  forall cfgfile svr,
  forallb known_option found = true ->
  options found cfgfile svr =
    (getopt_calls found ++ [in_main (E_getopt (-1))],
     Returns (chosen found cfgfile svr)).
Proof.
  induction found as [| [c optarg] found IH]; intros cfgfile svr Hk.
  - reflexivity.
  - cbn [forallb] in Hk. apply andb_true_iff in Hk. destruct Hk as [Hc Hk].
    unfold known_option in Hc. cbn [fst] in Hc.
    cbn [options chosen]. rewrite pbind_pcall.
    destruct (Ascii.eqb c "c").
    + rewrite (IH optarg svr Hk). reflexivity.
    + cbn [orb] in Hc. rewrite Hc. rewrite (IH cfgfile (Some optarg) Hk).
      reflexivity.
Qed.

(** The option loop when it meets an option other than [-c] and [-s]. *)
Lemma options_unknown (good rest : list (ascii * string))
  (bad : ascii * string) :
  forall cfgfile svr,
  forallb known_option good = true ->
  known_option bad = false ->
  options (good ++ bad :: rest) cfgfile svr =
    (getopt_calls (good ++ [bad]) ++ map below (trace (@usage B unit)),
     Exits (by_exit 1)).
Proof.
  induction good as [| [c optarg] good IH]; intros cfgfile svr Hk Hbad.
  - destruct bad as [c optarg]. unfold known_option in Hbad. cbn [fst] in Hbad.
    apply orb_false_iff in Hbad. destruct Hbad as [Hc Hs].
    cbn [app options]. rewrite pbind_pcall, Hc, Hs. reflexivity.
  - cbn [forallb] in Hk. apply andb_true_iff in Hk. destruct Hk as [Hc Hk].
    unfold known_option in Hc. cbn [fst] in Hc.
    cbn [app options]. rewrite pbind_pcall.
    destruct (Ascii.eqb c "c").
    + rewrite (IH optarg svr Hk Hbad). reflexivity.
    + cbn [orb] in Hc. rewrite Hc. rewrite (IH cfgfile (Some optarg) Hk Hbad).
      reflexivity.
Qed.

(** An option other than [-c] and [-s], [-h] among them, makes [main]
    print the usage text and exit with status 1 right after the
    [getopt] call that found it: the options and arguments after it are
    not looked at, and [go] is not run. *)
Theorem main_prints_usage_on_any_other_option
  (fuel : nat) (argv : list string)
  (good rest : list (ascii * string)) (bad : ascii * string) :
  e_getopt menv = good ++ bad :: rest ->
  forallb known_option good = true ->
  known_option bad = false ->
  main env menv ip_literal fuel argv =
    (fst (startup menv) ++ getopt_calls (good ++ [bad])
       ++ map below (trace (@usage B unit)),
     Exits (by_exit 1)).
Proof.
  intros Hopt Hgood Hbad. unfold main.
  rewrite (pbind_returns _ _ tt startup_returns), Hopt.
  rewrite (pbind_exits _ _ (by_exit 1)).
  - rewrite (options_unknown good rest bad _ _ Hgood Hbad). reflexivity.
  - rewrite (options_unknown good rest bad _ _ Hgood Hbad). reflexivity.
Qed.

(** Without a command after the options [main] prints the usage text
    and exits with status 1; [go] is not run. *)
Theorem main_prints_usage_without_a_command
  (fuel : nat) (argv : list string) :
  forallb known_option (e_getopt menv) = true ->
  Z.of_nat (List.length argv) - Z.of_nat (e_optind menv) = 0 ->
  main env menv ip_literal fuel argv =
    (fst (startup menv) ++ getopt_calls (e_getopt menv)
       ++ in_main (E_getopt (-1)) :: map below (trace (@usage B unit)),
     Exits (by_exit 1)).
Proof.
  intros Hk Hargc. unfold main.
  rewrite (pbind_returns _ _ tt startup_returns).
  rewrite (options_known _ _ _ Hk).
  destruct (chosen (e_getopt menv) CONFIGFILE None) as [cfgfile svr].
  rewrite pbind_pair. cbn [fst snd].
  rewrite Hargc. cbn [Z.eqb].
  unfold lift at 1. rewrite usage_exits, pbind_pair_exits.
  cbn [fst snd]. rewrite <- app_assoc. reflexivity.
Qed.

(** The single command "start" is not sent to the server: when one
    argument is left after the options and the array, as [getopt] has
    left it, holds "start" at [optind], [main] calls [execlp] to run
    [unbound -c cfgfile] with the configuration file chosen by the
    options, and [go] is not run.  When the call does not come back the
    process runs [unbound]; when it comes back with a negative result
    the process ends in [fatal_exit]. *)
Theorem main_start_runs_unbound
  (fuel : nat) (argv : list string) (others : list string) :
  forallb known_option (e_getopt menv) = true ->
  Z.of_nat (List.length argv) - Z.of_nat (e_optind menv) = 1 ->
  skipn (e_optind menv) (e_getopt_argv menv argv) = "start" :: others ->
  (e_execlp menv = None ->
   main env menv ip_literal fuel argv =
     (fst (startup menv) ++ getopt_calls (e_getopt menv)
        ++ [in_main (E_getopt (-1));
            in_main (E_execlp "unbound"
                       ["unbound"; "-c";
                        fst (chosen (e_getopt menv) CONFIGFILE None)])],
      Returns runs_unbound)) /\
  (forall r, e_execlp menv = Some r -> r < 0 ->
   main env menv ip_literal fuel argv =
     (fst (startup menv) ++ getopt_calls (e_getopt menv)
        ++ [in_main (E_getopt (-1));
            in_main (E_execlp "unbound"
                       ["unbound"; "-c";
                        fst (chosen (e_getopt menv) CONFIGFILE None)])],
      Exits (by_fatal_exit
               ("could not exec unbound: " ++ e_strerror env)%string))).
Proof.
  intros Hk Hargc Hargv.
  assert (E : forall o,
    (e_execlp menv = None -> o = Returns runs_unbound) ->
    (forall r, e_execlp menv = Some r ->
       r < 0 /\ o = Exits (by_fatal_exit
                  ("could not exec unbound: " ++ e_strerror env)%string)) ->
    main env menv ip_literal fuel argv =
     (fst (startup menv) ++ getopt_calls (e_getopt menv)
        ++ [in_main (E_getopt (-1));
            in_main (E_execlp "unbound"
                       ["unbound"; "-c";
                        fst (chosen (e_getopt menv) CONFIGFILE None)])],
      o)).
  { intros o Hnone Hsome. unfold main.
    rewrite (pbind_returns _ _ tt startup_returns).
    rewrite (options_known _ _ _ Hk).
    destruct (chosen (e_getopt menv) CONFIGFILE None) as [cfgfile svr].
    rewrite pbind_pair. cbn [fst snd].
    rewrite Hargc, Hargv. cbn [Z.eqb Pos.eqb andb]. rewrite pbind_pret.
    rewrite String.eqb_refl. unfold execlp. rewrite pbind_pcall.
    destruct (e_execlp menv) as [r |].
    - destruct (Hsome r eq_refl) as [Hr ->]. apply Z.ltb_lt in Hr. rewrite Hr.
      cbn [fst snd lift fatal_exit trace result map].
      rewrite <- app_assoc. reflexivity.
    - rewrite (Hnone eq_refl). cbn [fst snd pret].
      rewrite <- app_assoc. reflexivity. }
  split.
  - intros Hnone. apply E; [reflexivity |]. intros r Hr. congruence.
  - intros r Hsome Hr. apply E; [intros Hnone; congruence |].
    intros r' Hr'. split; [congruence | reflexivity].
Qed.

(** After the options [found], all of them [-c] or [-s], [cfgfile] is
    the argument of the last [-c] and [svr] that of the last [-s]; each
    keeps its starting value when there is no such option. *)
Lemma chosen_last (found : list (ascii * string)) :
  forall cfgfile svr,
  forallb known_option found = true ->
  chosen found cfgfile svr =
    (match last_optarg "c" found with Some a => a | None => cfgfile end,
     match last_optarg "s" found with Some a => Some a | None => svr end).
Proof.
  induction found as [| [c optarg] found IH]; intros cfgfile svr Hk.
  - reflexivity.
  - cbn [forallb] in Hk. apply andb_true_iff in Hk. destruct Hk as [Hc Hk].
    unfold known_option in Hc. cbn [fst] in Hc.
    cbn [chosen last_optarg].
    destruct (Ascii.eqb c "c") eqn:Ec.
    + apply Ascii.eqb_eq in Ec. subst c. rewrite (IH optarg svr Hk).
      cbn [Ascii.eqb Bool.eqb andb].
      destruct (last_optarg "c" found), (last_optarg "s" found); reflexivity.
    + cbn [orb] in Hc. rewrite Hc. rewrite (IH cfgfile (Some optarg) Hk).
      destruct (last_optarg "c" found), (last_optarg "s" found); reflexivity.
Qed.

(** With a command that is not the single word "start", [main] runs
    [go] on the configuration file of the last [-c] ([CONFIGFILE] when
    there is none), the server of the last [-s] (the null pointer when
    there is none) and the arguments from [optind] on of the array as
    [getopt] has left it; the run of the process ends as that of [go]
    does, and when [go] returns [main] calls [checklock_stop] and
    returns 0. *)
Theorem main_runs_go_on_a_command
  (fuel : nat) (argv : list string) :
  forallb known_option (e_getopt menv) = true ->
  Z.of_nat (List.length argv) - Z.of_nat (e_optind menv) <> 0 ->
  (Z.of_nat (List.length argv) - Z.of_nat (e_optind menv) <> 1 \/
   forall others, skipn (e_optind menv) (e_getopt_argv menv argv) <> "start" :: others) ->
  main env menv ip_literal fuel argv =
    (fst (startup menv) ++ getopt_calls (e_getopt menv)
       ++ in_main (E_getopt (-1))
       :: map below
            (trace (go env ip_literal fuel
                      (match last_optarg "c" (e_getopt menv) with
                       | Some a => a
                       | None => CONFIGFILE
                       end)
                      (last_optarg "s" (e_getopt menv))
                      (Z.of_nat (List.length argv) - Z.of_nat (e_optind menv))
                      (skipn (e_optind menv) (e_getopt_argv menv argv))))
       ++ match result (go env ip_literal fuel
                      (match last_optarg "c" (e_getopt menv) with
                       | Some a => a
                       | None => CONFIGFILE
                       end)
                      (last_optarg "s" (e_getopt menv))
                      (Z.of_nat (List.length argv) - Z.of_nat (e_optind menv))
                      (skipn (e_optind menv) (e_getopt_argv menv argv))) with
          | Returns _ => [in_main E_checklock_stop]
          | _ => []
          end,
     after_go
       (result (go env ip_literal fuel
                  (match last_optarg "c" (e_getopt menv) with
                   | Some a => a
                   | None => CONFIGFILE
                   end)
                  (last_optarg "s" (e_getopt menv))
                  (Z.of_nat (List.length argv) - Z.of_nat (e_optind menv))
                  (skipn (e_optind menv) (e_getopt_argv menv argv))))).
Proof.
  intros Hk Hargc Hstart. unfold main.
  rewrite (pbind_returns _ _ tt startup_returns).
  rewrite (options_known _ _ _ Hk), (chosen_last _ _ _ Hk).
  destruct (last_optarg "s" (e_getopt menv)) as [svr |] eqn:Es;
    rewrite pbind_pair; cbn [fst snd];
    apply Z.eqb_neq in Hargc; rewrite Hargc; rewrite pbind_pret;
    match goal with
    | |- context [(?a =? 1) && ?b] =>
      assert (Hno : (a =? 1) && b = false)
    end.
  1, 3: destruct Hstart as [Hone | Hword];
    [ apply Z.eqb_neq in Hone; rewrite Hone; reflexivity
    | destruct (skipn (e_optind menv) (e_getopt_argv menv argv)) as [| a others];
      [ apply andb_false_r
      | destruct (String.eqb_spec a "start") as [-> |];
        [ destruct (Hword others eq_refl) | apply andb_false_r ] ] ].
  all: rewrite Hno; unfold lift;
    match goal with
    | |- context [result ?g] => destruct g as [t [[] | f |]]
    end;
    cbn [trace result fst snd pbind after_go];
    rewrite <- ?app_assoc; cbn [app]; rewrite ?app_nil_r; reflexivity.
Qed.

Lemma seed_loop_in_bounds (passes : nat) :
  forall i v seed,
  0 < sizeof_unsigned ->
  0 <= i ->
  i + Z.of_nat passes <= 256 / sizeof_unsigned ->
  Forall (fun w => 0 <= fst w /\ fst w + sizeof_unsigned <= 256)
    (seed_loop passes i v seed).
Proof.
  induction passes as [| passes IH]; intros i v seed Hsz Hi Hle;
    cbn [seed_loop]; constructor.
  - cbn [fst].
    assert (Hmul : sizeof_unsigned * (256 / sizeof_unsigned) <= 256)
      by (apply Z.mul_div_le; exact Hsz).
    split; [nia | nia].
  - apply IH; [exact Hsz | lia | lia].
Qed.

(** The program seeds the PRNG only when [RAND_status] answers 0, it
    hands over 256 bytes, and every copy that has filled the buffer
    lies within these 256 bytes, whatever the size of an [unsigned
    int]. *)
Theorem startup_seeds_within_the_buffer (buf : list (Z * Z)) (num : Z) :
  0 < sizeof_unsigned ->
  In (in_main (E_RAND_seed buf num)) (fst (startup menv)) ->
  e_RAND_status menv = 0 /\
  num = 256 /\
  Forall (fun w => 0 <= fst w /\ fst w + sizeof_unsigned <= 256) buf.
Proof.
  intros Hsz. unfold startup. rewrite !pbind_pcall. cbn [fst].
  destruct (Z.eqb_spec (e_RAND_status menv) 0) as [Hr | Hr]; cbn;
    intros H;
    repeat (destruct H as [H | H]; [try discriminate H |]);
    try contradiction.
  injection H as <- <-.
  split; [exact Hr |]. split; [reflexivity |].
  unfold seed_buffer. apply seed_loop_in_bounds; [exact Hsz | lia |].
  rewrite Z2Nat.id; [lia |]. apply Z.div_pos; lia.
Qed.

End MainProofs.

(** ** The further properties on concrete runs *)

Lemma setup_ctx_loads_the_configured_files_witness :
  result (setup_ctx (env_chunks []) cfg0) =
    Returns {| ctx_options := 0x01000000;
               ctx_certificate_file := Some "unbound_control.pem";
               ctx_PrivateKey_file := Some "unbound_control.key";
               ctx_verify_locations := Some "unbound_server.pem";
               ctx_verify_mode := Some 1 |} /\
  filter loads_file (trace (setup_ctx (env_chunks []) cfg0)) =
    [E_SSL_CTX_use_certificate_file "unbound_control.pem" 1;
     E_SSL_CTX_use_PrivateKey_file "unbound_control.key" 1;
     E_SSL_CTX_load_verify_locations "unbound_server.pem"].
Proof.
  destruct (setup_ctx_loads_the_configured_files (env_chunks []) cfg0
              "unbound_server.pem" "unbound_control.key" "unbound_control.pem")
    as [Hctx Hfiles];
    try reflexivity; try discriminate.
  split; [exact Hctx | exact Hfiles].
Defined.

Lemma setup_ctx_returns_only_when_all_succeeds_witness :
  exists s_cert c_key c_cert,
    e_fname_after_chroot (env_chunks []) (server_cert_file cfg0) = Some s_cert /\
    e_fname_after_chroot (env_chunks []) (control_key_file cfg0) = Some c_key /\
    e_fname_after_chroot (env_chunks []) (control_cert_file cfg0) = Some c_cert /\
    e_SSL_CTX_new (env_chunks []) = true /\
    Z.land (e_SSL_CTX_set_options (env_chunks []) SSL_OP_NO_SSLv2)
      SSL_OP_NO_SSLv2 <> 0 /\
    e_SSL_CTX_use_certificate_file (env_chunks []) c_cert <> 0 /\
    e_SSL_CTX_use_PrivateKey_file (env_chunks []) c_key <> 0 /\
    e_SSL_CTX_check_private_key (env_chunks []) (Some c_cert) (Some c_key)
      <> 0 /\
    e_SSL_CTX_load_verify_locations (env_chunks []) s_cert = 1 /\
    ctx_certificate_file (ssl_ctx ssl0) = Some c_cert /\
    ctx_PrivateKey_file (ssl_ctx ssl0) = Some c_key /\
    ctx_verify_locations (ssl_ctx ssl0) = Some s_cert.
Proof.
  apply (setup_ctx_returns_only_when_all_succeeds (env_chunks []) cfg0
           (ssl_ctx ssl0)).
  reflexivity.
Defined.

Lemma setup_ctx_out_of_memory_witness :
  setup_ctx (make_env_early (fun _ => None) 1 3 0 true 1 true (Some cfg0))
    cfg0 =
    ([E_fname_after_chroot "unbound_server.pem";
      E_fname_after_chroot "unbound_control.key";
      E_fname_after_chroot "unbound_control.pem"],
     Exits (by_fatal_exit "out of memory")).
Proof.
  apply (setup_ctx_out_of_memory
           (make_env_early (fun _ => None) 1 3 0 true 1 true (Some cfg0)) cfg0).
  left. reflexivity.
Defined.

Lemma setup_ctx_stops_at_the_certificate_witness :
  result (setup_ctx (make_env_early (fun f => Some f) 0 3 0 true 1 true
                       (Some cfg0)) cfg0) =
    Exits (by_ssl_err "Error setting up SSL_CTX client key and cert") /\
  ~ In (E_SSL_CTX_use_PrivateKey_file "unbound_control.key" 1)
      (trace (setup_ctx (make_env_early (fun f => Some f) 0 3 0 true 1 true
                           (Some cfg0)) cfg0)).
Proof.
  rewrite (setup_ctx_stops_at_the_certificate
             (make_env_early (fun f => Some f) 0 3 0 true 1 true (Some cfg0))
             cfg0 "unbound_server.pem" "unbound_control.key"
             "unbound_control.pem");
    try reflexivity; try discriminate.
  split; [reflexivity |]. cbn.
  intros H. repeat (destruct H as [H | H]; [discriminate H |]). exact H.
Defined.

Lemma contact_server_socket_fails_witness :
  contact_server (make_env_early (fun f => Some f) 1 (-1) 0 true 1 true
                    (Some cfg0)) dotted_quad None cfg0 =
    ([E_ipstrtoaddr "127.0.0.1" 953; E_socket AF_INET],
     Exits (by_fatal_exit "socket: Connection refused")).
Proof.
  apply (contact_server_socket_fails
           (make_env_early (fun f => Some f) 1 (-1) 0 true 1 true (Some cfg0))
           dotted_quad None cfg0 [E_ipstrtoaddr "127.0.0.1" 953] loopback);
    reflexivity.
Defined.

Lemma contact_server_connect_fails_witness :
  contact_server (make_env_early (fun f => Some f) 1 3 (-1) true 1 true
                    (Some cfg0)) dotted_quad None cfg0 =
    ([E_ipstrtoaddr "127.0.0.1" 953; E_socket AF_INET;
      E_connect 3 loopback; E_log_addr loopback;
      E_log_err "connect: Connection refused"],
     Exits (by_exit 1)).
Proof.
  apply (contact_server_connect_fails
           (make_env_early (fun f => Some f) 1 3 (-1) true 1 true (Some cfg0))
           dotted_quad None cfg0 [E_ipstrtoaddr "127.0.0.1" 953] loopback);
    [reflexivity | discriminate | reflexivity].
Defined.

Lemma contact_server_connects_to_the_parsed_address_witness :
  contact_server (env_chunks []) dotted_quad None cfg0 =
    ([E_ipstrtoaddr "127.0.0.1" 953; E_socket AF_INET; E_connect 3 loopback],
     Returns 3).
Proof.
  apply (contact_server_connects_to_the_parsed_address
           (env_chunks []) dotted_quad None cfg0
           [E_ipstrtoaddr "127.0.0.1" 953] loopback);
    [reflexivity | discriminate | discriminate].
Defined.

Lemma contact_server_choice_of_server_witness :
  contact_server (env_chunks []) dotted_quad (Some "10.0.0.1@8953") cfg0 =
  contact_server (env_chunks []) dotted_quad (Some "10.0.0.1@8953")
    {| server_cert_file := "a"; control_key_file := "b";
       control_cert_file := "c"; control_ifs := ["192.0.2.1"];
       control_port := 1; remote_control_enable := 0 |}.
Proof.
  destruct (contact_server_choice_of_server (env_chunks []) dotted_quad
              "10.0.0.1@8953" cfg0
              {| server_cert_file := "a"; control_key_file := "b";
                 control_cert_file := "c"; control_ifs := ["192.0.2.1"];
                 control_port := 1; remote_control_enable := 0 |})
    as [_ [H _]].
  apply H. discriminate.
Defined.

Lemma setup_ssl_fails_before_the_handshake_witness :
  setup_ssl (make_env_early (fun f => Some f) 1 3 0 false 1 true (Some cfg0))
    1 (ssl_ctx ssl0) 3 =
    ([E_SSL_new], Exits (by_ssl_err "could not SSL_new")) /\
  setup_ssl (make_env_early (fun f => Some f) 1 3 0 true 0 true (Some cfg0))
    1 (ssl_ctx ssl0) 3 =
    ([E_SSL_new; E_SSL_set_connect_state; E_SSL_set_mode 4; E_SSL_set_fd 3],
     Exits (by_ssl_err "could not SSL_set_fd")).
Proof.
  split.
  - destruct (setup_ssl_fails_before_the_handshake
                (make_env_early (fun f => Some f) 1 3 0 false 1 true
                   (Some cfg0))
                1 (ssl_ctx ssl0) 3) as [H _].
    apply H; reflexivity.
  - destruct (setup_ssl_fails_before_the_handshake
                (make_env_early (fun f => Some f) 1 3 0 true 0 true
                   (Some cfg0))
                1 (ssl_ctx ssl0) 3) as [_ H].
    apply H; reflexivity.
Defined.

Lemma setup_ssl_returns_the_client_channel_witness :
  setup_ssl (env_chunks []) 1 (ssl_ctx ssl0) 3 =
    ([E_SSL_new; E_SSL_set_connect_state; E_SSL_set_mode 4; E_SSL_set_fd 3;
      E_ERR_clear_error; E_SSL_do_handshake;
      E_SSL_get_verify_result; E_SSL_get_peer_certificate; E_X509_free],
     Returns ssl0).
Proof.
  rewrite (setup_ssl_returns_the_client_channel (env_chunks []) 1
             (ssl_ctx ssl0) 3 [E_ERR_clear_error; E_SSL_do_handshake]);
    try reflexivity.
  discriminate.
Defined.

Lemma handshake_loop_has_no_bound_witness :
  result (handshake_loop env_handshake_hangs 1000 ssl0 0) = OutOfFuel /\
  handshake_attempts (trace (handshake_loop env_handshake_hangs 1000 ssl0 0))
    = 1000%nat.
Proof.
  apply (handshake_loop_has_no_bound env_handshake_hangs 1000 ssl0).
  intros j. reflexivity.
Defined.

Lemma go_cmd_write_fails_witness :
  go_cmd env_write_fails 5 ssl0 1 ["status"] =
    ([E_SSL_write cmd], Exits (by_ssl_err "could not SSL_write")).
Proof.
  apply (go_cmd_write_fails env_write_fails 5 ssl0 1 ["status"]).
  cbn. lia.
Defined.

Lemma go_cmd_keeps_what_was_printed_witness :
  result (go_cmd env_breaks_midway 5 ssl0 1 ["status"]) =
    Exits (by_ssl_err "could not SSL_read") /\
  stdout (trace (go_cmd env_breaks_midway 5 ssl0 1 ["status"])) = "abcd".
Proof.
  apply (go_cmd_keeps_what_was_printed env_breaks_midway 5 ssl0 1 ["status"]
           ["ab"; "cd"]).
  - cbn. lia.
  - intros [| [| i]] c H; cbn in H;
      try (destruct i; discriminate H); injection H as <-; reflexivity.
  - repeat constructor; cbn; lia.
  - cbn. lia.
  - discriminate.
  - cbn. lia.
Defined.

Lemma go_cmd_reads_without_bound_witness :
  result (go_cmd env_endless_answer 100 ssl0 1 ["status"]) = OutOfFuel /\
  count_events is_read (trace (go_cmd env_endless_answer 100 ssl0 1 ["status"]))
    = 100%nat.
Proof.
  apply (go_cmd_reads_without_bound env_endless_answer 100 ssl0 1 ["status"]).
  - cbn. lia.
  - intros j. cbn. lia.
Defined.

Lemma go_needs_the_configuration_witness :
  go (make_env_early (fun f => Some f) 1 3 0 true 1 false (Some cfg0))
     dotted_quad 1 "unbound.conf" None 1 ["status"] =
    ([E_config_create], Exits (by_fatal_exit "out of memory")) /\
  go (make_env_early (fun f => Some f) 1 3 0 true 1 true None)
     dotted_quad 1 "unbound.conf" None 1 ["status"] =
    ([E_config_create; E_config_read "unbound.conf"],
     Exits (by_fatal_exit "could not read config file")).
Proof.
  split.
  - destruct (go_needs_the_configuration
                (make_env_early (fun f => Some f) 1 3 0 true 1 false
                   (Some cfg0))
                dotted_quad 1 "unbound.conf" None 1 ["status"]) as [H _].
    apply H; reflexivity.
  - destruct (go_needs_the_configuration
                (make_env_early (fun f => Some f) 1 3 0 true 1 true None)
                dotted_quad 1 "unbound.conf" None 1 ["status"]) as [_ H].
    apply H; reflexivity.
Defined.

Lemma go_releases_what_it_holds_witness :
  exists tr fd addr,
    trace (go (env_chunks ["ok"]) dotted_quad 2 "unbound.conf" None 1
             ["status"]) =
      tr ++ [E_SSL_free; E_close fd; E_SSL_CTX_free; E_config_delete] /\
    In (E_connect fd addr) tr /\
    Forall (fun e => teardown_event e = false) tr.
Proof.
  apply (go_releases_what_it_holds (env_chunks ["ok"]) dotted_quad 2
           "unbound.conf" None 1 ["status"]).
  reflexivity.
Defined.

Lemma go_releases_nothing_on_failure_witness :
  never teardown_event
    (go env_no_peer_certificate dotted_quad 2 "unbound.conf" None 1
       ["status"]).
Proof.
  apply (go_releases_nothing_on_failure env_no_peer_certificate dotted_quad 2
           "unbound.conf" None 1 ["status"]).
  discriminate.
Defined.

Lemma go_control_enable_is_advisory_witness :
  exists rest o,
    go (with_config (env_chunks ["ok"]) (with_remote_control_enable cfg0 1))
       dotted_quad 2 "unbound.conf" None 1 ["status"] =
      ([E_config_create; E_config_read "unbound.conf"] ++ rest, o) /\
    go (with_config (env_chunks ["ok"]) (with_remote_control_enable cfg0 0))
       dotted_quad 2 "unbound.conf" None 1 ["status"] =
      ([E_config_create; E_config_read "unbound.conf";
        E_log_warn "control-enable is 'no' in the config file."] ++ rest,
       o).
Proof.
  apply (go_control_enable_is_advisory (env_chunks ["ok"]) dotted_quad cfg0 1
           2 "unbound.conf" None 1 ["status"]).
  - reflexivity.
  - discriminate.
Defined.

Lemma main_prints_usage_on_any_other_option_witness :
  snd (main (env_chunks ["ok"]) menv_help dotted_quad 3
         ["unbound-control"; "-h"; "status"]) = Exits (by_exit 1) /\
  Forall (fun e => below_not_printf e = false)
    (fst (main (env_chunks ["ok"]) menv_help dotted_quad 3
            ["unbound-control"; "-h"; "status"])).
Proof.
  rewrite (main_prints_usage_on_any_other_option (env_chunks ["ok"])
             menv_help dotted_quad 3 ["unbound-control"; "-h"; "status"]
             [] [] ("h"%char, EmptyString));
    try reflexivity.
  split; [reflexivity |]. cbn. repeat constructor.
Defined.

Lemma main_prints_usage_without_a_command_witness :
  snd (main (env_chunks ["ok"]) menv_plain dotted_quad 3 ["unbound-control"])
    = Exits (by_exit 1) /\
  Forall (fun e => below_not_printf e = false)
    (fst (main (env_chunks ["ok"]) menv_plain dotted_quad 3
            ["unbound-control"])).
Proof.
  rewrite (main_prints_usage_without_a_command (env_chunks ["ok"])
             menv_plain dotted_quad 3 ["unbound-control"]);
    try reflexivity.
  split; [reflexivity |]. cbn. repeat constructor.
Defined.

Lemma main_start_runs_unbound_witness :
  snd (main (env_chunks ["ok"]) menv_start_first dotted_quad 3
         ["unbound-control"; "start"; "-c"; "x.conf"]) =
    Returns runs_unbound /\
  In (in_main (E_execlp "unbound" ["unbound"; "-c"; "x.conf"]))
    (fst (main (env_chunks ["ok"]) menv_start_first dotted_quad 3
            ["unbound-control"; "start"; "-c"; "x.conf"])) /\
  snd (main (env_chunks ["ok"]) menv_plain dotted_quad 3
         ["unbound-control"; "start"]) = Returns runs_unbound /\
  Forall (fun e => is_below e = false)
    (fst (main (env_chunks ["ok"]) menv_plain dotted_quad 3
            ["unbound-control"; "start"])) /\
  snd (main (env_chunks ["ok"]) menv_options dotted_quad 3
         ["unbound-control"; "-c"; "other.conf"; "-s"; "10.0.0.1"; "start"]) =
    Exits (by_fatal_exit "could not exec unbound: Connection refused") /\
  In (in_main (E_execlp "unbound" ["unbound"; "-c"; "other.conf"]))
    (fst (main (env_chunks ["ok"]) menv_options dotted_quad 3
            ["unbound-control"; "-c"; "other.conf"; "-s"; "10.0.0.1";
             "start"])).
Proof.
  destruct (main_start_runs_unbound (env_chunks ["ok"]) menv_start_first
              dotted_quad 3 ["unbound-control"; "start"; "-c"; "x.conf"] [])
    as [Hmoved _]; try reflexivity.
  rewrite (Hmoved eq_refl).
  split; [reflexivity |]. split; [cbn; auto 20 |].
  destruct (main_start_runs_unbound (env_chunks ["ok"]) menv_plain
              dotted_quad 3 ["unbound-control"; "start"] [])
    as [Hruns _]; try reflexivity.
  destruct (main_start_runs_unbound (env_chunks ["ok"]) menv_options
              dotted_quad 3
              ["unbound-control"; "-c"; "other.conf"; "-s"; "10.0.0.1";
               "start"] [])
    as [_ Hfails]; try reflexivity.
  rewrite (Hruns eq_refl).
  rewrite (Hfails (-1) eq_refl); [| lia].
  split; [reflexivity |]. split; [cbn; repeat constructor |].
  split; [reflexivity |]. cbn. auto 20.
Defined.

Lemma main_runs_go_on_a_command_witness :
  snd (main (env_chunks ["ok"]) menv_command_first dotted_quad 3
         ["unbound-control"; "x"; "-c"; "start"]) = Returns (returned 0) /\
  In (below (E_config_read "start"))
    (fst (main (env_chunks ["ok"]) menv_command_first dotted_quad 3
            ["unbound-control"; "x"; "-c"; "start"])) /\
  snd (main (env_chunks ["ok"]) menv_plain dotted_quad 3
         ["unbound-control"; "status"]) = Returns (returned 0) /\
  snd (main (env_chunks ["ok"]) menv_plain dotted_quad 3
         ["unbound-control"; "start"; "now"]) = Returns (returned 0).
Proof.
  rewrite (main_runs_go_on_a_command (env_chunks ["ok"]) menv_command_first
             dotted_quad 3 ["unbound-control"; "x"; "-c"; "start"]);
    [| reflexivity | discriminate | right; discriminate].
  split; [reflexivity |].
  split; [vm_compute; repeat (first [left; reflexivity | right]) |].
  rewrite (main_runs_go_on_a_command (env_chunks ["ok"]) menv_plain
             dotted_quad 3 ["unbound-control"; "status"]);
    [| reflexivity | discriminate | right; discriminate].
  rewrite (main_runs_go_on_a_command (env_chunks ["ok"]) menv_plain
             dotted_quad 3 ["unbound-control"; "start"; "now"]);
    [| reflexivity | discriminate | left; discriminate].
  split; reflexivity.
Defined.

Lemma startup_seeds_within_the_buffer_witness :
  In (in_main (E_RAND_seed
                 (seed_buffer 7 (Z.lxor (1225324800 mod UINT_RANGE)
                                   (4242 mod UINT_RANGE))) 256))
    (fst (startup menv_options)) /\
  Forall (fun w => 0 <= fst w /\ fst w + 4 <= 256)
    (seed_buffer 7 (Z.lxor (1225324800 mod UINT_RANGE)
                      (4242 mod UINT_RANGE))).
Proof.
  assert (H : In (in_main (E_RAND_seed
                 (seed_buffer 7 (Z.lxor (1225324800 mod UINT_RANGE)
                                   (4242 mod UINT_RANGE))) 256))
                (fst (startup menv_options))).
  { cbn. auto 20. }
  split; [exact H |].
  assert (Hsz : 0 < sizeof_unsigned) by reflexivity.
  destruct (startup_seeds_within_the_buffer menv_options _ 256 Hsz H)
    as [_ [_ Hin]].
  exact Hin.
Defined.
